(** * my-tiny-toolset: source-model extraction, fingerprinting, diffing, drift

    A shallow embedding of the parts of
    - [TOOLSET/version_tracker.py]            (class [VersionTracker]),
    - [tools/code_analyzer.py]                (class [CodeAnalyzer]),
    - [TOOLSET/validation-tools/drift_detector.py]
    that extract records and endpoints from parsed Python files, fingerprint
    records, diff two snapshots and score inventory drift.

    Conventions of the embedding.
    - A Python [str] is a Rocq [string]; a character stands for the code
      point of the same number (0..255).
    - A Python [dict] is an association list in insertion order
      ([dict_set] overwrites the value in place and keeps the position of
      the key, as CPython does).
    - [None] is [None]; an [Optional[str]] is an [option string].
    - Library calls are modelled by what they return: [ast.parse] and
      [ast.walk] by the sequence of nodes the walk yields, [ast.unparse] by
      the text it renders, [hashlib.md5] by RFC 1321, [json.dumps] by the
      encoder for the one shape it is applied to. *)

From Stdlib Require Import ZArith List String Ascii Bool Lia Permutation Sorted DecimalString.
Import ListNotations.
Local Open Scope list_scope.
Local Open Scope string_scope.

(** ** Python strings *)

Module Py.

(** [needle in hay] for two strings. *)
Fixpoint str_in (needle hay : string) : bool :=
  String.prefix needle hay ||
  match hay with
  | EmptyString => false
  | String _ rest => str_in needle rest
  end.

(** [x in xs] for a list of strings. *)
Definition list_in (x : string) (xs : list string) : bool :=
  existsb (String.eqb x) xs.

Definition code (c : ascii) : Z := Z.of_N (N_of_ascii c).
Definition chr (z : Z) : ascii := ascii_of_N (Z.to_N z).

(** [str.upper()], on the ASCII letters (it is only applied to the names
    of the verb list). *)
Definition upper_char (c : ascii) : ascii :=
  if (97 <=? code c)%Z && (code c <=? 122)%Z then chr (code c - 32) else c.

Fixpoint upper (s : string) : string :=
  match s with
  | EmptyString => EmptyString
  | String c rest => String (upper_char c) (upper rest)
  end.

(** [str.lower()], on the ASCII letters. *)
Definition lower_char (c : ascii) : ascii :=
  if (65 <=? code c)%Z && (code c <=? 90)%Z then chr (code c + 32) else c.

Fixpoint lower (s : string) : string :=
  match s with
  | EmptyString => EmptyString
  | String c rest => String (lower_char c) (lower rest)
  end.

(** [sep.join(parts)]. *)
Fixpoint join (sep : string) (parts : list string) : string :=
  match parts with
  | [] => ""
  | [p] => p
  | p :: rest => p ++ sep ++ join sep rest
  end.

(** [s.replace(old, new)] for a non-empty [old]: [skip] counts the
    characters of a match that are still to be dropped. *)
Fixpoint replace_from (old new : string) (skip : nat) (s : string) : string :=
  match s with
  | EmptyString => EmptyString
  | String c rest =>
      match skip with
      | S k => replace_from old new k rest
      | O =>
          if String.prefix old s
          then new ++ replace_from old new (String.length old - 1) rest
          else String c (replace_from old new 0 rest)
      end
  end.

Definition replace (old new s : string) : string := replace_from old new 0 s.

(** Whitespace of [str.strip()] among the code points below 256. *)
Definition is_space (c : ascii) : bool :=
  let n := code c in
  ((9 <=? n) && (n <=? 13) || (28 <=? n) && (n <=? 32) || (n =? 133) || (n =? 160))%Z.

Fixpoint lstrip (s : string) : string :=
  match s with
  | EmptyString => EmptyString
  | String c rest => if is_space c then lstrip rest else s
  end.

Fixpoint rstrip (s : string) : string :=
  match s with
  | EmptyString => EmptyString
  | String c rest =>
      match rstrip rest with
      | EmptyString => if is_space c then EmptyString else String c EmptyString
      | r => String c r
      end
  end.

Definition strip (s : string) : string := lstrip (rstrip s).

(** [s.split("\n", 1)]: the text before the first newline and, when there
    is a newline, the text after it. *)
Fixpoint split_first_line (s : string) : string * option string :=
  match s with
  | EmptyString => (EmptyString, None)
  | String c rest =>
      if (code c =? 10)%Z then (EmptyString, Some rest)
      else let '(h, t) := split_first_line rest in (String c h, t)
  end.

(** [sorted(xs)] for a list of strings: Python orders strings by code
    point, and a sort of a total order has one result whatever the
    algorithm, so insertion is used. *)
Fixpoint insert_sorted (x : string) (xs : list string) : list string :=
  match xs with
  | [] => [x]
  | y :: rest => if String.leb x y then x :: xs else y :: insert_sorted x rest
  end.

Fixpoint sorted (xs : list string) : list string :=
  match xs with
  | [] => []
  | x :: rest => insert_sorted x (sorted rest)
  end.

(** *** Dictionaries with string keys, in insertion order *)

Definition dict (V : Type) : Type := list (string * V).

Fixpoint dict_get {V} (d : dict V) (k : string) : option V :=
  match d with
  | [] => None
  | (k', v) :: rest => if String.eqb k k' then Some v else dict_get rest k
  end.

Definition dict_mem {V} (k : string) (d : dict V) : bool :=
  match dict_get d k with Some _ => true | None => false end.

(** [d[k] = v] *)
Fixpoint dict_set {V} (d : dict V) (k : string) (v : V) : dict V :=
  match d with
  | [] => [(k, v)]
  | (k', v') :: rest =>
      if String.eqb k k' then (k', v) :: rest else (k', v') :: dict_set rest k v
  end.

Definition dict_keys {V} (d : dict V) : list string := map fst d.
Definition dict_values {V} (d : dict V) : list V := map snd d.

(** [{key(x): x for x in xs}] *)
Definition dict_of_list {V} (key : V -> string) (xs : list V) : dict V :=
  fold_left (fun d x => dict_set d (key x) x) xs [].

(** [d.setdefault(k, []).append(x)] *)
Definition dict_append {V} (d : dict (list V)) (k : string) (x : V) : dict (list V) :=
  match dict_get d k with
  | Some l => dict_set d k (l ++ [x])%list
  | None => dict_set d k [x]
  end.

(** [len(xs)] *)
Definition len {A} (xs : list A) : Z := Z.of_nat (List.length xs).

(** [sum(1 for x in xs if p(x))] *)
Definition count_if {A} (p : A -> bool) (xs : list A) : Z :=
  fold_left (fun n x => if p x then (n + 1)%Z else n) xs 0%Z.

(** [s.split(sep)] for a separator of one character. *)
Fixpoint split_on (sep : ascii) (s : string) : list string :=
  match s with
  | EmptyString => [EmptyString]
  | String c rest =>
      if Ascii.eqb c sep then EmptyString :: split_on sep rest
      else match split_on sep rest with
           | first :: others => String c first :: others
           | [] => [String c EmptyString]
           end
  end.

(** [sorted(d.items())]: the keys of a dictionary are distinct, so the
    order of two items is the order of their keys. *)
Fixpoint insert_item {V} (x : string * V) (xs : list (string * V)) : list (string * V) :=
  match xs with
  | [] => [x]
  | y :: rest => if String.leb (fst x) (fst y) then x :: xs else y :: insert_item x rest
  end.

Fixpoint sorted_items {V} (d : dict V) : list (string * V) :=
  match d with
  | [] => []
  | x :: rest => insert_item x (sorted_items rest)
  end.

(** [max(xs, key=key, default=None)]: the first element with the
    greatest key. *)
Definition max_by {A} (key : A -> Z) (xs : list A) : option A :=
  match xs with
  | [] => None
  | x :: rest =>
      Some (fold_left (fun best y => if (key best <? key y)%Z then y else best) rest x)
  end.

(** [xs.sort(key=key, reverse=True)]: descending, and stable (elements
    with equal keys keep their order). *)
Fixpoint insert_desc {A} (key : A -> Z) (x : A) (xs : list A) : list A :=
  match xs with
  | [] => [x]
  | y :: rest => if (key x <? key y)%Z then y :: insert_desc key x rest else x :: xs
  end.

Fixpoint sort_desc {A} (key : A -> Z) (xs : list A) : list A :=
  match xs with
  | [] => []
  | x :: rest => insert_desc key x (sort_desc key rest)
  end.

(** [list(set(xs))]: the distinct elements of [xs]. Python does not fix
    their order; the order of the last occurrences is taken. *)
Definition list_of_set (xs : list string) : list string := nodup string_dec xs.

End Py.

(** ** hashlib.md5 (RFC 1321) and the JSON text that is hashed *)

Module Md5.

Local Open Scope Z_scope.

Definition byte := Z.
Definition word := Z.

Definition wrap (x : Z) : word := x mod 2 ^ 32.
Definition add32 (a b : word) : word := wrap (a + b).
Definition not32 (a : word) : word := Z.lxor a 0xFFFFFFFF.
Definition rotl32 (x : word) (c : Z) : word :=
  Z.lor (wrap (Z.shiftl x c)) (Z.shiftr x (32 - c)).

Definition shifts : list Z :=
  [7; 12; 17; 22; 7; 12; 17; 22; 7; 12; 17; 22; 7; 12; 17; 22;
   5; 9; 14; 20; 5; 9; 14; 20; 5; 9; 14; 20; 5; 9; 14; 20;
   4; 11; 16; 23; 4; 11; 16; 23; 4; 11; 16; 23; 4; 11; 16; 23;
   6; 10; 15; 21; 6; 10; 15; 21; 6; 10; 15; 21; 6; 10; 15; 21]%Z.

Definition sines : list word :=
  [0xd76aa478; 0xe8c7b756; 0x242070db; 0xc1bdceee; 0xf57c0faf; 0x4787c62a; 0xa8304613; 0xfd469501;
   0x698098d8; 0x8b44f7af; 0xffff5bb1; 0x895cd7be; 0x6b901122; 0xfd987193; 0xa679438e; 0x49b40821;
   0xf61e2562; 0xc040b340; 0x265e5a51; 0xe9b6c7aa; 0xd62f105d; 0x02441453; 0xd8a1e681; 0xe7d3fbc8;
   0x21e1cde6; 0xc33707d6; 0xf4d50d87; 0x455a14ed; 0xa9e3e905; 0xfcefa3f8; 0x676f02d9; 0x8d2a4c8a;
   0xfffa3942; 0x8771f681; 0x6d9d6122; 0xfde5380c; 0xa4beea44; 0x4bdecfa9; 0xf6bb4b60; 0xbebfbc70;
   0x289b7ec6; 0xeaa127fa; 0xd4ef3085; 0x04881d05; 0xd9d4d039; 0xe6db99e5; 0x1fa27cf8; 0xc4ac5665;
   0xf4292244; 0x432aff97; 0xab9423a7; 0xfc93a039; 0x655b59c3; 0x8f0ccc92; 0xffeff47d; 0x85845dd1;
   0x6fa87e4f; 0xfe2ce6e0; 0xa3014314; 0x4e0811a1; 0xf7537e82; 0xbd3af235; 0x2ad7d2bb; 0xeb86d391]%Z.

Record state := { sa : word; sb : word; sc : word; sd : word }.

Definition init : state :=
  {| sa := 0x67452301; sb := 0xefcdab89; sc := 0x98badcfe; sd := 0x10325476 |}%Z.

(** One of the 64 operations on a block [m] of sixteen words. *)
Definition step (m : list word) (st : state) (i : nat) : state :=
  let '(Build_state a b c d) := st in
  let iz := Z.of_nat i in
  let '(f, g) :=
    if (iz <? 16)%Z then (Z.lor (Z.land b c) (Z.land (not32 b) d), iz)
    else if (iz <? 32)%Z then (Z.lor (Z.land d b) (Z.land (not32 d) c), (5 * iz + 1) mod 16)
    else if (iz <? 48)%Z then (Z.lxor (Z.lxor b c) d, (3 * iz + 5) mod 16)
    else (Z.lxor c (Z.lor b (not32 d)), (7 * iz) mod 16) in
  let f' := add32 (add32 (add32 f a) (nth i sines 0)) (nth (Z.to_nat g) m 0) in
  {| sa := d; sb := add32 b (rotl32 f' (nth i shifts 0)); sc := b; sd := c |}%Z.

Definition process_block (st : state) (m : list word) : state :=
  let r := fold_left (step m) (seq 0 64) st in
  {| sa := add32 (sa st) (sa r); sb := add32 (sb st) (sb r);
     sc := add32 (sc st) (sc r); sd := add32 (sd st) (sd r) |}.

(** Little-endian bytes of a number, and back. *)
Fixpoint le_bytes (n : nat) (x : Z) : list byte :=
  match n with
  | O => []
  | S k => (x mod 256) :: le_bytes k (x / 256)
  end%Z.

Fixpoint le_word (bs : list byte) : Z :=
  match bs with
  | [] => 0
  | b :: rest => b + 256 * le_word rest
  end%Z.

(** The message followed by 0x80, zeros up to 56 modulo 64, and the bit
    length on eight bytes. *)
Definition pad (msg : list byte) : list byte :=
  let len := Z.of_nat (List.length msg) in
  let zeros := Z.to_nat ((55 - len) mod 64) in
  (msg ++ [128] ++ repeat 0 zeros ++ le_bytes 8 ((8 * len) mod 2 ^ 64))%list.

(** Groups of [n] consecutive elements; [fuel] bounds the number of
    groups. *)
Fixpoint chunks {A} (fuel n : nat) (l : list A) : list (list A) :=
  match fuel with
  | O => []
  | S k =>
      match l with
      | [] => []
      | _ => firstn n l :: chunks k n (skipn n l)
      end
  end.

Definition words_of_block (block : list byte) : list word :=
  map le_word (chunks 16 4 block).

Definition digest (msg : list byte) : list byte :=
  let p := pad msg in
  let blocks := chunks (List.length p) 64 p in
  let st := fold_left (fun st b => process_block st (words_of_block b)) blocks init in
  (le_bytes 4 (sa st) ++ le_bytes 4 (sb st) ++ le_bytes 4 (sc st) ++ le_bytes 4 (sd st))%list.

Definition hex_digit (n : Z) : ascii :=
  if (n <? 10)%Z then Py.chr (48 + n) else Py.chr (87 + n).

Definition hex_byte (b : byte) : string :=
  String (hex_digit (b / 16)) (String (hex_digit (b mod 16)) EmptyString).

Fixpoint hex (bs : list byte) : string :=
  match bs with
  | [] => EmptyString
  | b :: rest => hex_byte b ++ hex rest
  end.

(** [s.encode()]: UTF-8 of code points below 256. *)
Fixpoint encode (s : string) : list byte :=
  match s with
  | EmptyString => []
  | String c rest =>
      let n := Py.code c in
      if (n <? 128)%Z then n :: encode rest
      else (192 + n / 64)%Z :: (128 + n mod 64)%Z :: encode rest
  end.

(** [hashlib.md5(data).hexdigest()] *)
Definition hexdigest (data : list byte) : string := hex (digest data).

End Md5.

Module Json.

(** The escapes of [json.dumps] with [ensure_ascii=True]: the quote and
    the backslash, the short forms of five control characters, and
    [\u00xx] for every other character outside [' '..'~']. *)
Definition escape_char (c : ascii) : string :=
  let n := Py.code c in
  if (n =? 34)%Z then "\" ++ String c ""
  else if (n =? 92)%Z then "\\"
  else if (n =? 10)%Z then "\n"
  else if (n =? 13)%Z then "\r"
  else if (n =? 9)%Z then "\t"
  else if (n =? 12)%Z then "\f"
  else if (n =? 8)%Z then "\b"
  else if (32 <=? n)%Z && (n <=? 126)%Z then String c ""
  else "\u00" ++ Md5.hex_byte n.

Fixpoint escape (s : string) : string :=
  match s with
  | EmptyString => EmptyString
  | String c rest => escape_char c ++ escape rest
  end.

Definition quote : string := String (Py.chr 34) "".

Definition dumps_str (s : string) : string := quote ++ escape s ++ quote.

Definition dumps_list (xs : list string) : string :=
  "[" ++ Py.join ", " (map dumps_str xs) ++ "]".

(** [json.dumps({"name": name, "bases": bases, "fields": fields},
    sort_keys=True)]: the keys come out as bases, fields, name. *)
Definition dumps_structure (name : string) (bases fields : list string) : string :=
  "{" ++ dumps_str "bases" ++ ": " ++ dumps_list bases ++ ", " ++
  dumps_str "fields" ++ ": " ++ dumps_list fields ++ ", " ++
  dumps_str "name" ++ ": " ++ dumps_str name ++ "}".

End Json.

(** ** The syntax trees the tools read *)

Module Ast.

(** The value of an [ast.Constant]. [COther] stands for a float, complex,
    bytes or Ellipsis constant, kept as its truth value and its [str()]
    text. *)
Inductive constant :=
| CNone
| CBool (b : bool)
| CInt (z : Z)
| CStr (s : string)
| COther (truth : bool) (text : string).

(** Expressions, as far as the tools tell them apart. *)
#[local] Set Warnings "-register-all".
Inductive expr :=
| Name (id : string)
| Attribute (value : expr) (attr : string)
| Call (func : expr) (args : list expr) (keywords : list (option string * expr))
| Constant (value : constant)
| ListLit (elts : list expr)
| OtherExpr.

(** A keyword argument [arg=value]; [arg] is [None] for [**value]. *)
Definition keyword : Type := option string * expr.

(** A statement of a class body. Annotations and initializers are kept as
    the text [ast.unparse] renders (or [str()] of the node when that
    fails), since the tools only use them through that text. *)
Inductive stmt :=
| AnnAssign (target : expr) (annotation : string) (value : option string)
| OtherStmt.

(** A positional parameter [arg: annotation]. *)
Record arg := { arg_name : string; arg_annotation : option string }.

Record ClassDef := {
  cd_name : string;
  cd_bases : list expr;
  cd_decorator_list : list expr;
  cd_body : list stmt;
  cd_lineno : Z;
  cd_docstring : option string        (* ast.get_docstring(node) *)
}.

(** [FunctionDef] and [AsyncFunctionDef]. *)
Record FunctionDef := {
  fd_is_async : bool;
  fd_name : string;
  fd_args : list arg;                 (* node.args.args *)
  fd_returns : option string;
  fd_decorator_list : list expr;
  fd_lineno : Z;
  fd_docstring : option string
}.

(** A node yielded by [ast.walk(tree)]. *)
Inductive node :=
| NClassDef (c : ClassDef)
| NFunctionDef (f : FunctionDef)
| NOther.

(** What [open], [read] and [ast.parse] make of a file: an exception
    (syntax error, decoding error, unreadable file) with its message, or
    the walk of the tree. *)
Inductive parse_result :=
| ParseError (message : string)
| Parsed (walk : list node).

Record source_file := {
  sf_path : string;                   (* str(py_file) *)
  sf_relative : string;               (* py_file.relative_to(root_path) *)
  sf_parse : parse_result;
  sf_git : option string * option string * option string
                                      (* commit, timestamp, author *)
}.

(** The files that [ast.parse] accepts. *)
Definition parses (file : source_file) : bool :=
  match sf_parse file with
  | Parsed _ => true
  | ParseError _ => false
  end.

(** [bool(value)] *)
Definition truthy (c : constant) : bool :=
  match c with
  | CNone => false
  | CBool b => b
  | CInt z => negb (z =? 0)%Z
  | CStr s => negb (String.eqb s "")
  | COther t _ => t
  end.

(** [str(value)] *)
Definition str (c : constant) : string :=
  match c with
  | CNone => "None"
  | CBool true => "True"
  | CBool false => "False"
  | CInt z => NilZero.string_of_int (Z.to_int z)
  | CStr s => s
  | COther _ text => text
  end.

(** The walk of a file, empty when the file does not parse. *)
Definition walk_of (file : source_file) : list node :=
  match sf_parse file with
  | Parsed walk => walk
  | ParseError _ => []
  end.

Definition is_class (n : node) : bool :=
  match n with NClassDef _ => true | _ => false end.

Definition is_function (n : node) : bool :=
  match n with NFunctionDef _ => true | _ => false end.

(** The names of the class definitions and of the function definitions
    of a walk, in the order of the walk. *)
Definition class_names (walk : list node) : list string :=
  flat_map (fun n => match n with NClassDef c => [cd_name c] | _ => [] end) walk.

Definition function_names (walk : list node) : list string :=
  flat_map (fun n => match n with NFunctionDef f => [fd_name f] | _ => [] end) walk.

End Ast.

(** ** TOOLSET/version_tracker.py *)

Module VersionTracker.
Import Ast.

Record FieldInfo := {
  f_name : string;
  f_type : string;
  f_default : option string;
  f_required : bool;
  f_description : option string
}.

Record ModelVersion := {
  m_name : string;
  m_version : string;
  m_file_path : string;
  m_line_number : Z;
  m_module : string;
  m_base_classes : list string;
  m_fields : list FieldInfo;
  m_docstring : option string;
  m_is_pydantic : bool;
  m_is_dataclass : bool;
  m_hash : string;
  m_git_commit : option string;
  m_git_author : option string;
  m_last_modified : option string;
  m_used_in_endpoints : list string
}.

Record EndpointVersion := {
  e_path : constant;
  e_method : string;
  e_function_name : string;
  e_file_path : string;
  e_line_number : Z;
  e_request_model : option string;
  e_response_model : option string;
  e_status_codes : list Z;
  e_tags : list constant;
  e_summary : option string;
  e_description : option string;
  e_deprecated : constant;
  e_version : string
}.

(** The attributes of a [VersionTracker] that the analysis reads and
    writes, and the lines it prints. *)
Record tracker := {
  project_version : string;
  models : Py.dict ModelVersion;
  endpoints : list EndpointVersion;
  files_analyzed : list string;
  printed : list string
}.

(** [VersionTracker(root_path, version)] *)
Definition new_tracker (version : string) : tracker :=
  {| project_version := version; models := []; endpoints := [];
     files_analyzed := []; printed := [] |}.

Definition set_models (t : tracker) (ms : Py.dict ModelVersion) : tracker :=
  {| project_version := project_version t; models := ms; endpoints := endpoints t;
     files_analyzed := files_analyzed t; printed := printed t |}.

Definition add_endpoint (t : tracker) (e : EndpointVersion) : tracker :=
  {| project_version := project_version t; models := models t;
     endpoints := endpoints t ++ [e];
     files_analyzed := files_analyzed t; printed := printed t |}.

Definition add_file (t : tracker) (path : string) : tracker :=
  {| project_version := project_version t; models := models t; endpoints := endpoints t;
     files_analyzed := files_analyzed t ++ [path]; printed := printed t |}.

Definition print (t : tracker) (line : string) : tracker :=
  {| project_version := project_version t; models := models t; endpoints := endpoints t;
     files_analyzed := files_analyzed t; printed := printed t ++ [line] |}.

(** The tracker without its list of files and its printed lines: the
    part the extraction reads. *)
Definition extracted (t : tracker) : tracker :=
  {| project_version := project_version t; models := models t; endpoints := endpoints t;
     files_analyzed := []; printed := [] |}.

(** The names along an attribute chain, innermost last: [a.b.c] gives
    [c; b; a]. *)
Fixpoint attr_parts (e : expr) : list string :=
  match e with
  | Attribute value attr => attr :: attr_parts value
  | Name id => [id]
  | _ => []
  end.

Definition _get_attr_name (e : expr) : string :=
  Py.join "." (rev (attr_parts e)).

Definition _get_decorator_name (decorator : expr) : string :=
  match decorator with
  | Name id => id
  | Call (Name id) _ _ => id
  | Call (Attribute _ _ as func) _ _ => _get_attr_name func
  | Attribute _ _ => _get_attr_name decorator
  | _ => ""
  end.

(** The base classes that are names or attribute chains. *)
Fixpoint base_class_names (bases : list expr) : list string :=
  match bases with
  | [] => []
  | Name id :: rest => id :: base_class_names rest
  | (Attribute _ _ as base) :: rest => _get_attr_name base :: base_class_names rest
  | _ :: rest => base_class_names rest
  end.

(** The annotated assignments to a plain name in a class body. *)
Fixpoint body_fields (body : list stmt) : list FieldInfo :=
  match body with
  | [] => []
  | AnnAssign (Name id) annotation value :: rest =>
      {| f_name := id; f_type := annotation; f_default := value;
         f_required := match value with None => true | Some _ => false end;
         f_description := None |} :: body_fields rest
  | _ :: rest => body_fields rest
  end.

(** The hash of the model structure: the first eight characters of the
    MD5 hex digest of the JSON text of name, sorted bases and sorted
    ["name:type"] strings. *)
Definition field_key (f : FieldInfo) : string := f_name f ++ ":" ++ f_type f.

Definition model_structure (name : string) (base_classes : list string)
    (fields : list FieldInfo) : string :=
  Json.dumps_structure name (Py.sorted base_classes) (Py.sorted (map field_key fields)).

Definition model_hash (name : string) (base_classes : list string)
    (fields : list FieldInfo) : string :=
  String.substring 0 8
    (Md5.hexdigest (Md5.encode (model_structure name base_classes fields))).

Definition module_of_path (relative : string) : string :=
  Py.replace ".py" "" (Py.replace "/" "." (Py.replace "\" "." relative)).

Definition _parse_model (t : tracker) (node : ClassDef) (file : source_file)
    : option ModelVersion :=
  let base_classes := base_class_names (cd_bases node) in
  let is_pydantic := existsb (Py.str_in "BaseModel") base_classes in
  let decorators := map _get_decorator_name (cd_decorator_list node) in
  let is_dataclass := Py.list_in "dataclass" decorators in
  if negb (is_pydantic || is_dataclass) then None
  else
    let fields := body_fields (cd_body node) in
    let '(commit, timestamp, author) := sf_git file in
    Some {| m_name := cd_name node;
            m_version := project_version t;
            m_file_path := sf_relative file;
            m_line_number := cd_lineno node;
            m_module := module_of_path (sf_relative file);
            m_base_classes := base_classes;
            m_fields := fields;
            m_docstring := cd_docstring node;
            m_is_pydantic := is_pydantic;
            m_is_dataclass := is_dataclass;
            m_hash := model_hash (cd_name node) base_classes fields;
            m_git_commit := commit;
            m_git_author := author;
            m_last_modified := timestamp;
            m_used_in_endpoints := [] |}.

Definition _extract_models (t : tracker) (walk : list node) (file : source_file)
    : tracker :=
  fold_left
    (fun t n =>
       match n with
       | NClassDef c =>
           match _parse_model t c file with
           | Some model => set_models t (Py.dict_set (models t) (m_name model) model)
           | None => t
           end
       | _ => t
       end)
    walk t.

(** The decorator names that mark an endpoint. *)
Definition http_verbs : list string :=
  ["get"; "post"; "put"; "patch"; "delete"; "options"; "head"].

(** The four locals the decorator loop of [_parse_endpoint] assigns. *)
Record route := {
  http_method : option string;
  endpoint_path : option constant;
  tags : list constant;
  deprecated : constant
}.

Definition no_route : route :=
  {| http_method := None; endpoint_path := None; tags := []; deprecated := CBool false |}.

(** [[e.value for e in elts if isinstance(e, ast.Constant)]] *)
Fixpoint constant_values (elts : list expr) : list constant :=
  match elts with
  | [] => []
  | Constant v :: rest => v :: constant_values rest
  | _ :: rest => constant_values rest
  end.

Definition arg_is (kw : keyword) (name : string) : bool :=
  match fst kw with
  | Some a => String.eqb a name
  | None => false
  end.

(** One keyword of a matching decorator call. *)
Definition read_keyword (r : route) (kw : keyword) : route :=
  match snd kw with
  | ListLit elts =>
      if arg_is kw "tags"
      then {| http_method := http_method r; endpoint_path := endpoint_path r;
              tags := constant_values elts; deprecated := deprecated r |}
      else r
  | Constant v =>
      if arg_is kw "deprecated"
      then {| http_method := http_method r; endpoint_path := endpoint_path r;
              tags := tags r; deprecated := v |}
      else r
  | _ => r
  end.

(** One turn of the loop over [node.decorator_list]. *)
Definition read_decorator (r : route) (decorator : expr) : route :=
  let dec_name := _get_decorator_name decorator in
  if Py.list_in dec_name http_verbs then
    let r1 :=
      {| http_method := Some (Py.upper dec_name);
         endpoint_path :=
           match decorator with
           | Call _ (Constant v :: _) _ => Some v
           | _ => endpoint_path r
           end;
         tags := tags r; deprecated := deprecated r |} in
    match decorator with
    | Call _ _ keywords => fold_left read_keyword keywords r1
    | _ => r1
    end
  else r.

(** The first known model name that occurs in a type text. *)
Definition find_model (known : list string) (type_str : string) : option string :=
  find (fun model_name => Py.str_in model_name type_str) known.

(** The loop over [node.args.args]: every annotated parameter that
    mentions a known model assigns [request_model]. *)
Definition scan_parameters (known : list string) (args : list arg) : option string :=
  fold_left
    (fun request_model a =>
       match arg_annotation a with
       | Some type_str =>
           match find_model known type_str with
           | Some model_name => Some model_name
           | None => request_model
           end
       | None => request_model
       end)
    args None.

Definition scan_returns (known : list string) (returns : option string) : option string :=
  match returns with
  | Some type_str => find_model known type_str
  | None => None
  end.

(** [bool(x)] for an optional string. *)
Definition nonempty (s : option string) : bool :=
  match s with
  | Some x => negb (String.eqb x "")
  | None => false
  end.

Definition summary_of (docstring : option string) : option string * option string :=
  match docstring with
  | Some d =>
      if String.eqb d "" then (None, None)
      else let '(first, rest) := Py.split_first_line d in
           (Some (Py.strip first), option_map Py.strip rest)
  | None => (None, None)
  end.

Definition _parse_endpoint (t : tracker) (node : FunctionDef) (file : source_file)
    : option EndpointVersion :=
  let r := fold_left read_decorator (fd_decorator_list node) no_route in
  if negb (nonempty (http_method r)) then None
  else
    match http_method r with
    | None => None
    | Some method =>
        let known := Py.dict_keys (models t) in
        let '(summary, description) := summary_of (fd_docstring node) in
        Some {| e_path :=
                  match endpoint_path r with
                  | Some v => if truthy v then v else CStr ("/" ++ fd_name node)
                  | None => CStr ("/" ++ fd_name node)
                  end;
                e_method := method;
                e_function_name := fd_name node;
                e_file_path := sf_relative file;
                e_line_number := fd_lineno node;
                e_request_model := scan_parameters known (fd_args node);
                e_response_model := scan_returns known (fd_returns node);
                e_status_codes := [];
                e_tags := tags r;
                e_summary := summary;
                e_description := description;
                e_deprecated := deprecated r;
                e_version := project_version t |}
    end.

Definition note_use (m : ModelVersion) (label : string) : ModelVersion :=
  {| m_name := m_name m; m_version := m_version m; m_file_path := m_file_path m;
     m_line_number := m_line_number m; m_module := m_module m;
     m_base_classes := m_base_classes m; m_fields := m_fields m;
     m_docstring := m_docstring m; m_is_pydantic := m_is_pydantic m;
     m_is_dataclass := m_is_dataclass m; m_hash := m_hash m;
     m_git_commit := m_git_commit m; m_git_author := m_git_author m;
     m_last_modified := m_last_modified m;
     m_used_in_endpoints := (m_used_in_endpoints m ++ [label])%list |}.

(** [if model and model in self.models:
        self.models[model].used_in_endpoints.append(label)] *)
Definition link_model (t : tracker) (model : option string) (label : string) : tracker :=
  match model with
  | Some name =>
      if String.eqb name "" then t
      else match Py.dict_get (models t) name with
           | Some m => set_models t (Py.dict_set (models t) name (note_use m label))
           | None => t
           end
  | None => t
  end.

Definition _extract_endpoints (t : tracker) (walk : list node) (file : source_file)
    : tracker :=
  fold_left
    (fun t n =>
       match n with
       | NFunctionDef f =>
           match _parse_endpoint t f file with
           | Some endpoint =>
               let label := e_method endpoint ++ " " ++ str (e_path endpoint) in
               let t1 := add_endpoint t endpoint in
               let t2 := link_model t1 (e_request_model endpoint) label in
               link_model t2 (e_response_model endpoint) label
           | None => t
           end
       | _ => t
       end)
    walk t.

(** The body of the [try] of [_analyze_file]: it raises, or returns the
    tracker after the two extractions. *)
Inductive outcome :=
| Raised (message : string)
| Returned (t : tracker).

Definition _analyze_file_try (t : tracker) (file : source_file) : outcome :=
  match sf_parse file with
  | ParseError message => Raised message
  | Parsed walk => Returned (_extract_endpoints (_extract_models t walk file) walk file)
  end.

Definition diagnostic (file : source_file) (message : string) : string :=
  "Error analyzing " ++ sf_path file ++ ": " ++ message.

(** One diagnostic for every file of a list that does not parse. *)
Definition diagnostics_of (files : list source_file) : list string :=
  flat_map
    (fun f =>
       match sf_parse f with
       | ParseError message => [diagnostic f message]
       | Parsed _ => []
       end)
    files.

(** [_analyze_file]: [except Exception as e: print(...)]. *)
Definition _analyze_file (t : tracker) (file : source_file) : tracker :=
  match _analyze_file_try t file with
  | Raised message => print t (diagnostic file message)
  | Returned t' => t'
  end.

Definition default_exclude_patterns : list string :=
  ["venv"; ".venv"; "__pycache__"; "node_modules"; ".git"; "analysis_output"].

Definition excluded (patterns : list string) (file : source_file) : bool :=
  existsb (fun pattern => Py.str_in pattern (sf_path file)) patterns.

(** [analyze_directory]: [files] is what [root_path.rglob("*.py")]
    yields. *)
Definition python_files (files : list source_file)
    (exclude_patterns : option (list string)) : list source_file :=
  let patterns :=
    match exclude_patterns with
    | Some ps => ps
    | None => default_exclude_patterns
    end in
  filter (fun f => negb (excluded patterns f)) files.

Definition analyze_directory (t : tracker) (files : list source_file)
    (exclude_patterns : option (list string)) : tracker :=
  fold_left (fun t f => add_file (_analyze_file t f) (sf_relative f))
    (python_files files exclude_patterns) t.

(** *** Snapshots on disk and their comparison *)

(** A field and a model as [json.load] returns them from a file written by
    [export_to_json]. The keys [name] and [type] are indexed directly by
    [compare_with_previous] and are always there; [hash] and [fields] are
    read with [.get] and may be absent. *)
Record json_field := {
  jf_name : string;
  jf_type : string;
  jf_default : option string;
  jf_required : bool
}.

Record json_model := {
  jm_name : string;
  jm_hash : option string;
  jm_fields : option (list json_field)
}.

(** The document: [previous_data.get("models", [])]. *)
Record json_document := { jd_models : option (list json_model) }.

(** [asdict] followed by [json.dump] and [json.load]. *)
Definition field_to_json (f : FieldInfo) : json_field :=
  {| jf_name := f_name f; jf_type := f_type f;
     jf_default := f_default f; jf_required := f_required f |}.

Definition model_to_json (m : ModelVersion) : json_model :=
  {| jm_name := m_name m; jm_hash := Some (m_hash m);
     jm_fields := Some (map field_to_json (m_fields m)) |}.

(** The models of the document [export_to_json] writes. *)
Definition export_to_json (t : tracker) : json_document :=
  {| jd_models := Some (map model_to_json (Py.dict_values (models t))) |}.

Record breaking_change := {
  bc_type : string;
  bc_model : string;
  bc_field : option string;
  bc_old_type : option string;
  bc_new_type : option string;
  bc_severity : string
}.

Record changes := {
  models_added : list string;
  models_removed : list string;
  models_modified : list string;
  fields_added : Py.dict (list string);
  fields_removed : Py.dict (list string);
  fields_modified : Py.dict (list string);
  breaking_changes : list breaking_change
}.

Definition no_changes : changes :=
  {| models_added := []; models_removed := []; models_modified := [];
     fields_added := []; fields_removed := []; fields_modified := [];
     breaking_changes := [] |}.

Definition model_removed (name : string) : breaking_change :=
  {| bc_type := "model_removed"; bc_model := name; bc_field := None;
     bc_old_type := None; bc_new_type := None; bc_severity := "high" |}.

Definition required_field_added (name field_name : string) : breaking_change :=
  {| bc_type := "required_field_added"; bc_model := name; bc_field := Some field_name;
     bc_old_type := None; bc_new_type := None; bc_severity := "high" |}.

Definition field_removed (name field_name : string) : breaking_change :=
  {| bc_type := "field_removed"; bc_model := name; bc_field := Some field_name;
     bc_old_type := None; bc_new_type := None; bc_severity := "high" |}.

Definition field_type_changed (name field_name old_type new_type : string)
    : breaking_change :=
  {| bc_type := "field_type_changed"; bc_model := name; bc_field := Some field_name;
     bc_old_type := Some old_type; bc_new_type := Some new_type;
     bc_severity := "high" |}.

(** The updates of the [changes] dictionary. *)
Definition add_model_added (c : changes) (name : string) : changes :=
  {| models_added := (models_added c ++ [name])%list; models_removed := models_removed c;
     models_modified := models_modified c; fields_added := fields_added c;
     fields_removed := fields_removed c; fields_modified := fields_modified c;
     breaking_changes := breaking_changes c |}.

Definition add_model_removed (c : changes) (name : string) : changes :=
  {| models_added := models_added c; models_removed := (models_removed c ++ [name])%list;
     models_modified := models_modified c; fields_added := fields_added c;
     fields_removed := fields_removed c; fields_modified := fields_modified c;
     breaking_changes := breaking_changes c |}.

Definition add_model_modified (c : changes) (name : string) : changes :=
  {| models_added := models_added c; models_removed := models_removed c;
     models_modified := (models_modified c ++ [name])%list; fields_added := fields_added c;
     fields_removed := fields_removed c; fields_modified := fields_modified c;
     breaking_changes := breaking_changes c |}.

Definition add_field_added (c : changes) (name field_name : string) : changes :=
  {| models_added := models_added c; models_removed := models_removed c;
     models_modified := models_modified c;
     fields_added := Py.dict_append (fields_added c) name field_name;
     fields_removed := fields_removed c; fields_modified := fields_modified c;
     breaking_changes := breaking_changes c |}.

Definition add_field_removed (c : changes) (name field_name : string) : changes :=
  {| models_added := models_added c; models_removed := models_removed c;
     models_modified := models_modified c; fields_added := fields_added c;
     fields_removed := Py.dict_append (fields_removed c) name field_name;
     fields_modified := fields_modified c;
     breaking_changes := breaking_changes c |}.

Definition add_field_modified (c : changes) (name field_name : string) : changes :=
  {| models_added := models_added c; models_removed := models_removed c;
     models_modified := models_modified c; fields_added := fields_added c;
     fields_removed := fields_removed c;
     fields_modified := Py.dict_append (fields_modified c) name field_name;
     breaking_changes := breaking_changes c |}.

Definition add_breaking (c : changes) (b : breaking_change) : changes :=
  {| models_added := models_added c; models_removed := models_removed c;
     models_modified := models_modified c; fields_added := fields_added c;
     fields_removed := fields_removed c; fields_modified := fields_modified c;
     breaking_changes := (breaking_changes c ++ [b])%list |}.

(** [current["hash"] != previous.get("hash")] *)
Definition hash_differs (current : ModelVersion) (previous : json_model) : bool :=
  match jm_hash previous with
  | Some h => negb (String.eqb (m_hash current) h)
  | None => true
  end.

(** The three loops over the fields of a modified model. A loop
    [for k in d: ... d[k] ...] over a dictionary is written as a fold
    over its entries. *)
Definition compare_fields (c : changes) (name : string)
    (current_fields : Py.dict FieldInfo) (previous_fields : Py.dict json_field)
    : changes :=
  let c1 :=
    fold_left
      (fun c '(field_name, f) =>
         if negb (Py.dict_mem field_name previous_fields) then
           let c' := add_field_added c name field_name in
           if f_required f then add_breaking c' (required_field_added name field_name)
           else c'
         else c)
      current_fields c in
  let c2 :=
    fold_left
      (fun c '(field_name, _) =>
         if negb (Py.dict_mem field_name current_fields) then
           add_breaking (add_field_removed c name field_name)
             (field_removed name field_name)
         else c)
      previous_fields c1 in
  fold_left
    (fun c '(field_name, f) =>
       match Py.dict_get previous_fields field_name with
       | Some pf =>
           if negb (String.eqb (f_type f) (jf_type pf)) then
             add_breaking (add_field_modified c name field_name)
               (field_type_changed name field_name (jf_type pf) (f_type f))
           else c
       | None => c
       end)
    current_fields c2.

Definition fields_of_json (previous : json_model) : list json_field :=
  match jm_fields previous with
  | Some fs => fs
  | None => []
  end.

(** [{m["name"]: m for m in previous_data.get("models", [])}] *)
Definition previous_models_of (previous_data : json_document) : Py.dict json_model :=
  Py.dict_of_list jm_name
    (match jd_models previous_data with Some ms => ms | None => [] end).

(** The body of the [try] of [compare_with_previous], once the previous
    document is loaded. *)
Definition compare_models (current_models : Py.dict ModelVersion)
    (previous_data : json_document) : changes :=
  let previous_models := previous_models_of previous_data in
  let c1 :=
    fold_left
      (fun c '(name, _) =>
         if negb (Py.dict_mem name previous_models) then add_model_added c name else c)
      current_models no_changes in
  let c2 :=
    fold_left
      (fun c '(name, _) =>
         if negb (Py.dict_mem name current_models)
         then add_breaking (add_model_removed c name) (model_removed name)
         else c)
      previous_models c1 in
  fold_left
    (fun c '(name, current) =>
       match Py.dict_get previous_models name with
       | Some previous =>
           if hash_differs current previous then
             compare_fields (add_model_modified c name) name
               (Py.dict_of_list f_name (m_fields current))
               (Py.dict_of_list jf_name (fields_of_json previous))
           else c
       | None => c
       end)
    current_models c2.

(** [compare_with_previous]: [previous_file] is [None] when the file
    cannot be opened or is not JSON; the exception handler then returns
    the empty dictionary, here [None]. *)
Definition compare_with_previous (t : tracker) (previous_file : option json_document)
    : option changes :=
  match previous_file with
  | Some previous_data => Some (compare_models (models t) previous_data)
  | None => None
  end.

(** What every entry of [self.models] satisfies: it is filed under the
    name of the model, the hash is the hash of the model's own name,
    bases and fields, and a field is required exactly when it has no
    default. *)
Definition well_formed_model (entry : string * ModelVersion) : Prop :=
  let '(key, m) := entry in
  key = m_name m /\
  m_hash m = model_hash (m_name m) (m_base_classes m) (m_fields m) /\
  Forall (fun f => f_required f = true <-> f_default f = None) (m_fields m).

Definition well_formed_models (ms : Py.dict ModelVersion) : Prop :=
  NoDup (Py.dict_keys ms) /\ Forall well_formed_model ms.

(** Two models that agree on what the hash reads: the name, the base
    names and the (field name, type text) pairs, in any order. *)
Definition same_shape (p c : ModelVersion) : Prop :=
  m_name p = m_name c /\
  Permutation (m_base_classes p) (m_base_classes c) /\
  Permutation (map (fun f => (f_name f, f_type f)) (m_fields p))
              (map (fun f => (f_name f, f_type f)) (m_fields c)).

(** Two snapshots with the same names, and under every name two models of
    the same shape. *)
Definition same_records (previous current : Py.dict ModelVersion) : Prop :=
  forall name,
    match Py.dict_get previous name, Py.dict_get current name with
    | Some p, Some c => same_shape p c
    | None, None => True
    | _, _ => False
    end.

(** The trackers a run can hold: a new one, after any number of calls of
    [analyze_directory]. *)
Inductive analysed : tracker -> Prop :=
| analysed_new (version : string) : analysed (new_tracker version)
| analysed_directory (t : tracker) (files : list source_file)
    (exclude_patterns : option (list string)) :
    analysed t -> analysed (analyze_directory t files exclude_patterns).

(** Every use a model lists is an endpoint of the tracker that names the
    model as its request or response model. *)
Definition uses_recorded (t : tracker) : Prop :=
  forall name m label,
    In (name, m) (models t) -> In label (m_used_in_endpoints m) ->
    exists e, In e (endpoints t) /\
              label = e_method e ++ " " ++ str (e_path e) /\
              (e_request_model e = Some name \/ e_response_model e = Some name).

(** Every model is a Pydantic model or a dataclass. *)
Definition flagged (ms : Py.dict ModelVersion) : Prop :=
  Forall (fun entry => m_is_pydantic (snd entry) || m_is_dataclass (snd entry) = true) ms.

(** *** Git information of a file *)

(** [_get_file_git_info]: [stdout] is the output of
    [git log -1 --format=%H|%aI|%an -- file], or [None] when
    [subprocess.run] raises. Unpacking a split that has not three parts
    raises [ValueError], which the handler swallows. *)
Definition _get_file_git_info (stdout : option string)
    : option string * option string * option string :=
  match stdout with
  | Some out =>
      if negb (String.eqb (Py.strip out) "") then
        match Py.split_on "|" (Py.strip out) with
        | [commit; timestamp; author] => (Some commit, Some timestamp, Some author)
        | _ => (None, None, None)
        end
      else (None, None, None)
  | None => (None, None, None)
  end.

(** *** The exports *)

(** The summary of the document [export_to_json] writes; [s_files_analyzed]
    and [s_project_version] are its keys [files_analyzed] and
    [project_version]. *)
Record summary := {
  total_models : Z;
  total_endpoints : Z;
  pydantic_models : Z;
  dataclasses : Z;
  s_files_analyzed : Z;
  s_project_version : string
}.

Definition export_summary (t : tracker) : summary :=
  {| total_models := Py.len (models t);
     total_endpoints := Py.len (endpoints t);
     pydantic_models := Py.count_if m_is_pydantic (Py.dict_values (models t));
     dataclasses := Py.count_if m_is_dataclass (Py.dict_values (models t));
     s_files_analyzed := Py.len (files_analyzed t);
     s_project_version := project_version t |}.

(** The entries of the YAML document of [export_to_yaml]. A key that is
    only set under a condition is an [option]. *)
Record yaml_field := {
  yf_name : string;
  yf_type : string;
  yf_required : bool;
  yf_default : option string
}.

Record yaml_model := {
  ym_name : string;
  ym_version : string;
  ym_file : string;
  ym_module : string;
  ym_hash : string;
  ym_type : string;
  ym_fields : list yaml_field;
  ym_used_in : list string;
  ym_last_modified : option string;
  ym_description : option string
}.

Record yaml_endpoint := {
  ye_path : constant;
  ye_method : string;
  ye_function : string;
  ye_file : string;
  ye_version : string;
  ye_request : option string;
  ye_response : option string;
  ye_tags : option (list constant);
  ye_summary : option string;
  ye_deprecated : option bool
}.

(** The document without its [git] block. *)
Record yaml_document := {
  yd_version : string;
  yd_models : list yaml_model;
  yd_endpoints : list yaml_endpoint
}.

Definition field_to_yaml (f : FieldInfo) : yaml_field :=
  {| yf_name := f_name f; yf_type := f_type f; yf_required := f_required f;
     yf_default := f_default f |}.

Definition model_to_yaml (model : ModelVersion) : yaml_model :=
  {| ym_name := m_name model;
     ym_version := m_version model;
     ym_file := m_file_path model;
     ym_module := m_module model;
     ym_hash := m_hash model;
     ym_type := if m_is_pydantic model then "pydantic" else "dataclass";
     ym_fields := map field_to_yaml (m_fields model);
     ym_used_in := m_used_in_endpoints model;
     ym_last_modified := m_last_modified model;
     ym_description := if nonempty (m_docstring model) then m_docstring model else None |}.

Definition endpoint_to_yaml (endpoint : EndpointVersion) : yaml_endpoint :=
  {| ye_path := e_path endpoint;
     ye_method := e_method endpoint;
     ye_function := e_function_name endpoint;
     ye_file := e_file_path endpoint;
     ye_version := e_version endpoint;
     ye_request :=
       if nonempty (e_request_model endpoint) then e_request_model endpoint else None;
     ye_response :=
       if nonempty (e_response_model endpoint) then e_response_model endpoint else None;
     ye_tags :=
       match e_tags endpoint with
       | [] => None
       | tags => Some tags
       end;
     ye_summary := if nonempty (e_summary endpoint) then e_summary endpoint else None;
     ye_deprecated := if truthy (e_deprecated endpoint) then Some true else None |}.

(** [models_by_file[model.file_path].append(model)] over the models. *)
Definition models_by_file (t : tracker) : Py.dict (list ModelVersion) :=
  fold_left (fun d model => Py.dict_append d (m_file_path model) model)
    (Py.dict_values (models t)) [].

Definition export_to_yaml (t : tracker) : yaml_document :=
  {| yd_version := project_version t;
     yd_models :=
       flat_map (fun '(_, models) => map model_to_yaml models)
         (Py.sorted_items (models_by_file t));
     yd_endpoints := map endpoint_to_yaml (endpoints t) |}.

(** The file name of a manifest of [export_per_file_manifest]. *)
Definition safe_filename (file_path : string) : string :=
  Py.replace ".py" ".yaml" (Py.replace "\" "_" (Py.replace "/" "_" file_path)).

(** *** The command line *)

Record arguments := {
  cli_path : string;
  cli_version : string;
  cli_json : bool;
  cli_yaml : bool;
  cli_manifests : bool;
  cli_mapping : bool;
  cli_compare : option string;
  cli_output_dir : string;
  cli_exclude : list string
}.

(** What [argparse] returns when no option is given. *)
Definition default_arguments : arguments :=
  {| cli_path := "."; cli_version := "1.0.0"; cli_json := false; cli_yaml := false;
     cli_manifests := false; cli_mapping := false; cli_compare := None;
     cli_output_dir := "version_analysis";
     cli_exclude := ["venv"; ".venv"; "__pycache__"; "node_modules"] |}.

(** What a run of [main] leaves: the tracker, the changes when a
    comparison is asked for, and the names of the files and directories
    it writes below the output directory, in order. *)
Record run := {
  run_tracker : tracker;
  run_changes : option (option changes);
  run_written : list string
}.

(** [main]: [files] is what [rglob] yields below [args.path] and
    [previous] what [json.load] makes of a file ([None] when it cannot be
    read). *)
Definition main (args : arguments) (files : list source_file)
    (previous : string -> option json_document) : run :=
  let tracker :=
    analyze_directory (new_tracker (cli_version args)) files (Some (cli_exclude args)) in
  let compared :=
    match cli_compare args with
    | Some file =>
        if negb (String.eqb file "")
        then Some (compare_with_previous tracker (previous file))
        else None
    | None => None
    end in
  {| run_tracker := tracker;
     run_changes := compared;
     run_written :=
       ((match compared with Some _ => ["changes.json"] | None => [] end)
        ++ (if cli_json args || (negb (cli_yaml args) && negb (cli_manifests args))
            then ["version_analysis.json"] else [])
        ++ (if cli_yaml args then ["api_versions.yaml"] else [])
        ++ (if cli_manifests args then ["manifests"] else [])
        ++ (if cli_mapping args
            then ["mapping_analysis.json"; "mapping_report.html"] else []))%list |}.

End VersionTracker.

(** ** The changes between two snapshots, as lists

    A second description of what the loops of
    [VersionTracker.compare_with_previous] collect, to be compared with
    them. *)

Module Diff.
Import VersionTracker.

Definition added_names (current : Py.dict ModelVersion) (previous : Py.dict json_model)
    : list string :=
  flat_map (fun '(name, _) => if negb (Py.dict_mem name previous) then [name] else [])
    current.

Definition removed_names (current : Py.dict ModelVersion) (previous : Py.dict json_model)
    : list string :=
  flat_map (fun '(name, _) => if negb (Py.dict_mem name current) then [name] else [])
    previous.

Definition modified_names (current : Py.dict ModelVersion) (previous : Py.dict json_model)
    : list string :=
  flat_map
    (fun '(name, c) =>
       match Py.dict_get previous name with
       | Some p => if hash_differs c p then [name] else []
       | None => []
       end)
    current.

(** The breaking changes of one modified model: required fields added,
    fields removed, field types changed. *)
Definition required_added (name : string) (current_fields : Py.dict FieldInfo)
    (previous_fields : Py.dict json_field) : list breaking_change :=
  flat_map
    (fun '(field_name, f) =>
       if negb (Py.dict_mem field_name previous_fields) && f_required f
       then [required_field_added name field_name]
       else [])
    current_fields.

Definition removed_fields (name : string) (current_fields : Py.dict FieldInfo)
    (previous_fields : Py.dict json_field) : list breaking_change :=
  flat_map
    (fun '(field_name, _) =>
       if negb (Py.dict_mem field_name current_fields)
       then [field_removed name field_name]
       else [])
    previous_fields.

Definition retyped_fields (name : string) (current_fields : Py.dict FieldInfo)
    (previous_fields : Py.dict json_field) : list breaking_change :=
  flat_map
    (fun '(field_name, f) =>
       match Py.dict_get previous_fields field_name with
       | Some pf =>
           if negb (String.eqb (f_type f) (jf_type pf))
           then [field_type_changed name field_name (jf_type pf) (f_type f)]
           else []
       | None => []
       end)
    current_fields.

Definition field_breaking (name : string) (current_fields : Py.dict FieldInfo)
    (previous_fields : Py.dict json_field) : list breaking_change :=
  (required_added name current_fields previous_fields
   ++ removed_fields name current_fields previous_fields
   ++ retyped_fields name current_fields previous_fields)%list.

Definition model_breaking (previous : Py.dict json_model)
    (entry : string * ModelVersion) : list breaking_change :=
  let '(name, c) := entry in
  match Py.dict_get previous name with
  | Some p =>
      if hash_differs c p
      then field_breaking name (Py.dict_of_list f_name (m_fields c))
             (Py.dict_of_list jf_name (fields_of_json p))
      else []
  | None => []
  end.

Definition breaking (current : Py.dict ModelVersion) (previous : Py.dict json_model)
    : list breaking_change :=
  (map model_removed (removed_names current previous)
   ++ flat_map (model_breaking previous) current)%list.

(** The field names filed under a modified model: the fields added, the
    fields removed and the fields whose type text changed. *)
Definition added_field_names (current_fields : Py.dict FieldInfo)
    (previous_fields : Py.dict json_field) : list string :=
  flat_map
    (fun '(field_name, _) =>
       if negb (Py.dict_mem field_name previous_fields) then [field_name] else [])
    current_fields.

Definition removed_field_names (current_fields : Py.dict FieldInfo)
    (previous_fields : Py.dict json_field) : list string :=
  flat_map
    (fun '(field_name, _) =>
       if negb (Py.dict_mem field_name current_fields) then [field_name] else [])
    previous_fields.

Definition retyped_field_names (current_fields : Py.dict FieldInfo)
    (previous_fields : Py.dict json_field) : list string :=
  flat_map
    (fun '(field_name, f) =>
       match Py.dict_get previous_fields field_name with
       | Some pf => if negb (String.eqb (f_type f) (jf_type pf)) then [field_name] else []
       | None => []
       end)
    current_fields.

(** What [d.setdefault(k, []).append(x)], done for every [x] of [names],
    makes of the entry of [k]: the entry is only created when there is a
    name. *)
Definition extended (entry : option (list string)) (names : list string)
    : option (list string) :=
  match names with
  | [] => entry
  | _ => Some ((match entry with Some l => l | None => [] end) ++ names)%list
  end.

Definition listed (names : list string) : option (list string) :=
  match names with
  | [] => None
  | _ => Some names
  end.

End Diff.

(** ** tools/code_analyzer.py *)

Module CodeAnalyzer.
Import Ast.

(** An entry of [ModelInfo.fields]: the keys name, type and default. *)
Record field := {
  fld_name : string;
  fld_type : string;
  fld_default : option string
}.

Record ModelInfo := {
  mi_name : string;
  mi_file_path : string;
  mi_line_number : Z;
  mi_base_classes : list string;
  mi_fields : list field;
  mi_docstring : option string;
  mi_decorators : list string;
  mi_is_pydantic : bool;
  mi_is_dataclass : bool
}.

(** An entry of [FunctionInfo.parameters]: the keys name and type. *)
Record parameter := {
  prm_name : string;
  prm_type : option string
}.

Record FunctionInfo := {
  fi_name : string;
  fi_file_path : string;
  fi_line_number : Z;
  fi_class_name : option string;
  fi_parameters : list parameter;
  fi_return_type : option string;
  fi_docstring : option string;
  fi_decorators : list string;
  fi_is_async : bool
}.

Record RequestResponseMapping := {
  rm_function_name : string;
  rm_file_path : string;
  rm_request_models : list string;
  rm_response_models : list string;
  rm_http_method : option string;
  rm_endpoint : option constant
}.

Record analyzer := {
  models : list ModelInfo;
  functions : list FunctionInfo;
  mappings : list RequestResponseMapping;
  printed : list string
}.

(** [CodeAnalyzer(root_path)] *)
Definition new_analyzer : analyzer :=
  {| models := []; functions := []; mappings := []; printed := [] |}.

(** [str(node)] of a syntax node, the address left out. *)
Definition node_text (e : expr) : string :=
  match e with
  | Name _ => "<ast.Name object>"
  | Attribute _ _ => "<ast.Attribute object>"
  | Call _ _ _ => "<ast.Call object>"
  | Constant _ => "<ast.Constant object>"
  | ListLit _ => "<ast.List object>"
  | OtherExpr => "<ast.expr object>"
  end.

Definition _get_attr_name (e : expr) : string :=
  Py.join "." (rev (VersionTracker.attr_parts e)).

Definition _get_decorator_name (decorator : expr) : string :=
  match decorator with
  | Name id => id
  | Call (Name id) _ _ => id
  | Call (Attribute _ _ as func) _ _ => _get_attr_name func
  | Attribute _ _ => _get_attr_name decorator
  | _ => node_text decorator
  end.

Fixpoint base_class_names (bases : list expr) : list string :=
  match bases with
  | [] => []
  | Name id :: rest => id :: base_class_names rest
  | (Attribute _ _ as base) :: rest => _get_attr_name base :: base_class_names rest
  | _ :: rest => base_class_names rest
  end.

Fixpoint body_fields (body : list stmt) : list field :=
  match body with
  | [] => []
  | AnnAssign (Name id) annotation value :: rest =>
      {| fld_name := id; fld_type := annotation; fld_default := value |}
      :: body_fields rest
  | _ :: rest => body_fields rest
  end.

(** [_extract_model]: every class is appended to [self.models]. *)
Definition _extract_model (a : analyzer) (node : ClassDef) (file : source_file)
    : analyzer :=
  let base_classes := base_class_names (cd_bases node) in
  let is_pydantic := existsb (Py.str_in "BaseModel") base_classes in
  let decorators := map _get_decorator_name (cd_decorator_list node) in
  let is_dataclass := Py.list_in "dataclass" decorators in
  let model :=
    {| mi_name := cd_name node;
       mi_file_path := sf_relative file;
       mi_line_number := cd_lineno node;
       mi_base_classes := base_classes;
       mi_fields := body_fields (cd_body node);
       mi_docstring := cd_docstring node;
       mi_decorators := decorators;
       mi_is_pydantic := is_pydantic;
       mi_is_dataclass := is_dataclass |} in
  {| models := (models a ++ [model])%list; functions := functions a;
     mappings := mappings a; printed := printed a |}.

(** The analyzer without its printed lines. *)
Definition extracted (a : analyzer) : analyzer :=
  {| models := models a; functions := functions a; mappings := mappings a;
     printed := [] |}.

Definition mapping_verbs : list string := ["get"; "post"; "put"; "patch"; "delete"].

(** The decorator loop of [_detect_req_resp_mapping], on the pair
    [(http_method, endpoint)]. *)
Definition read_decorator (r : option string * option constant) (decorator : expr)
    : option string * option constant :=
  let dec_name := _get_decorator_name decorator in
  if Py.list_in dec_name mapping_verbs then
    (Some (Py.upper dec_name),
     match decorator with
     | Call _ (Constant v :: _) _ => Some v
     | _ => snd r
     end)
  else r.

Definition looks_like_request (param_type : string) : bool :=
  Py.str_in "Request" param_type || Py.str_in "Input" param_type
  || Py.str_in "Body" param_type.

Definition looks_like_response (return_type : string) : bool :=
  Py.str_in "Response" return_type || Py.str_in "Output" return_type.

Fixpoint request_types (parameters : list parameter) : list string :=
  match parameters with
  | [] => []
  | p :: rest =>
      match prm_type p with
      | Some param_type =>
          if negb (String.eqb param_type "") && looks_like_request param_type
          then param_type :: request_types rest
          else request_types rest
      | None => request_types rest
      end
  end.

Definition response_types (return_type : option string) : list string :=
  match return_type with
  | Some rt =>
      if negb (String.eqb rt "") && looks_like_response rt then [rt] else []
  | None => []
  end.

(** [bool(xs)] for a list. *)
Definition nonempty_list {A} (xs : list A) : bool :=
  match xs with [] => false | _ => true end.

Definition _detect_req_resp_mapping (a : analyzer) (node : FunctionDef)
    (function : FunctionInfo) : analyzer :=
  let '(http_method, endpoint) :=
    fold_left read_decorator (fd_decorator_list node) (None, None) in
  let request_models := request_types (fi_parameters function) in
  let response_models := response_types (fi_return_type function) in
  if nonempty_list request_models || nonempty_list response_models
     || VersionTracker.nonempty http_method
  then
    let mapping :=
      {| rm_function_name := fi_name function;
         rm_file_path := fi_file_path function;
         rm_request_models := request_models;
         rm_response_models := response_models;
         rm_http_method := http_method;
         rm_endpoint := endpoint |} in
    {| models := models a; functions := functions a;
       mappings := (mappings a ++ [mapping])%list; printed := printed a |}
  else a.

Definition _extract_function (a : analyzer) (node : FunctionDef) (file : source_file)
    (class_name : option string) : analyzer :=
  let function :=
    {| fi_name := fd_name node;
       fi_file_path := sf_relative file;
       fi_line_number := fd_lineno node;
       fi_class_name := class_name;
       fi_parameters :=
         map (fun x => {| prm_name := arg_name x; prm_type := arg_annotation x |})
           (fd_args node);
       fi_return_type := fd_returns node;
       fi_docstring := fd_docstring node;
       fi_decorators := map _get_decorator_name (fd_decorator_list node);
       fi_is_async := fd_is_async node |} in
  let a1 :=
    {| models := models a; functions := (functions a ++ [function])%list;
       mappings := mappings a; printed := printed a |} in
  _detect_req_resp_mapping a1 node function.

Definition _extract_from_ast (a : analyzer) (walk : list node) (file : source_file)
    : analyzer :=
  fold_left
    (fun a n =>
       match n with
       | NClassDef c => _extract_model a c file
       | NFunctionDef f => _extract_function a f file None
       | NOther => a
       end)
    walk a.

Inductive outcome :=
| Raised (message : string)
| Returned (a : analyzer).

Definition analyze_file_try (a : analyzer) (file : source_file) : outcome :=
  match sf_parse file with
  | ParseError message => Raised message
  | Parsed walk => Returned (_extract_from_ast a walk file)
  end.

(** [analyze_file]: [except Exception as e: print(...)]. *)
Definition analyze_file (a : analyzer) (file : source_file) : analyzer :=
  match analyze_file_try a file with
  | Raised message =>
      {| models := models a; functions := functions a; mappings := mappings a;
         printed := (printed a ++ [VersionTracker.diagnostic file message])%list |}
  | Returned a' => a'
  end.

Definition default_exclude_patterns : list string :=
  ["venv"; ".venv"; "__pycache__"; "node_modules"; ".git"].

Definition python_files (files : list source_file)
    (exclude_patterns : option (list string)) : list source_file :=
  let patterns :=
    match exclude_patterns with
    | Some ps => ps
    | None => default_exclude_patterns
    end in
  filter (fun f => negb (VersionTracker.excluded patterns f)) files.

Definition analyze_directory (a : analyzer) (files : list source_file)
    (exclude_patterns : option (list string)) : analyzer :=
  fold_left analyze_file (python_files files exclude_patterns) a.

(** A mapping that was made from a function the analyzer has recorded. *)
Definition backed (a : analyzer) (m : RequestResponseMapping) : Prop :=
  exists f,
    In f (functions a) /\
    fi_name f = rm_function_name m /\
    fi_file_path f = rm_file_path m /\
    rm_request_models m = request_types (fi_parameters f) /\
    rm_response_models m = response_types (fi_return_type f).

(** A mapping that holds something: a request type, a response type or
    an HTTP method. *)
Definition interesting (m : RequestResponseMapping) : Prop :=
  rm_request_models m <> [] \/ rm_response_models m <> [] \/ rm_http_method m <> None.

End CodeAnalyzer.

(** ** TOOLSET/validation-tools/drift_detector.py *)

Module DriftDetector.

(** An entry of the inventory YAML. A nested mapping that is absent is
    [None] (the code reads it with [.get(key, {})]); a scalar is its text
    and a missing or null scalar is [None]. *)
Record inventory_method := {
  inv_classification : option (Py.dict string);
  inv_models : option (Py.dict string);
  inv_version : option string
}.

(** An entry of [get_code_methods()]. *)
Record code_method := {
  service_class : string;
  request_model : string;
  response_model : string;
  classification : Py.dict string;
  version : option string
}.

Record classification_change := {
  cc_field : string;
  cc_inventory : option string;
  cc_code : option string
}.

(** The entries of the five lists of a drift report. *)
Inductive drift_item :=
| NewMethod (method request_model response_model : string)
    (classification : Py.dict string)
| DeletedMethod (method : string) (was_internal : bool)
| ChangedSignature (method : string)
    (inventory_request inventory_response : option string)
    (code_request code_response : string)
| ChangedClassification (method : string) (changes : list classification_change)
| VersionChange (method : string) (inventory code : string).

Definition or_empty (d : option (Py.dict string)) : Py.dict string :=
  match d with
  | Some x => x
  | None => []
  end.

Definition option_eqb (x y : option string) : bool :=
  match x, y with
  | Some a, Some b => String.eqb a b
  | None, None => true
  | _, _ => false
  end.

Definition classification_keys : list string :=
  ["domain"; "subdomain"; "capability"; "complexity"; "maturity"].

(** The five comparisons of one method's classification. *)
Definition classification_changes (inv_class code_class : Py.dict string)
    : list classification_change :=
  flat_map
    (fun key =>
       if negb (option_eqb (Py.dict_get inv_class key) (Py.dict_get code_class key))
       then [{| cc_field := key; cc_inventory := Py.dict_get inv_class key;
                cc_code := Py.dict_get code_class key |}]
       else [])
    classification_keys.

Definition new_methods_of (inventory : Py.dict inventory_method)
    (code_methods : Py.dict code_method) : list drift_item :=
  flat_map
    (fun '(method_name, cm) =>
       if negb (Py.dict_mem method_name inventory)
       then [NewMethod method_name (request_model cm) (response_model cm)
               (classification cm)]
       else [])
    code_methods.

Definition deleted_methods_of (inventory : Py.dict inventory_method)
    (code_methods : Py.dict code_method) : list drift_item :=
  flat_map
    (fun '(method_name, im) =>
       let tier := Py.dict_get (or_empty (inv_classification im)) "integration_tier" in
       if option_eqb tier (Some "internal") && negb (Py.dict_mem method_name code_methods)
       then [DeletedMethod method_name true]
       else [])
    inventory.

Definition changed_signatures_of (inventory : Py.dict inventory_method)
    (code_methods : Py.dict code_method) : list drift_item :=
  flat_map
    (fun '(method_name, im) =>
       match Py.dict_get code_methods method_name with
       | Some cm =>
           let inv_req := Py.dict_get (or_empty (inv_models im)) "request" in
           let inv_res := Py.dict_get (or_empty (inv_models im)) "response" in
           if negb (option_eqb inv_req (Some (request_model cm)))
              || negb (option_eqb inv_res (Some (response_model cm)))
           then [ChangedSignature method_name inv_req inv_res
                   (request_model cm) (response_model cm)]
           else []
       | None => []
       end)
    inventory.

Definition changed_classification_of (inventory : Py.dict inventory_method)
    (code_methods : Py.dict code_method) : list drift_item :=
  flat_map
    (fun '(method_name, im) =>
       match Py.dict_get code_methods method_name with
       | Some cm =>
           match classification_changes (or_empty (inv_classification im))
                   (classification cm) with
           | [] => []
           | changes => [ChangedClassification method_name changes]
           end
       | None => []
       end)
    inventory.

Definition version_changes_of (inventory : Py.dict inventory_method)
    (code_methods : Py.dict code_method) : list drift_item :=
  flat_map
    (fun '(method_name, im) =>
       match Py.dict_get code_methods method_name with
       | Some cm =>
           match inv_version im, version cm with
           | Some inv_ver, Some code_ver =>
               if negb (String.eqb inv_ver "") && negb (String.eqb code_ver "")
                  && negb (String.eqb inv_ver code_ver)
               then [VersionChange method_name inv_ver code_ver]
               else []
           | _, _ => []
           end
       | None => []
       end)
    inventory.

(** The dictionary of the five lists, in the order the code creates its
    keys. *)
Definition drift_report {A} (new_methods deleted_methods changed_signatures
    changed_classification version_changes : list A) : Py.dict (list A) :=
  [("new_methods", new_methods);
   ("deleted_methods", deleted_methods);
   ("changed_signatures", changed_signatures);
   ("changed_classification", changed_classification);
   ("version_changes", version_changes)].

(** [detect_drift]. The code walks Python sets of method names, whose
    order is not specified; the lists are given in the order of the two
    dictionaries. *)
Definition detect_drift (inventory : Py.dict inventory_method)
    (code_methods : Py.dict code_method) : Py.dict (list drift_item) :=
  drift_report
    (new_methods_of inventory code_methods)
    (deleted_methods_of inventory code_methods)
    (changed_signatures_of inventory code_methods)
    (changed_classification_of inventory code_methods)
    (version_changes_of inventory code_methods).

Definition weights : Py.dict Z :=
  [("new_methods", 1); ("deleted_methods", 3); ("changed_signatures", 2);
   ("changed_classification", 1); ("version_changes", 1)]%Z.

(** [weights.get(category, 1)] *)
Definition weight (category : string) : Z :=
  match Py.dict_get weights category with
  | Some w => w
  | None => 1
  end.

Record score := {
  total_changes : Z;
  drift_score : Z;
  severity : string;
  requires_update : bool
}.

Definition calculate_drift_score {A} (drift : Py.dict (list A)) : score :=
  let score :=
    fold_left
      (fun score '(category, items) =>
         (score + Z.of_nat (List.length items) * weight category)%Z)
      drift 0%Z in
  let total_changes :=
    fold_left (fun n '(_, items) => (n + Z.of_nat (List.length items))%Z) drift 0%Z in
  let severity :=
    if (score =? 0)%Z then "none"
    else if (score <=? 3)%Z then "low"
    else if (score <=? 10)%Z then "medium"
    else "high" in
  {| total_changes := total_changes; drift_score := score; severity := severity;
     requires_update := (0 <? total_changes)%Z |}.

(** The command line of the script. *)
Record arguments := {
  inventory : string;
  json : bool;
  ci_mode : bool
}.

(** What [load_inventory] finds at the inventory path: no file, a file
    that cannot be used (the YAML loader or a later step of the [try]
    raises), or a mapping from method names to entries. *)
Inductive inventory_file :=
| Missing
| Unusable (message : string)
| Loaded (content : Py.dict inventory_method).

(** What the script finds around it. [managed_methods] is [None] when the
    import of the method registry fails. *)
Record environment := {
  collider_exists : bool;
  inventory_at : string -> inventory_file;
  managed_methods : option (Py.dict code_method)
}.

(** [get_code_methods]: the exception handler returns the empty
    dictionary. *)
Definition get_code_methods (env : environment) : Py.dict code_method :=
  match managed_methods env with
  | Some methods => methods
  | None => []
  end.

(** [load_inventory]: the error message, or the inventory. *)
Definition load_inventory (env : environment) (inventory_path : string)
    : string + Py.dict inventory_method :=
  match inventory_at env inventory_path with
  | Missing => inl ("Inventory not found: " ++ inventory_path)
  | Unusable message => inl message
  | Loaded content => inr content
  end.

Record exit := {
  exit_code : Z;
  stderr : list string
}.

(** [main]: [sys.exit] in [setup_collider_path] and at the end of the
    [try] leaves with its code ([SystemExit] is not an [Exception]);
    any [Exception] is reported and leaves with 1. *)
Definition main (args : arguments) (env : environment) : exit :=
  if negb (collider_exists env) then {| exit_code := 1; stderr := [] |}
  else
    match load_inventory env (inventory args) with
    | inl message => {| exit_code := 1; stderr := ["Error: " ++ message] |}
    | inr inv =>
        let code_methods := get_code_methods env in
        let drift := detect_drift inv code_methods in
        let score := calculate_drift_score drift in
        if ci_mode args && requires_update score
        then {| exit_code := 1; stderr := [] |}
        else {| exit_code := 0; stderr := [] |}
    end.

(** The method an entry of a report is about: its key [method]. *)
Definition method_of_item (item : drift_item) : string :=
  match item with
  | NewMethod method _ _ _ => method
  | DeletedMethod method _ => method
  | ChangedSignature method _ _ _ _ => method
  | ChangedClassification method _ => method
  | VersionChange method _ _ => method
  end.

(** [inventory[name].get("classification", {}).get("integration_tier")
    == "internal"] *)
Definition is_internal (im : inventory_method) : bool :=
  option_eqb (Py.dict_get (or_empty (inv_classification im)) "integration_tier")
    (Some "internal").

(** The names of the internal methods of an inventory. *)
Definition internal_methods (inventory : Py.dict inventory_method) : list string :=
  flat_map (fun '(method_name, im) => if is_internal im then [method_name] else [])
    inventory.

End DriftDetector.

(** ** tools/mapping_analyzer.py *)

Module MappingAnalyzer.
Import VersionTracker.

Record DependencyInfo := {
  d_model_name : string;
  depends_on : list string;
  used_by : list string;
  depth : Z
}.

Record ImpactAnalysis := {
  i_model_name : string;
  affected_endpoints : list string;
  affected_models : list string;
  risk_level : string;
  usage_count : Z
}.

(** [MappingStats] without its two floats, [endpoint_coverage] and
    [avg_model_reuse]. *)
Record MappingStats := {
  st_total_models : Z;
  st_total_endpoints : Z;
  st_models_with_endpoints : Z;
  st_orphaned_models : Z;
  most_reused_model : string;
  most_reused_count : Z
}.

(** The other models whose names occur in the field types of a model. *)
Definition dependencies_of (models : Py.dict ModelVersion) (model_name : string)
    (model : ModelVersion) : list string :=
  flat_map
    (fun field =>
       flat_map
         (fun other_model =>
            if Py.str_in other_model (f_type field)
               && negb (String.eqb other_model model_name)
            then [other_model] else [])
         (Py.dict_keys models))
    (m_fields model).

(** The other models with a field type in which the name of a model
    occurs. *)
Definition users_of (models : Py.dict ModelVersion) (model_name : string) : list string :=
  flat_map
    (fun '(other_name, other_model) =>
       if String.eqb other_name model_name then []
       else flat_map
              (fun field => if Py.str_in model_name (f_type field) then [other_name] else [])
              (m_fields other_model))
    models.

(** The two loops of [_calculate_depth] over the fields and the model
    names, [nested] being the recursive call; a call that does not return
    gives no depth. *)
Definition deepest (nested : string -> option Z) (names : list string)
    (fields : list FieldInfo) : option Z :=
  fold_left
    (fun max_depth field =>
       fold_left
         (fun max_depth other_model =>
            if Py.str_in other_model (f_type field) then
              match max_depth, nested other_model with
              | Some m, Some d => Some (Z.max m (1 + d))
              | _, _ => None
              end
            else max_depth)
         names max_depth)
    fields (Some 0%Z).

(** [_calculate_depth], with the number of nested calls bounded by
    [fuel]: [None] when the bound is reached. Each call works on its own
    copy of [visited]. *)
Fixpoint _calculate_depth (fuel : nat) (models : Py.dict ModelVersion)
    (model_name : string) (visited : list string) : option Z :=
  match fuel with
  | O => None
  | S fuel' =>
      if Py.list_in model_name visited then Some 0%Z
      else
        match Py.dict_get models model_name with
        | None => Some 0%Z
        | Some model =>
            deepest
              (fun other_model =>
                 _calculate_depth fuel' models other_model (model_name :: visited))
              (Py.dict_keys models) (m_fields model)
        end
  end.

(** [_analyze_dependencies] *)
Definition _analyze_dependencies (fuel : nat) (t : tracker)
    : option (Py.dict DependencyInfo) :=
  fold_left
    (fun dependencies '(model_name, model) =>
       match dependencies, _calculate_depth fuel (models t) model_name [] with
       | Some deps, Some d =>
           Some (Py.dict_set deps model_name
                   {| d_model_name := model_name;
                      depends_on :=
                        Py.list_of_set (dependencies_of (models t) model_name model);
                      used_by := Py.list_of_set (users_of (models t) model_name);
                      depth := d |})
       | _, _ => None
       end)
    (models t) (Some []).

Definition risk_of (usage_count : Z) : string :=
  if (usage_count =? 0)%Z then "none"
  else if (usage_count <=? 2)%Z then "low"
  else if (usage_count <=? 5)%Z then "medium"
  else "high".

(** [_analyze_impact]: [self.model_dependencies[model_name]] raises
    [KeyError] when the name has no entry, which gives [None]. *)
Definition _analyze_impact (t : tracker) (model_dependencies : Py.dict DependencyInfo)
    : option (Py.dict ImpactAnalysis) :=
  fold_left
    (fun impact '(model_name, model) =>
       match impact, Py.dict_get model_dependencies model_name with
       | Some impact, Some dependency =>
           let affected_endpoints := m_used_in_endpoints model in
           let affected_models := used_by dependency in
           let usage_count :=
             (Py.len affected_endpoints + Py.len affected_models)%Z in
           Some (Py.dict_set impact model_name
                   {| i_model_name := model_name;
                      affected_endpoints := affected_endpoints;
                      affected_models := affected_models;
                      risk_level := risk_of usage_count;
                      usage_count := usage_count |})
       | _, _ => None
       end)
    (models t) (Some []).

Definition uses (m : ModelVersion) : Z := Py.len (m_used_in_endpoints m).

Definition _calculate_stats (t : tracker) : MappingStats :=
  let total_models := Py.len (models t) in
  let models_with_endpoints :=
    Py.count_if (fun m => CodeAnalyzer.nonempty_list (m_used_in_endpoints m))
      (Py.dict_values (models t)) in
  let most_reused := Py.max_by uses (Py.dict_values (models t)) in
  {| st_total_models := total_models;
     st_total_endpoints := Py.len (endpoints t);
     st_models_with_endpoints := models_with_endpoints;
     st_orphaned_models := (total_models - models_with_endpoints)%Z;
     most_reused_model :=
       match most_reused with Some m => m_name m | None => "N/A" end;
     most_reused_count :=
       match most_reused with Some m => uses m | None => 0%Z end |}.

(** What [MappingAnalyzer(version_tracker)] holds after its three
    analyses. *)
Record analysis := {
  model_dependencies : Py.dict DependencyInfo;
  model_impact : Py.dict ImpactAnalysis;
  stats : MappingStats
}.

Definition new_analysis (fuel : nat) (t : tracker) : option analysis :=
  match _analyze_dependencies fuel t with
  | Some dependencies =>
      match _analyze_impact t dependencies with
      | Some impact =>
          Some {| model_dependencies := dependencies; model_impact := impact;
                  stats := _calculate_stats t |}
      | None => None
      end
  | None => None
  end.

(** The rows of the reuse matrix, of the orphaned models and of the
    models of high risk. *)
Record reuse_row := {
  rr_model : string;
  rr_endpoints : list string;
  rr_count : Z;
  rr_file : string
}.

Record orphan_row := {
  or_name : string;
  or_file : string;
  or_fields : Z
}.

Record risk_row := {
  hr_name : string;
  hr_affected_endpoints : list string;
  hr_affected_models : list string;
  hr_usage_count : Z
}.

Definition _generate_reuse_matrix (t : tracker) : list reuse_row :=
  Py.sort_desc rr_count
    (flat_map
       (fun '(model_name, model) =>
          if CodeAnalyzer.nonempty_list (m_used_in_endpoints model)
          then [{| rr_model := model_name;
                   rr_endpoints := m_used_in_endpoints model;
                   rr_count := Py.len (m_used_in_endpoints model);
                   rr_file := m_file_path model |}]
          else [])
       (models t)).

Definition _get_orphaned_models (t : tracker) : list orphan_row :=
  flat_map
    (fun '(model_name, model) =>
       if negb (CodeAnalyzer.nonempty_list (m_used_in_endpoints model))
       then [{| or_name := model_name; or_file := m_file_path model;
                or_fields := Py.len (m_fields model) |}]
       else [])
    (models t).

Definition _get_high_risk_models (a : analysis) : list risk_row :=
  Py.sort_desc hr_usage_count
    (flat_map
       (fun '(model_name, impact) =>
          if String.eqb (risk_level impact) "high"
          then [{| hr_name := model_name;
                   hr_affected_endpoints := affected_endpoints impact;
                   hr_affected_models := affected_models impact;
                   hr_usage_count := usage_count impact |}]
          else [])
       (model_impact a)).

(** The model names that are not in [visited]. *)
Definition unvisited (models : Py.dict ModelVersion) (visited : list string) : list string :=
  filter (fun name => negb (Py.list_in name visited)) (Py.dict_keys models).

End MappingAnalyzer.

(** ** The route of a function, read off its decorators

    A second description of what the decorator loop of
    [VersionTracker._parse_endpoint] finds, written from the decorator
    list as a whole, to be compared with the loop. *)

Module Route.
Import Ast VersionTracker.

(** The last element of a list for which [f] gives a value. *)
Fixpoint last_some {A B} (f : A -> option B) (l : list A) : option B :=
  match l with
  | [] => None
  | x :: rest =>
      match last_some f rest with
      | Some y => Some y
      | None => f x
      end
  end.

(** A decorator whose name is one of the verbs, compared as written. *)
Definition matches (decorator : expr) : bool :=
  Py.list_in (_get_decorator_name decorator) http_verbs.

Definition keywords_of (decorator : expr) : list keyword :=
  match decorator with
  | Call _ _ keywords => keywords
  | _ => []
  end.

(** The constant that is the first positional argument of a call. *)
Definition first_constant (decorator : expr) : option constant :=
  match decorator with
  | Call _ (Constant v :: _) _ => Some v
  | _ => None
  end.

(** The constants of a list literal passed as [tags=[...]]. *)
Definition literal_tags (kw : keyword) : option (list constant) :=
  match snd kw with
  | ListLit elts => if arg_is kw "tags" then Some (constant_values elts) else None
  | _ => None
  end.

(** The constant passed as [deprecated=...]. *)
Definition literal_deprecated (kw : keyword) : option constant :=
  match snd kw with
  | Constant v => if arg_is kw "deprecated" then Some v else None
  | _ => None
  end.

Definition method_of (decorators : list expr) : option string :=
  last_some (fun d => Some (Py.upper (_get_decorator_name d))) (filter matches decorators).

Definition path_of (name : string) (decorators : list expr) : constant :=
  match last_some first_constant (filter matches decorators) with
  | Some v => if truthy v then v else CStr ("/" ++ name)
  | None => CStr ("/" ++ name)
  end.

Definition tags_of (decorators : list expr) : list constant :=
  match last_some literal_tags (flat_map keywords_of (filter matches decorators)) with
  | Some vs => vs
  | None => []
  end.

Definition deprecated_of (decorators : list expr) : constant :=
  match last_some literal_deprecated
          (flat_map keywords_of (filter matches decorators)) with
  | Some v => v
  | None => CBool false
  end.

(** First match wins: the first annotated parameter that mentions a
    known model decides the request model. *)
Fixpoint first_match (known : list string) (args : list arg) : option string :=
  match args with
  | [] => None
  | a :: rest =>
      match arg_annotation a with
      | Some type_str =>
          match find_model known type_str with
          | Some model_name => Some model_name
          | None => first_match known rest
          end
      | None => first_match known rest
      end
  end.

(** A dotted name [a.b] or [a.b.c]: an attribute chain that ends in a
    plain name. *)
Fixpoint dotted (e : expr) : bool :=
  match e with
  | Attribute (Name _) _ => true
  | Attribute value _ => dotted value
  | _ => false
  end.

(** A decorator written with a dotted name: [@a.b] or [@a.b(...)]. *)
Definition qualified (decorator : expr) : bool :=
  match decorator with
  | Call func _ _ => dotted func
  | _ => dotted decorator
  end.

(** The record a node of the walk yields under a given name. *)
Definition record_named (t : tracker) (file : source_file) (name : string) (n : node)
    : option ModelVersion :=
  match n with
  | NClassDef c =>
      match _parse_model t c file with
      | Some m => if String.eqb name (m_name m) then Some m else None
      | None => None
      end
  | _ => None
  end.

End Route.

(** ** Sample inputs *)

Module Samples.
Import Ast VersionTracker.

Definition no_git : option string * option string * option string := (None, None, None).

Definition file_of (path : string) (walk : list node) : source_file :=
  {| sf_path := "/repo/" ++ path; sf_relative := path; sf_parse := Parsed walk;
     sf_git := no_git |}.

Definition class_of (name : string) (bases decorators : list expr) (body : list stmt)
    : ClassDef :=
  {| cd_name := name; cd_bases := bases; cd_decorator_list := decorators;
     cd_body := body; cd_lineno := 1; cd_docstring := None |}.

Definition function_of (name : string) (decorators : list expr) (args : list arg)
    (returns : option string) : FunctionDef :=
  {| fd_is_async := false; fd_name := name; fd_args := args; fd_returns := returns;
     fd_decorator_list := decorators; fd_lineno := 1; fd_docstring := None |}.

(** [class Foo(BaseModel): a: str; b: int = 0], in both orders. *)
Definition foo_a_b : ClassDef :=
  class_of "Foo" [Name "BaseModel"] []
    [AnnAssign (Name "a") "str" None; AnnAssign (Name "b") "int" (Some "0")].

Definition foo_b_a : ClassDef :=
  class_of "Foo" [Name "BaseModel"] []
    [AnnAssign (Name "b") "int" (Some "0"); AnnAssign (Name "a") "str" None].

Definition models_py : source_file := file_of "models.py" [].

(** [@GET("/items") def read_items(): ...] *)
Definition read_items : FunctionDef :=
  function_of "read_items" [Call (Name "GET") [Constant (CStr "/items")] []] [] None.

(** [@get("/items/{id}") def read_item(id: int): ...] *)
Definition read_item : FunctionDef :=
  function_of "read_item" [Call (Name "get") [Constant (CStr "/items/{id}")] []]
    [{| arg_name := "id"; arg_annotation := Some "int" |}] None.

Definition user : ClassDef :=
  class_of "User" [Name "BaseModel"] []
    [AnnAssign (Name "id") "int" None; AnnAssign (Name "name") "str" None].

Definition item : ClassDef :=
  class_of "Item" [Name "BaseModel"] [] [AnnAssign (Name "sku") "str" None].

(** [@post("/orders")
     def create_order(user: User, item: Item) -> Item: ...] *)
Definition create_order : FunctionDef :=
  function_of "create_order" [Call (Name "post") [Constant (CStr "/orders")] []]
    [{| arg_name := "user"; arg_annotation := Some "User" |};
     {| arg_name := "item"; arg_annotation := Some "Item" |}]
    (Some "Item").

Definition orders_py : source_file :=
  file_of "orders.py" [NClassDef user; NClassDef item; NFunctionDef create_order].

(** An inventory with one internal method that the code no longer has. *)
Definition stale_inventory : Py.dict DriftDetector.inventory_method :=
  [("archive_case",
    {| DriftDetector.inv_classification := Some [("integration_tier", "internal")];
       DriftDetector.inv_models := None;
       DriftDetector.inv_version := None |})].

Definition stale_environment : DriftDetector.environment :=
  {| DriftDetector.collider_exists := true;
     DriftDetector.inventory_at := fun _ => DriftDetector.Loaded stale_inventory;
     DriftDetector.managed_methods := Some [] |}.

Definition empty_environment : DriftDetector.environment :=
  {| DriftDetector.collider_exists := true;
     DriftDetector.inventory_at := fun _ => DriftDetector.Missing;
     DriftDetector.managed_methods := Some [] |}.

Definition plain_run : DriftDetector.arguments :=
  {| DriftDetector.inventory := "methods_inventory_v1.yaml";
     DriftDetector.json := false; DriftDetector.ci_mode := false |}.

Definition ci_run : DriftDetector.arguments :=
  {| DriftDetector.inventory := "methods_inventory_v1.yaml";
     DriftDetector.json := false; DriftDetector.ci_mode := true |}.

(** A file with a syntax error between two files that parse. *)
Definition broken_py : source_file :=
  {| sf_path := "/repo/broken.py"; sf_relative := "broken.py";
     sf_parse := ParseError "invalid syntax (broken.py, line 1)"; sf_git := no_git |}.

(** Two versions of a file: [User] loses [age], changes the type of [id],
    gains a required [email] and an optional [nick]; [Legacy] goes
    away. *)
Definition users_v1_py : source_file :=
  file_of "users.py"
    [NClassDef (class_of "User" [Name "BaseModel"] []
       [AnnAssign (Name "id") "int" None; AnnAssign (Name "name") "str" None;
        AnnAssign (Name "age") "int" None]);
     NClassDef (class_of "Legacy" [Name "BaseModel"] []
       [AnnAssign (Name "code") "str" None])].

Definition users_v2_py : source_file :=
  file_of "users.py"
    [NClassDef (class_of "User" [Name "BaseModel"] []
       [AnnAssign (Name "id") "str" None; AnnAssign (Name "name") "str" None;
        AnnAssign (Name "email") "str" None;
        AnnAssign (Name "nick") "str" (Some "None")]);
     NClassDef item].

Definition tracker_v1 : tracker :=
  analyze_directory (new_tracker "1.0.0") [users_v1_py] None.

Definition tracker_v2 : tracker :=
  analyze_directory (new_tracker "1.1.0") [users_v2_py] None.

(** The scenario of the specification: [User] gains a required [email]. *)
Definition user_plain_py : source_file :=
  file_of "user.py" [NClassDef user].

Definition user_email_py : source_file :=
  file_of "user.py"
    [NClassDef (class_of "User" [Name "BaseModel"] []
       [AnnAssign (Name "id") "int" None; AnnAssign (Name "name") "str" None;
        AnnAssign (Name "email") "str" None])].

(** The same record written twice: the fields in another order, a default
    added and one removed, another file, line, docstring and decorator. *)
Definition foo_before_py : source_file :=
  file_of "models.py" [NClassDef foo_a_b].

Definition foo_after_py : source_file :=
  {| sf_path := "/repo/pkg/schemas.py"; sf_relative := "pkg/schemas.py";
     sf_parse :=
       Parsed
         [NClassDef
            {| cd_name := "Foo"; cd_bases := [Name "BaseModel"];
               cd_decorator_list := [Name "dataclass"];
               cd_body := [AnnAssign (Name "b") "int" None;
                           AnnAssign (Name "a") "str" (Some "None")];
               cd_lineno := 40; cd_docstring := Some "A record." |}];
     sf_git := (Some "abc123", Some "2024-01-01", Some "dev") |}.

(** [class Helper: pass] *)
Definition helper : ClassDef := class_of "Helper" [] [] [OtherStmt].

(** [@dataclass class Point(pydantic.BaseModel): x: int] *)
Definition point : ClassDef :=
  class_of "Point" [Attribute (Name "pydantic") "BaseModel"] [Name "dataclass"]
    [AnnAssign (Name "x") "int" None].

(** [class OrderService:
         def create(self, body: OrderRequest) -> OrderResponse: ...
         def _log(self): ...]
    and the same file with the class [OrderService] defined twice. *)
Definition order_service : ClassDef := class_of "OrderService" [] [] [OtherStmt; OtherStmt].

Definition create : FunctionDef :=
  function_of "create" []
    [{| arg_name := "self"; arg_annotation := None |};
     {| arg_name := "body"; arg_annotation := Some "OrderRequest" |}]
    (Some "OrderResponse").

Definition _log : FunctionDef :=
  function_of "_log" [] [{| arg_name := "self"; arg_annotation := None |}] None.

Definition service_py : source_file :=
  file_of "service.py"
    [NOther; NClassDef order_service; NFunctionDef create; NFunctionDef _log;
     NClassDef order_service].

(** [class Address(BaseModel): street: str
     class Customer(BaseModel): address: Address
     class Order(BaseModel): customer: Customer; parent: Optional[Order]
     class Audit(BaseModel): note: str
     @post("/orders") def place(order: Order) -> Order: ...
     @get("/customers") def customers() -> Customer: ...] *)
Definition shop_py : source_file :=
  file_of "shop.py"
    [NClassDef (class_of "Address" [Name "BaseModel"] []
                  [AnnAssign (Name "street") "str" None]);
     NClassDef (class_of "Customer" [Name "BaseModel"] []
                  [AnnAssign (Name "address") "Address" None]);
     NClassDef (class_of "Order" [Name "BaseModel"] []
                  [AnnAssign (Name "customer") "Customer" None;
                   AnnAssign (Name "parent") "Optional[Order]" (Some "None")]);
     NClassDef (class_of "Audit" [Name "BaseModel"] []
                  [AnnAssign (Name "note") "str" None]);
     NFunctionDef
       (function_of "place" [Call (Name "post") [Constant (CStr "/orders")] []]
          [{| arg_name := "order"; arg_annotation := Some "Order" |}] (Some "Order"));
     NFunctionDef
       (function_of "customers" [Call (Name "get") [Constant (CStr "/customers")] []]
          [] (Some "Customer"))].

Definition shop : tracker := analyze_directory (new_tracker "1.0.0") [shop_py] None.

(** [class Ticket(BaseModel): id: int] and three endpoints that take and
    return a [Ticket]. *)
Definition desk_py : source_file :=
  file_of "desk.py"
    [NClassDef (class_of "Ticket" [Name "BaseModel"] [] [AnnAssign (Name "id") "int" None]);
     NFunctionDef
       (function_of "open_ticket" [Call (Name "post") [Constant (CStr "/tickets")] []]
          [{| arg_name := "ticket"; arg_annotation := Some "Ticket" |}] (Some "Ticket"));
     NFunctionDef
       (function_of "update_ticket" [Call (Name "put") [Constant (CStr "/tickets")] []]
          [{| arg_name := "ticket"; arg_annotation := Some "Ticket" |}] (Some "Ticket"));
     NFunctionDef
       (function_of "close_ticket" [Call (Name "delete") [Constant (CStr "/tickets")] []]
          [{| arg_name := "ticket"; arg_annotation := Some "Ticket" |}] (Some "Ticket"))].

Definition desk : tracker := analyze_directory (new_tracker "1.0.0") [desk_py] None.

(** [class Node(BaseModel): next: Optional[Node]
     class Leaf(BaseModel): value: int] *)
Definition tree_py : source_file :=
  file_of "tree.py"
    [NClassDef (class_of "Node" [Name "BaseModel"] []
                  [AnnAssign (Name "next") "Optional[Node]" (Some "None")]);
     NClassDef (class_of "Leaf" [Name "BaseModel"] []
                  [AnnAssign (Name "value") "int" None])].

Definition tree : tracker := analyze_directory (new_tracker "1.0.0") [tree_py] None.

(** The method registry cannot be imported. *)
Definition broken_import_environment : DriftDetector.environment :=
  {| DriftDetector.collider_exists := true;
     DriftDetector.inventory_at := fun _ => DriftDetector.Loaded stale_inventory;
     DriftDetector.managed_methods := None |}.

(** An inventory with one external method, and a registry without it. *)
Definition external_inventory : Py.dict DriftDetector.inventory_method :=
  [("send_mail",
    {| DriftDetector.inv_classification :=
         Some [("domain", "communication"); ("integration_tier", "external")];
       DriftDetector.inv_models := Some [("request", "MailRequest")];
       DriftDetector.inv_version := Some "1.0.0" |})].


(** [@app.get("/items") async def list_items(): ...] *)
Definition list_items : FunctionDef :=
  {| fd_is_async := true; fd_name := "list_items"; fd_args := []; fd_returns := None;
     fd_decorator_list :=
       [Call (Attribute (Name "app") "get") [Constant (CStr "/items")] []];
     fd_lineno := 3; fd_docstring := None |}.

(** [@dataclasses.dataclass class Pixel: x: int] *)
Definition pixel : ClassDef :=
  class_of "Pixel" [] [Attribute (Name "dataclasses") "dataclass"]
    [AnnAssign (Name "x") "int" None].

(** [@dataclasses.dataclass(frozen=True) class Voxel(BaseModel): x: int] *)
Definition voxel : ClassDef :=
  class_of "Voxel" [Name "BaseModel"]
    [Call (Attribute (Name "dataclasses") "dataclass") []
       [(Some "frozen", Constant (CBool true))]]
    [AnnAssign (Name "x") "int" None].

(** A project checked out below a directory whose name contains [venv]. *)
Definition venvs_main_py : source_file :=
  {| sf_path := "/home/dev/venvs/shop/main.py"; sf_relative := "main.py";
     sf_parse := Parsed [NClassDef user; NFunctionDef read_item]; sf_git := no_git |}.

End Samples.

(** * Properties *)

(** ** Strings, sorting and dictionaries *)

Section PythonStrings.

Lemma prefix_append (needle hay : string) :
  String.prefix needle hay = true <-> exists rest, hay = needle ++ rest.
Proof.
  revert hay. induction needle as [|c needle IH]; intros [|c' hay]; simpl.
  - split; [intros _; now exists ""|reflexivity].
  - split; [intros _; now exists (String c' hay)|reflexivity].
  - split; [discriminate|intros [rest H]; discriminate].
  - destruct (Ascii.ascii_dec c c') as [->|Hne].
    + rewrite IH. split; intros [rest H]; exists rest; congruence.
    + split; [discriminate|intros [rest H]; congruence].
Qed.

(** [str_in] is the substring test of Python's [in]. *)
Lemma str_in_substring (needle hay : string) :
  Py.str_in needle hay = true <-> exists before rest, hay = before ++ needle ++ rest.
Proof.
  induction hay as [|c hay IH]; cbn [Py.str_in].
  - rewrite orb_false_r, prefix_append. split.
    + intros [rest H]. now exists "", rest.
    + intros (before & rest & H). destruct before; [now exists rest|discriminate].
  - rewrite orb_true_iff, IH, prefix_append. split.
    + intros [[rest H]|(before & rest & H)].
      * now exists "", rest.
      * exists (String c before), rest. simpl. now rewrite H.
    + intros (before & rest & H). destruct before as [|c' before]; simpl in H.
      * left. now exists rest.
      * right. injection H as _ H. now exists before, rest.
Qed.

Example upper_verbs :
  map Py.upper VersionTracker.http_verbs
  = ["GET"; "POST"; "PUT"; "PATCH"; "DELETE"; "OPTIONS"; "HEAD"].
Proof. reflexivity. Qed.

Example module_of_nested_path :
  VersionTracker.module_of_path "pkg/sub/models.py" = "pkg.sub.models".
Proof. reflexivity. Qed.

Example sorted_by_code_point :
  Py.sorted ["b:int"; "a:str"; "B:int"; "a:int"; "ab:x"]
  = ["B:int"; "a:int"; "a:str"; "ab:x"; "b:int"].
Proof. reflexivity. Qed.

End PythonStrings.

Section StringOrder.

Lemma ascii_compare_refl (a : ascii) : Ascii.compare a a = Eq.
Proof. unfold Ascii.compare. apply N.compare_refl. Qed.

Lemma ascii_compare_lt_trans (a b c : ascii) :
  Ascii.compare a b = Lt -> Ascii.compare b c = Lt -> Ascii.compare a c = Lt.
Proof.
  unfold Ascii.compare. rewrite !N.compare_lt_iff. apply N.lt_trans.
Qed.

Lemma string_compare_lt_trans (a b c : string) :
  String.compare a b = Lt -> String.compare b c = Lt -> String.compare a c = Lt.
Proof.
  revert b c. induction a as [|x a IH]; intros [|y b] [|z c]; simpl;
    try discriminate; try reflexivity.
  destruct (Ascii.compare x y) eqn:Hxy; try discriminate;
    destruct (Ascii.compare y z) eqn:Hyz; try discriminate; intros H1 H2.
  - apply Ascii.compare_eq_iff in Hxy, Hyz. subst.
    rewrite ascii_compare_refl. eauto.
  - apply Ascii.compare_eq_iff in Hxy. subst. now rewrite Hyz.
  - apply Ascii.compare_eq_iff in Hyz. subst. now rewrite Hxy.
  - now rewrite (ascii_compare_lt_trans _ _ _ Hxy Hyz).
Qed.

Lemma string_leb_refl (a : string) : String.leb a a = true.
Proof.
  unfold String.leb. induction a as [|x a IH]; simpl; [reflexivity|].
  now rewrite ascii_compare_refl.
Qed.

Lemma string_leb_trans (a b c : string) :
  String.leb a b = true -> String.leb b c = true -> String.leb a c = true.
Proof.
  unfold String.leb.
  destruct (String.compare a b) eqn:Hab; try discriminate; intros _;
    destruct (String.compare b c) eqn:Hbc; try discriminate; intros _.
  - apply String.compare_eq_iff in Hab. subst. now rewrite Hbc.
  - apply String.compare_eq_iff in Hab. subst. now rewrite Hbc.
  - apply String.compare_eq_iff in Hbc. subst. now rewrite Hab.
  - now rewrite (string_compare_lt_trans _ _ _ Hab Hbc).
Qed.

Lemma string_leb_false (a b : string) :
  String.leb a b = false -> String.leb b a = true.
Proof.
  intros H. destruct (String.leb_total a b) as [E|E]; congruence.
Qed.

(** Two insertions commute, in any list. *)
Lemma insert_sorted_comm (x y : string) (l : list string) :
  Py.insert_sorted x (Py.insert_sorted y l) = Py.insert_sorted y (Py.insert_sorted x l).
Proof.
  induction l as [|z l IH]; simpl.
  - destruct (String.leb x y) eqn:Hxy, (String.leb y x) eqn:Hyx; try reflexivity.
    + now rewrite (String.leb_antisym _ _ Hxy Hyx).
    + apply string_leb_false in Hxy. congruence.
  - destruct (String.leb y z) eqn:Hyz, (String.leb x z) eqn:Hxz; simpl;
      rewrite ?Hyz, ?Hxz.
    + destruct (String.leb x y) eqn:Hxy, (String.leb y x) eqn:Hyx;
        rewrite ?Hyz, ?Hxz; try reflexivity.
      * now rewrite (String.leb_antisym _ _ Hxy Hyx).
      * apply string_leb_false in Hxy. congruence.
    + destruct (String.leb x y) eqn:Hxy.
      * rewrite (string_leb_trans _ _ _ Hxy Hyz) in Hxz. discriminate.
      * reflexivity.
    + destruct (String.leb y x) eqn:Hyx.
      * rewrite (string_leb_trans _ _ _ Hyx Hxz) in Hyz. discriminate.
      * reflexivity.
    + now rewrite IH.
Qed.

(** [sorted] does not see the order of its argument. *)
Lemma sorted_permutation (l1 l2 : list string) :
  Permutation l1 l2 -> Py.sorted l1 = Py.sorted l2.
Proof.
  induction 1; simpl.
  - reflexivity.
  - now f_equal.
  - apply insert_sorted_comm.
  - congruence.
Qed.

Lemma insert_sorted_permutation (x : string) (l : list string) :
  Permutation (Py.insert_sorted x l) (x :: l).
Proof.
  induction l as [|y l IH]; simpl; [reflexivity|].
  destruct (String.leb x y); [reflexivity|].
  rewrite IH. apply perm_swap.
Qed.

Lemma sorted_is_permutation (l : list string) : Permutation (Py.sorted l) l.
Proof.
  induction l as [|x l IH]; simpl; [reflexivity|].
  rewrite insert_sorted_permutation. now constructor.
Qed.

Lemma insert_sorted_ordered (x : string) (l : list string) :
  Sorted (fun a b => String.leb a b = true) l ->
  Sorted (fun a b => String.leb a b = true) (Py.insert_sorted x l).
Proof.
  induction 1 as [|y l Hs IH Hd]; simpl.
  - repeat constructor.
  - destruct (String.leb x y) eqn:Hxy.
    + repeat constructor; assumption.
    + constructor; [assumption|].
      apply string_leb_false in Hxy.
      destruct l as [|z l]; simpl.
      * now constructor.
      * destruct (String.leb x z); constructor; [assumption|].
        now inversion Hd.
Qed.

(** [sorted] returns an ordered list. *)
Lemma sorted_ordered (l : list string) :
  Sorted (fun a b => String.leb a b = true) (Py.sorted l).
Proof.
  induction l as [|x l IH]; simpl; [constructor|].
  now apply insert_sorted_ordered.
Qed.

End StringOrder.

Section Dictionaries.

Context {V : Type}.
Implicit Types (d : Py.dict V) (k : string) (v : V).

Lemma dict_get_set d k v k' :
  Py.dict_get (Py.dict_set d k v) k' =
  if String.eqb k' k then Some v else Py.dict_get d k'.
Proof.
  induction d as [|[k0 v0] d IH]; simpl.
  - reflexivity.
  - destruct (String.eqb_spec k k0) as [->|Hne]; simpl.
    + destruct (String.eqb k' k0); reflexivity.
    + rewrite IH. destruct (String.eqb_spec k' k0) as [->|]; [|reflexivity].
      destruct (String.eqb_spec k0 k); congruence.
Qed.

Lemma dict_keys_set d k v k' :
  In k' (Py.dict_keys (Py.dict_set d k v)) <-> k' = k \/ In k' (Py.dict_keys d).
Proof.
  unfold Py.dict_keys. induction d as [|[k0 v0] d IH]; simpl.
  - intuition.
  - destruct (String.eqb_spec k k0) as [->|Hne]; simpl; [intuition|].
    rewrite IH. intuition.
Qed.

Lemma dict_set_nodup d k v :
  NoDup (Py.dict_keys d) -> NoDup (Py.dict_keys (Py.dict_set d k v)).
Proof.
  unfold Py.dict_keys. induction d as [|[k0 v0] d IH]; simpl; intros H.
  - repeat constructor. intros [].
  - inversion H as [|? ? Hn Hd]; subst.
    destruct (String.eqb_spec k k0) as [->|Hne]; simpl.
    + now constructor.
    + constructor; [|now apply IH].
      intros Hin. apply (dict_keys_set d k v k0) in Hin. intuition.
Qed.

Lemma dict_set_fresh d k v :
  ~ In k (Py.dict_keys d) -> Py.dict_set d k v = (d ++ [(k, v)])%list.
Proof.
  unfold Py.dict_keys. induction d as [|[k0 v0] d IH]; simpl; intros H.
  - reflexivity.
  - destruct (String.eqb_spec k k0) as [->|Hne]; [intuition|].
    rewrite IH; intuition.
Qed.

Lemma dict_get_in d k v : Py.dict_get d k = Some v -> In (k, v) d.
Proof.
  induction d as [|[k0 v0] d IH]; simpl; [discriminate|].
  destruct (String.eqb_spec k k0) as [->|Hne]; intros H.
  - injection H as ->. now left.
  - right. now apply IH.
Qed.

Lemma dict_get_none d k : Py.dict_get d k = None <-> ~ In k (Py.dict_keys d).
Proof.
  unfold Py.dict_keys. induction d as [|[k0 v0] d IH]; simpl.
  - intuition.
  - destruct (String.eqb_spec k k0) as [->|Hne].
    + split; [discriminate|intuition].
    + rewrite IH. intuition congruence.
Qed.

Lemma dict_mem_keys d k : Py.dict_mem k d = true <-> In k (Py.dict_keys d).
Proof.
  unfold Py.dict_mem. destruct (Py.dict_get d k) eqn:E.
  - split; [intros _|reflexivity].
    apply dict_get_in in E. unfold Py.dict_keys.
    change k with (fst (k, v)). now apply in_map.
  - apply dict_get_none in E. split; [discriminate|contradiction].
Qed.

Lemma dict_mem_false d k : Py.dict_mem k d = false <-> ~ In k (Py.dict_keys d).
Proof.
  rewrite <- dict_mem_keys. destruct (Py.dict_mem k d); intuition congruence.
Qed.

Lemma dict_in_get d k v :
  NoDup (Py.dict_keys d) -> In (k, v) d -> Py.dict_get d k = Some v.
Proof.
  unfold Py.dict_keys. induction d as [|[k0 v0] d IH]; simpl; intros Hnd [];
    inversion Hnd as [|? ? Hn Hd]; subst.
  - injection H as -> ->. now rewrite String.eqb_refl.
  - destruct (String.eqb_spec k k0) as [->|Hne]; [|now apply IH].
    exfalso. apply Hn. change k0 with (fst (k0, v)). now apply in_map.
Qed.

Variable key : V -> string.

Lemma dict_of_list_from_nodup (xs : list V) d :
  NoDup (Py.dict_keys d) ->
  NoDup (Py.dict_keys (fold_left (fun d x => Py.dict_set d (key x) x) xs d)).
Proof.
  revert d. induction xs as [|x xs IH]; simpl; intros d H; [assumption|].
  apply IH. now apply dict_set_nodup.
Qed.

Lemma dict_of_list_nodup (xs : list V) : NoDup (Py.dict_keys (Py.dict_of_list key xs)).
Proof. apply dict_of_list_from_nodup. constructor. Qed.

Lemma dict_of_list_from_keys (xs : list V) d k :
  In k (Py.dict_keys (fold_left (fun d x => Py.dict_set d (key x) x) xs d)) <->
  In k (Py.dict_keys d) \/ In k (map key xs).
Proof.
  revert d. induction xs as [|x xs IH]; simpl; intros d; [intuition|].
  rewrite IH, dict_keys_set. intuition.
Qed.

Lemma dict_of_list_keys (xs : list V) k :
  In k (Py.dict_keys (Py.dict_of_list key xs)) <-> In k (map key xs).
Proof.
  unfold Py.dict_of_list. rewrite dict_of_list_from_keys. simpl. intuition.
Qed.

Lemma dict_of_list_from_get (xs : list V) d k x :
  Py.dict_get (fold_left (fun d x => Py.dict_set d (key x) x) xs d) k = Some x ->
  (key x = k /\ In x xs) \/ Py.dict_get d k = Some x.
Proof.
  revert d. induction xs as [|y xs IH]; simpl; intros d H.
  - now right.
  - destruct (IH _ H) as [[E I]|H0]; [left; auto|].
    rewrite dict_get_set in H0.
    destruct (String.eqb_spec k (key y)) as [->|Hne].
    + injection H0 as <-. left. auto.
    + now right.
Qed.

Lemma dict_of_list_get (xs : list V) k x :
  Py.dict_get (Py.dict_of_list key xs) k = Some x -> key x = k /\ In x xs.
Proof.
  intros H. apply dict_of_list_from_get in H. destruct H as [H|H]; [exact H|].
  discriminate.
Qed.

Lemma dict_of_list_from_distinct (xs : list V) d :
  NoDup (Py.dict_keys d ++ map key xs) ->
  fold_left (fun d x => Py.dict_set d (key x) x) xs d =
  (d ++ map (fun x => (key x, x)) xs)%list.
Proof.
  revert d. induction xs as [|x xs IH]; simpl; intros d H.
  - now rewrite app_nil_r.
  - rewrite dict_set_fresh.
    + rewrite IH.
      * now rewrite <- app_assoc.
      * unfold Py.dict_keys in *. rewrite map_app. simpl.
        rewrite <- app_assoc. exact H.
    + apply NoDup_remove_2 in H. intros Hin. apply H. apply in_or_app. now left.
Qed.

(** A list without repeated keys becomes the dictionary of its elements,
    in the same order. *)
Lemma dict_of_list_distinct (xs : list V) :
  NoDup (map key xs) ->
  Py.dict_of_list key xs = map (fun x => (key x, x)) xs.
Proof.
  intros H. unfold Py.dict_of_list. now rewrite dict_of_list_from_distinct.
Qed.

End Dictionaries.

(** A loop whose every turn leaves the state as it is. *)
Lemma fold_left_unchanged {A B} (f : A -> B -> A) (l : list B) (a : A) :
  (forall x, In x l -> f a x = a) -> fold_left f l a = a.
Proof.
  induction l as [|x l IH]; simpl; intros H; [reflexivity|].
  rewrite H by now left. apply IH. intros y Hy. apply H. now right.
Qed.

(** ** The fingerprint of a record *)

Section Fingerprint.
Import Ast VersionTracker.

(** The test suite of RFC 1321, and a text outside ASCII. *)
Example md5_of_nothing : Md5.hexdigest (Md5.encode "") = "d41d8cd98f00b204e9800998ecf8427e".
Proof. vm_compute. reflexivity. Qed.

Example md5_of_a : Md5.hexdigest (Md5.encode "a") = "0cc175b9c0f1b6a831c399e269772661".
Proof. vm_compute. reflexivity. Qed.

Example md5_of_abc : Md5.hexdigest (Md5.encode "abc") = "900150983cd24fb0d6963f7d28e17f72".
Proof. vm_compute. reflexivity. Qed.

Example md5_of_message_digest :
  Md5.hexdigest (Md5.encode "message digest") = "f96b697d7cb7938d525a2f31aaf161d0".
Proof. vm_compute. reflexivity. Qed.

Example md5_of_alphabet :
  Md5.hexdigest (Md5.encode "abcdefghijklmnopqrstuvwxyz")
  = "c3fcd3d76192e4007dfb496cca67e13b".
Proof. vm_compute. reflexivity. Qed.

Example md5_of_two_blocks :
  Md5.hexdigest
    (Md5.encode "ABCDEFGHIJKLMNOPQRSTUVWXYZabcdefghijklmnopqrstuvwxyz0123456789")
  = "d174ab98d277d9f5a5611c2c9f419d9f".
Proof. vm_compute. reflexivity. Qed.

Example md5_of_eighty_digits :
  Md5.hexdigest
    (Md5.encode ("1234567890" ++ "1234567890" ++ "1234567890" ++ "1234567890" ++
                 "1234567890" ++ "1234567890" ++ "1234567890" ++ "1234567890"))
  = "57edf4a22be3c955ac49da2e2107b67a".
Proof. vm_compute. reflexivity. Qed.

Example md5_of_latin1 :
  Md5.hexdigest (Md5.encode (String (Py.chr 233) (String (Py.chr 255) "")))
  = "568c76f96afe38f816b04e27850ee78e".
Proof. vm_compute. reflexivity. Qed.

(** The digest of the JSON text of a name with a quote, a backslash, a
    delete character, a newline and an e-acute, as [hashlib] gives it:
    the escapes are those of [json.dumps]. *)
Example md5_of_escaped_name :
  Md5.hexdigest
    (Md5.encode
       (Json.dumps_structure
          (String "A" (String (Py.chr 34) (String "b" (String (Py.chr 92)
             (String "c" (String (Py.chr 127) (String (Py.chr 10)
                (String (Py.chr 233) ""))))))))
          (Py.sorted ["x.Y"; "BaseModel"]) (Py.sorted [])))
  = "5c161ea23932748037b3c0399afc86a9".
Proof. vm_compute. reflexivity. Qed.

Lemma le_bytes_length (n : nat) (x : Z) : List.length (Md5.le_bytes n x) = n.
Proof. revert x. induction n; simpl; intros; [reflexivity|]. now rewrite IHn. Qed.

Lemma string_length_append (a b : string) :
  String.length (a ++ b) = String.length a + String.length b.
Proof. induction a; simpl; [reflexivity|]. now rewrite IHa. Qed.

Lemma hex_length (bs : list Md5.byte) :
  String.length (Md5.hex bs) = 2 * List.length bs.
Proof.
  induction bs as [|b bs IH]; simpl; [reflexivity|]. rewrite IH. lia.
Qed.

(** An MD5 hex digest has 32 characters. *)
Lemma hexdigest_length (data : list Md5.byte) :
  String.length (Md5.hexdigest data) = 32.
Proof.
  unfold Md5.hexdigest, Md5.digest. rewrite hex_length.
  rewrite !length_app, !le_bytes_length. reflexivity.
Qed.

Lemma substring_length (n : nat) (s : string) :
  n <= String.length s -> String.length (String.substring 0 n s) = n.
Proof.
  revert s. induction n as [|n IH]; intros [|c s]; simpl; intros H;
    try reflexivity; try lia.
  rewrite IH; [reflexivity|lia].
Qed.

Lemma model_hash_length name bases fields :
  String.length (model_hash name bases fields) = 8.
Proof.
  unfold model_hash. apply substring_length. rewrite hexdigest_length. lia.
Qed.

(** The hash only reads the name and the two sorted lists. *)
Lemma model_hash_sorted name bases1 bases2 fields1 fields2 :
  Py.sorted bases1 = Py.sorted bases2 ->
  Py.sorted (map field_key fields1) = Py.sorted (map field_key fields2) ->
  model_hash name bases1 fields1 = model_hash name bases2 fields2.
Proof.
  intros Hb Hf. unfold model_hash, model_structure. now rewrite Hb, Hf.
Qed.

Lemma field_key_of_pair (fields : list FieldInfo) :
  map field_key fields =
  map (fun p => fst p ++ ":" ++ snd p) (map (fun f => (f_name f, f_type f)) fields).
Proof. rewrite map_map. reflexivity. Qed.

(** The hash does not see the order of the bases or of the fields. *)
Lemma model_hash_permutation name bases1 bases2 fields1 fields2 :
  Permutation bases1 bases2 ->
  Permutation (map (fun f => (f_name f, f_type f)) fields1)
              (map (fun f => (f_name f, f_type f)) fields2) ->
  model_hash name bases1 fields1 = model_hash name bases2 fields2.
Proof.
  intros Hb Hf. apply model_hash_sorted.
  - now apply sorted_permutation.
  - apply sorted_permutation. rewrite !field_key_of_pair. now apply Permutation_map.
Qed.

Lemma distinct_names_distinct_pairs (fields : list FieldInfo) :
  NoDup (map f_name fields) -> NoDup (map (fun f => (f_name f, f_type f)) fields).
Proof.
  intros H. apply (NoDup_map_inv fst). rewrite map_map. exact H.
Qed.

(** What [_parse_model] returns carries the hash of its own name, bases
    and fields. *)
Lemma parse_model_hash t node file m :
  _parse_model t node file = Some m ->
  m_name m = cd_name node /\
  m_base_classes m = base_class_names (cd_bases node) /\
  m_fields m = body_fields (cd_body node) /\
  m_hash m = model_hash (m_name m) (m_base_classes m) (m_fields m).
Proof.
  unfold _parse_model. destruct (negb _); [discriminate|].
  destruct (sf_git file) as [[commit timestamp] author].
  intros [= <-]. simpl. auto.
Qed.

(** C1. The fingerprint of every extracted record has eight characters and
    is a function of the record's name, its sorted base names and its
    sorted ["name:type"] strings: two records that agree on these three
    have the same fingerprint. So two records with the same name, the
    same base names and the same (field name, type text) pairs have the
    same fingerprint in whatever order these are declared; for records
    whose base names are distinct and whose field names are distinct
    (a field name is unique within its record), this is to say that the
    two sets of base names and the two sets of pairs are the same. *)
Theorem fingerprint_order_independent
    (t1 t2 : tracker) (file1 file2 : source_file) (c1 c2 : ClassDef)
    (m1 m2 : ModelVersion) :
  _parse_model t1 c1 file1 = Some m1 ->
  _parse_model t2 c2 file2 = Some m2 ->
  let pairs := fun m => map (fun f => (f_name f, f_type f)) (m_fields m) in
  String.length (m_hash m1) = 8 /\
  (m_name m1 = m_name m2 ->
   Py.sorted (m_base_classes m1) = Py.sorted (m_base_classes m2) ->
   Py.sorted (map field_key (m_fields m1)) = Py.sorted (map field_key (m_fields m2)) ->
   m_hash m1 = m_hash m2) /\
  (m_name m1 = m_name m2 ->
   Permutation (m_base_classes m1) (m_base_classes m2) ->
   Permutation (pairs m1) (pairs m2) ->
   m_hash m1 = m_hash m2) /\
  (m_name m1 = m_name m2 ->
   NoDup (m_base_classes m1) -> NoDup (m_base_classes m2) ->
   (forall base, In base (m_base_classes m1) <-> In base (m_base_classes m2)) ->
   NoDup (map f_name (m_fields m1)) -> NoDup (map f_name (m_fields m2)) ->
   (forall pair, In pair (pairs m1) <-> In pair (pairs m2)) ->
   m_hash m1 = m_hash m2).
Proof.
  intros H1 H2 pairs.
  apply parse_model_hash in H1 as (_ & _ & _ & E1).
  apply parse_model_hash in H2 as (_ & _ & _ & E2).
  rewrite E1, E2. split; [apply model_hash_length|]. split; [|split].
  - intros -> Hb Hf. now apply model_hash_sorted.
  - intros -> Hb Hf. now apply model_hash_permutation.
  - intros -> Hb1 Hb2 Hb Hf1 Hf2 Hf.
    apply model_hash_permutation; apply NoDup_Permutation; try assumption;
      now apply distinct_names_distinct_pairs.
Qed.

(** The scenario of the specification: [Foo] with the fields [a: str] and
    [b: int = 0], declared in either order, has the fingerprint [ee3123e8]. *)
Lemma fingerprint_order_independent_witness :
  exists m1 m2,
    _parse_model (new_tracker "1.0.0") Samples.foo_a_b Samples.models_py = Some m1 /\
    _parse_model (new_tracker "1.0.0") Samples.foo_b_a Samples.models_py = Some m2 /\
    String.length (m_hash m1) = 8 /\
    m_hash m1 = m_hash m2 /\
    m_hash m1 = "ee3123e8".
Proof.
  eexists. eexists. split; [reflexivity|]. split; [reflexivity|].
  destruct (fingerprint_order_independent
              (new_tracker "1.0.0") (new_tracker "1.0.0")
              Samples.models_py Samples.models_py Samples.foo_a_b Samples.foo_b_a
              _ _ eq_refl eq_refl) as (Hlen & _ & Hperm & _).
  split; [exact Hlen|]. split.
  - apply Hperm; [reflexivity|apply Permutation_refl|apply perm_swap].
  - vm_compute. reflexivity.
Defined.

(** A field declared twice is hashed twice: the fingerprint follows the
    declarations, not the set they form. *)
Example repeated_declaration_counts :
  model_hash "Foo" ["BaseModel"]
    (body_fields [AnnAssign (Name "a") "int" None]) = "4f8a0323" /\
  model_hash "Foo" ["BaseModel"]
    (body_fields [AnnAssign (Name "a") "int" None; AnnAssign (Name "a") "int" None])
    = "c284433c".
Proof. vm_compute. split; reflexivity. Qed.

End Fingerprint.

(** ** Which classes are records *)

Section RecordRecognition.
Import Ast.

Lemma list_in_In (x : string) (xs : list string) :
  Py.list_in x xs = true <-> In x xs.
Proof.
  unfold Py.list_in. rewrite existsb_exists. split.
  - intros (y & Hy & E). apply String.eqb_eq in E. now subst.
  - intros H. exists x. split; [assumption|apply String.eqb_refl].
Qed.

Lemma pydantic_base (bases : list string) :
  existsb (Py.str_in "BaseModel") bases = true <->
  exists base, In base bases /\ Py.str_in "BaseModel" base = true.
Proof. apply existsb_exists. Qed.

(** The two tools read the base classes alike. *)
Lemma base_class_names_same (bases : list expr) :
  CodeAnalyzer.base_class_names bases = VersionTracker.base_class_names bases.
Proof.
  induction bases as [|b bases IH]; simpl; [reflexivity|].
  destruct b; now rewrite IH.
Qed.

(** C5, as the code has it. [VersionTracker._parse_model] returns a record
    exactly when some collected base name contains ["BaseModel"] or some
    decorator name is ["dataclass"]; the two flags of the record are the
    two conditions, each on its own, and a class with neither leaves the
    models of the tracker as they were. [CodeAnalyzer._extract_model]
    computes the same two flags and appends every class, whatever they
    are. *)
Theorem record_recognition
    (t : VersionTracker.tracker) (a : CodeAnalyzer.analyzer)
    (node : ClassDef) (file : source_file) :
  let pydantic :=
    exists base, In base (VersionTracker.base_class_names (cd_bases node)) /\
                 Py.str_in "BaseModel" base = true in
  let dataclass :=
    In "dataclass" (map VersionTracker._get_decorator_name (cd_decorator_list node)) in
  ((exists m, VersionTracker._parse_model t node file = Some m) <->
   pydantic \/ dataclass) /\
  (forall m, VersionTracker._parse_model t node file = Some m ->
     VersionTracker.m_name m = cd_name node /\
     (VersionTracker.m_is_pydantic m = true <-> pydantic) /\
     (VersionTracker.m_is_dataclass m = true <-> dataclass)) /\
  (~ (pydantic \/ dataclass) ->
     VersionTracker.models (VersionTracker._extract_models t [NClassDef node] file) =
     VersionTracker.models t) /\
  (exists mi,
     CodeAnalyzer.models (CodeAnalyzer._extract_model a node file) =
       (CodeAnalyzer.models a ++ [mi])%list /\
     CodeAnalyzer.mi_name mi = cd_name node /\
     (CodeAnalyzer.mi_is_pydantic mi = true <-> pydantic) /\
     (CodeAnalyzer.mi_is_dataclass mi = true <->
      In "dataclass" (map CodeAnalyzer._get_decorator_name (cd_decorator_list node)))).
Proof.
  intros pydantic dataclass.
  assert (Hp : existsb (Py.str_in "BaseModel")
                 (VersionTracker.base_class_names (cd_bases node)) = true <-> pydantic)
    by apply pydantic_base.
  assert (Hd : Py.list_in "dataclass"
                 (map VersionTracker._get_decorator_name (cd_decorator_list node)) = true
               <-> dataclass)
    by apply list_in_In.
  assert (Hnone : ~ (pydantic \/ dataclass) ->
                  VersionTracker._parse_model t node file = None).
  { intros Hn. unfold VersionTracker._parse_model.
    destruct (existsb _ _); [exfalso; apply Hn; left; now apply Hp|].
    destruct (Py.list_in _ _); [exfalso; apply Hn; right; now apply Hd|].
    reflexivity. }
  split; [|split; [|split]].
  - split.
    + intros [m Hm]. unfold VersionTracker._parse_model in Hm.
      destruct (existsb _ _); [left; now apply Hp|].
      destruct (Py.list_in _ _); [right; now apply Hd|]. discriminate.
    + intros H. unfold VersionTracker._parse_model.
      destruct (sf_git file) as [[commit timestamp] author].
      destruct H as [H|H]; [apply Hp in H|apply Hd in H]; rewrite H;
        rewrite ?orb_true_r; simpl; eauto.
  - intros m Hm. unfold VersionTracker._parse_model in Hm.
    destruct (negb _); [discriminate|].
    destruct (sf_git file) as [[commit timestamp] author].
    injection Hm as <-. simpl. auto.
  - intros Hn. simpl. now rewrite (Hnone Hn).
  - eexists. split; [reflexivity|]. simpl. split; [reflexivity|].
    rewrite base_class_names_same. split; [exact Hp|apply list_in_In].
Qed.

(** A class with neither marker is among the models of the code
    analyzer, with both flags false. *)
Lemma plain_class_recorded_by_code_analyzer :
  VersionTracker.base_class_names (cd_bases Samples.helper) = [] /\
  map VersionTracker._get_decorator_name (cd_decorator_list Samples.helper) = [] /\
  map (fun m => (CodeAnalyzer.mi_name m, CodeAnalyzer.mi_is_pydantic m,
                 CodeAnalyzer.mi_is_dataclass m))
    (CodeAnalyzer.models
       (CodeAnalyzer.analyze_directory CodeAnalyzer.new_analyzer
          [Samples.file_of "util.py" [NClassDef Samples.helper]] None))
  = [("Helper", false, false)] /\
  VersionTracker.models
    (VersionTracker.analyze_directory (VersionTracker.new_tracker "1.0.0")
       [Samples.file_of "util.py" [NClassDef Samples.helper]] None) = [].
Proof. repeat split. Qed.

(** A class can carry both markers. *)
Example record_with_both_markers :
  option_map (fun m => (VersionTracker.m_is_pydantic m, VersionTracker.m_is_dataclass m))
    (VersionTracker._parse_model (VersionTracker.new_tracker "1.0.0")
       Samples.point Samples.models_py)
  = Some (true, true).
Proof. reflexivity. Qed.

End RecordRecognition.

(** ** Which functions are endpoints *)

Section Endpoints.
Import Ast VersionTracker.

Lemma last_some_app {A B} (f : A -> option B) (l : list A) (x : A) :
  Route.last_some f (l ++ [x]) =
  match f x with
  | Some y => Some y
  | None => Route.last_some f l
  end.
Proof.
  induction l as [|z l IH]; simpl.
  - destruct (f x); reflexivity.
  - rewrite IH. destruct (f x); reflexivity.
Qed.

Lemma last_some_app_list {A B} (f : A -> option B) (l1 l2 : list A) :
  Route.last_some f (l1 ++ l2) =
  match Route.last_some f l2 with
  | Some y => Some y
  | None => Route.last_some f l1
  end.
Proof.
  induction l1 as [|z l1 IH]; simpl.
  - destruct (Route.last_some f l2); reflexivity.
  - rewrite IH. destruct (Route.last_some f l2); reflexivity.
Qed.

(** The loop over the keywords of one call. *)
Lemma read_keywords (keywords : list keyword) (r : route) :
  let r' := fold_left read_keyword keywords r in
  http_method r' = http_method r /\
  endpoint_path r' = endpoint_path r /\
  tags r' = match Route.last_some Route.literal_tags keywords with
            | Some vs => vs
            | None => tags r
            end /\
  deprecated r' = match Route.last_some Route.literal_deprecated keywords with
                  | Some v => v
                  | None => deprecated r
                  end.
Proof.
  induction keywords as [|kw keywords IH] using rev_ind; simpl.
  - auto.
  - rewrite fold_left_app. simpl. rewrite !last_some_app.
    destruct IH as (Hm & Hp & Ht & Hd).
    unfold read_keyword, Route.literal_tags, Route.literal_deprecated.
    destruct (snd kw); simpl; auto; destruct (arg_is kw _); simpl; auto.
Qed.

(** The keywords of a decorator, when it is a call. *)
Lemma read_call (d : expr) (r1 : route) :
  let r' := match d with
            | Call _ _ keywords => fold_left read_keyword keywords r1
            | _ => r1
            end in
  http_method r' = http_method r1 /\
  endpoint_path r' = endpoint_path r1 /\
  tags r' = match Route.last_some Route.literal_tags (Route.keywords_of d) with
            | Some vs => vs
            | None => tags r1
            end /\
  deprecated r' =
    match Route.last_some Route.literal_deprecated (Route.keywords_of d) with
    | Some v => v
    | None => deprecated r1
    end.
Proof. destruct d; simpl; auto. apply read_keywords. Qed.

(** The loop over the decorators, compared with [Route]. *)
Lemma read_decorators (decorators : list expr) :
  let r := fold_left read_decorator decorators no_route in
  http_method r = Route.method_of decorators /\
  endpoint_path r = Route.last_some Route.first_constant (filter Route.matches decorators) /\
  tags r = Route.tags_of decorators /\
  deprecated r = Route.deprecated_of decorators.
Proof.
  unfold Route.method_of, Route.tags_of, Route.deprecated_of.
  induction decorators as [|d decorators IH] using rev_ind.
  - simpl. auto.
  - cbv zeta in IH |- *. rewrite fold_left_app, filter_app.
    remember (fold_left read_decorator decorators no_route) as r0 eqn:Er0.
    destruct IH as (Hm & Hp & Ht & Hd).
    cbn [fold_left filter]. unfold read_decorator. fold (Route.matches d).
    destruct (Route.matches d) eqn:E.
    + rewrite flat_map_app, !last_some_app, !last_some_app_list.
      cbn [flat_map]. rewrite app_nil_r.
      match goal with
      | |- context [fold_left read_keyword _ ?r] =>
          pose proof (read_call d r) as H; cbv zeta in H;
          destruct H as (Em & Ep & Et & Ed)
      end.
      rewrite Em, Ep, Et, Ed. cbn [http_method endpoint_path tags deprecated].
      split; [reflexivity|]. split.
      * destruct d as [| |func [|[] ?] ?| | |]; simpl; rewrite ?Hp; reflexivity.
      * rewrite Ht, Hd. split.
        -- destruct (Route.last_some Route.literal_tags (Route.keywords_of d));
             reflexivity.
        -- destruct (Route.last_some Route.literal_deprecated (Route.keywords_of d));
             reflexivity.
    + rewrite !app_nil_r. auto.
Qed.

Lemma verb_nonempty (name : string) :
  In name http_verbs -> Py.upper name <> "".
Proof. destruct name; [|discriminate]. simpl. intuition discriminate. Qed.

Lemma method_of_matches (decorators : list expr) :
  match Route.method_of decorators with
  | Some method =>
      method <> "" /\
      exists d, In d decorators /\ In (_get_decorator_name d) http_verbs /\
                method = Py.upper (_get_decorator_name d)
  | None => forall d, In d decorators -> ~ In (_get_decorator_name d) http_verbs
  end.
Proof.
  unfold Route.method_of.
  induction decorators as [|d decorators IH] using rev_ind; simpl.
  - intros d [].
  - rewrite filter_app. simpl. destruct (Route.matches d) eqn:E.
    + rewrite last_some_app. apply list_in_In in E. split.
      * now apply verb_nonempty.
      * exists d. rewrite in_app_iff. simpl. auto.
    + rewrite app_nil_r.
      destruct (Route.last_some _ _).
      * destruct IH as (Hn & d0 & Hin & Hv & ->). split; [assumption|].
        exists d0. rewrite in_app_iff. auto.
      * intros d0 Hin. apply in_app_iff in Hin. destruct Hin as [Hin|[<-|[]]].
        -- now apply IH.
        -- intros Hv. unfold Route.matches in E.
           rewrite (proj2 (list_in_In _ http_verbs) Hv) in E. discriminate.
Qed.

(** The decorator loop of the code analyzer keeps the last decorator whose
    name is one of its five verbs. *)
Lemma mapping_method (decorators : list expr) (r : option string * option constant) :
  fst (fold_left CodeAnalyzer.read_decorator decorators r) =
  match Route.last_some
          (fun d => if Py.list_in (CodeAnalyzer._get_decorator_name d)
                         CodeAnalyzer.mapping_verbs
                    then Some (Py.upper (CodeAnalyzer._get_decorator_name d))
                    else None)
          decorators with
  | Some method => Some method
  | None => fst r
  end.
Proof.
  induction decorators as [|d decorators IH] using rev_ind.
  - reflexivity.
  - rewrite fold_left_app, last_some_app. cbn [fold_left].
    unfold CodeAnalyzer.read_decorator at 1.
    destruct (Py.list_in _ _); [reflexivity|exact IH].
Qed.

Lemma last_some_exists {A B} (f : A -> option B) (l : list A) :
  Route.last_some f l <> None <-> exists x, In x l /\ f x <> None.
Proof.
  induction l as [|x l IH]; simpl.
  - split; [congruence|intros (x & [] & _)].
  - destruct (Route.last_some f l).
    + split; [intros _|congruence].
      destruct IH as [IH _]. destruct IH as (y & Hy & Hf); [congruence|eauto].
    + split.
      * intros H. eauto.
      * intros (y & [<-|Hy] & Hf); [assumption|].
        exfalso. apply (proj2 IH); eauto.
Qed.

(** C4, as the code has it. [_parse_endpoint] returns an endpoint exactly
    when the name of some decorator is, as written, one of get, post, put,
    patch, delete, options, head. The method is then the upper-cased name
    of the last such decorator; the path is the constant that is the
    first positional argument of the last such decorator that has one,
    when that constant is truthy, and [/<function name>] otherwise; the
    tags are the constants of the last list literal passed as [tags] to
    such a decorator, else empty; the deprecated flag is the last
    constant passed as [deprecated], else [False]. The mapping detector of
    the code analyzer finds a method exactly when the name of some
    decorator is, as written, one of get, post, put, patch, delete. *)
Theorem endpoint_recognition (t : tracker) (node : FunctionDef) (file : source_file) :
  ((exists e, _parse_endpoint t node file = Some e) <->
   (exists d, In d (fd_decorator_list node) /\ In (_get_decorator_name d) http_verbs)) /\
  (forall e, _parse_endpoint t node file = Some e ->
     Some (e_method e) = Route.method_of (fd_decorator_list node) /\
     e_path e = Route.path_of (fd_name node) (fd_decorator_list node) /\
     e_tags e = Route.tags_of (fd_decorator_list node) /\
     e_deprecated e = Route.deprecated_of (fd_decorator_list node) /\
     e_function_name e = fd_name node) /\
  (forall d, fd_decorator_list node = [d] -> In (_get_decorator_name d) http_verbs ->
     exists e, _parse_endpoint t node file = Some e /\
       e_method e = Py.upper (_get_decorator_name d) /\
       e_path e = match Route.first_constant d with
                  | Some v => if truthy v then v else CStr ("/" ++ fd_name node)
                  | None => CStr ("/" ++ fd_name node)
                  end /\
       e_tags e = match Route.last_some Route.literal_tags (Route.keywords_of d) with
                  | Some vs => vs
                  | None => []
                  end /\
       e_deprecated e =
         match Route.last_some Route.literal_deprecated (Route.keywords_of d) with
         | Some v => v
         | None => CBool false
         end) /\
  (fst (fold_left CodeAnalyzer.read_decorator (fd_decorator_list node) (None, None))
     <> None <->
   (exists d, In d (fd_decorator_list node) /\
              In (CodeAnalyzer._get_decorator_name d) CodeAnalyzer.mapping_verbs)).
Proof.
  destruct (read_decorators (fd_decorator_list node)) as (Hm & Hp & Ht & Hd).
  cbv zeta in Hm, Hp, Ht, Hd.
  pose proof (method_of_matches (fd_decorator_list node)) as Hmatch.
  assert (Hparse : forall e, _parse_endpoint t node file = Some e ->
     Some (e_method e) = Route.method_of (fd_decorator_list node) /\
     e_path e = Route.path_of (fd_name node) (fd_decorator_list node) /\
     e_tags e = Route.tags_of (fd_decorator_list node) /\
     e_deprecated e = Route.deprecated_of (fd_decorator_list node) /\
     e_function_name e = fd_name node).
  { intros e. unfold _parse_endpoint. rewrite Hm.
    destruct (Route.method_of (fd_decorator_list node)) as [method|]; [|discriminate].
    destruct (negb _); [discriminate|].
    destruct (summary_of _) as [summary description].
    intros [= <-]. cbn [e_method e_path e_tags e_deprecated e_function_name].
    rewrite Hp, Ht, Hd. unfold Route.path_of. auto. }
  assert (Hsome : (exists d, In d (fd_decorator_list node) /\
                             In (_get_decorator_name d) http_verbs) ->
                  exists e, _parse_endpoint t node file = Some e).
  { intros (d & Hin & Hv). unfold _parse_endpoint. rewrite Hm.
    destruct (Route.method_of (fd_decorator_list node)) as [method|].
    - destruct Hmatch as (Hne & _). unfold nonempty.
      destruct (String.eqb_spec method ""); [contradiction|]. simpl.
      destruct (summary_of _). eauto.
    - exfalso. exact (Hmatch d Hin Hv). }
  split; [|split; [|split]].
  - split; [|exact Hsome].
    intros [e He]. apply Hparse in He. destruct He as (He & _).
    rewrite <- He in Hmatch. destruct Hmatch as (_ & d & Hin & Hv & _). eauto.
  - exact Hparse.
  - intros d Hd1 Hv. destruct Hsome as [e He]; [rewrite Hd1; exists d; simpl; auto|].
    exists e. split; [exact He|]. apply Hparse in He.
    destruct He as (Em & Ep & Et & Ed & _). rewrite Ep, Et, Ed.
    unfold Route.method_of, Route.path_of, Route.tags_of, Route.deprecated_of in *.
    rewrite Hd1 in *. cbn [filter] in *. fold (Route.matches d) in *.
    rewrite (proj2 (list_in_In _ http_verbs) Hv : Route.matches d = true) in *.
    cbn [Route.last_some flat_map] in *. rewrite app_nil_r.
    injection Em as ->.
    destruct (Route.first_constant d); auto.
  - rewrite mapping_method. cbn [fst].
    match goal with |- context [Route.last_some ?f ?l] =>
      pose proof (last_some_exists f l) as Hex; destruct (Route.last_some f l) end.
    + split; [intros _|congruence].
      destruct Hex as [Hex _]. destruct Hex as (d & Hin & Hf); [congruence|].
      exists d. split; [assumption|]. apply list_in_In.
      destruct (Py.list_in _ _); [reflexivity|congruence].
    + split; [congruence|].
      intros (d & Hin & Hv). exfalso. apply (proj2 Hex); [|reflexivity].
      exists d. split; [assumption|].
      rewrite (proj2 (list_in_In _ CodeAnalyzer.mapping_verbs) Hv). discriminate.
Qed.

(** A decorator written [GET] lower-cases to a verb of the list, and is
    no endpoint. *)
Lemma uppercase_verb_not_recognized :
  In (Py.lower (_get_decorator_name (Call (Name "GET") [Constant (CStr "/items")] [])))
     http_verbs /\
  fd_decorator_list Samples.read_items = [Call (Name "GET") [Constant (CStr "/items")] []] /\
  _parse_endpoint (new_tracker "1.0.0") Samples.read_items Samples.models_py = None.
Proof. split; [simpl; auto|split; reflexivity]. Qed.

(** The scenario of the specification: [get("/items/{id}")] without tags. *)
Example endpoint_get_item :
  option_map (fun e => (e_method e, e_path e, e_tags e, e_deprecated e))
    (_parse_endpoint (new_tracker "1.0.0") Samples.read_item Samples.models_py)
  = Some ("GET", CStr "/items/{id}", [], CBool false).
Proof. reflexivity. Qed.

End Endpoints.

(** ** The request and response models of an endpoint *)

Section ModelInference.
Import Ast VersionTracker.

Lemma scan_parameters_from (known : list string) (args : list arg) (start : option string) :
  fold_left
    (fun request_model a =>
       match arg_annotation a with
       | Some type_str =>
           match find_model known type_str with
           | Some model_name => Some model_name
           | None => request_model
           end
       | None => request_model
       end)
    args start =
  match Route.first_match known (rev args) with
  | Some model_name => Some model_name
  | None => start
  end.
Proof.
  revert start. induction args as [|a args IH]; intros start; simpl; [reflexivity|].
  rewrite IH. clear IH.
  assert (Happ : forall l, Route.first_match known (l ++ [a]) =
            match Route.first_match known l with
            | Some m => Some m
            | None => match arg_annotation a with
                      | Some ty => find_model known ty
                      | None => None
                      end
            end).
  { induction l as [|b l IHl]; simpl.
    - destruct (arg_annotation a); [destruct (find_model known s)|]; reflexivity.
    - destruct (arg_annotation b); [destruct (find_model known s)|]; auto. }
  rewrite Happ. destruct (Route.first_match known (rev args)); [reflexivity|].
  destruct (arg_annotation a); [destruct (find_model known s)|]; reflexivity.
Qed.

(** The request model is the first known name found in the last
    parameter that mentions one; the response model is the first known
    name found in the return type. *)
Lemma scan_parameters_last_wins (known : list string) (args : list arg) :
  scan_parameters known args = Route.first_match known (rev args).
Proof.
  unfold scan_parameters. rewrite scan_parameters_from.
  destruct (Route.first_match known (rev args)); reflexivity.
Qed.

(** C6 at [create_order(user: User, item: Item) -> Item], with the models
    [User] and [Item] known: the first parameter that matches names
    [User], and the request model the code keeps is [Item]. *)
Lemma request_model_last_parameter_wins :
  let t := analyze_directory (new_tracker "1.0.0") [Samples.orders_py] None in
  Py.dict_keys (models t) = ["User"; "Item"] /\
  Route.first_match (Py.dict_keys (models t)) (fd_args Samples.create_order)
    = Some "User" /\
  map (fun e => (e_function_name e, e_request_model e, e_response_model e)) (endpoints t)
    = [("create_order", Some "Item", Some "Item")].
Proof. vm_compute. repeat split. Qed.

End ModelInference.

(** ** The drift score and the exit code *)

Section Drift.
Import DriftDetector.

Lemma drift_score_report {A} (n d s c v : list A) :
  drift_score (calculate_drift_score (drift_report n d s c v)) =
  (1 * Z.of_nat (List.length n) + 3 * Z.of_nat (List.length d)
   + 2 * Z.of_nat (List.length s) + 1 * Z.of_nat (List.length c)
   + 1 * Z.of_nat (List.length v))%Z.
Proof.
  unfold calculate_drift_score, drift_report. cbn [drift_score fold_left].
  change (weight "new_methods") with 1%Z.
  change (weight "deleted_methods") with 3%Z.
  change (weight "changed_signatures") with 2%Z.
  change (weight "changed_classification") with 1%Z.
  change (weight "version_changes") with 1%Z.
  lia.
Qed.

Lemma total_changes_report {A} (n d s c v : list A) :
  total_changes (calculate_drift_score (drift_report n d s c v)) =
  Z.of_nat (List.length n + List.length d + List.length s + List.length c
            + List.length v).
Proof.
  unfold calculate_drift_score, drift_report. cbn [total_changes fold_left]. lia.
Qed.

Lemma severity_of_score {A} (drift : Py.dict (list A)) :
  let r := calculate_drift_score drift in
  (severity r = "none" <-> drift_score r = 0%Z) /\
  (severity r = "low" <-> (drift_score r <> 0 /\ drift_score r <= 3)%Z) /\
  (severity r = "medium" <-> (3 < drift_score r <= 10)%Z) /\
  (severity r = "high" <-> (10 < drift_score r)%Z).
Proof.
  unfold calculate_drift_score. cbn [severity drift_score].
  set (x := fold_left _ drift 0%Z).
  destruct (Z.eqb_spec x 0); [|destruct (Z.leb_spec x 3); [|destruct (Z.leb_spec x 10)]];
    repeat split; intros; try discriminate; try reflexivity; try lia.
Qed.

Lemma drift_score_nonnegative {A} (n d s c v : list A) :
  (0 <= drift_score (calculate_drift_score (drift_report n d s c v)))%Z.
Proof. rewrite drift_score_report. lia. Qed.

(** C7. On the five lists of a drift report the score is the number of new
    methods, plus three times the deleted methods, plus twice the changed
    signatures, plus the changed classifications, plus the version
    changes; the severity is none exactly at 0, low from 1 to 3, medium
    from 4 to 10 and high above 10; and one more deleted method raises
    the score by exactly 3. The report of [detect_drift] is such a
    report. *)
Theorem drift_score_weights {A} (n d s c v : list A) (x : A) :
  let r := calculate_drift_score (drift_report n d s c v) in
  drift_score r =
    (1 * Z.of_nat (List.length n) + 3 * Z.of_nat (List.length d)
     + 2 * Z.of_nat (List.length s) + 1 * Z.of_nat (List.length c)
     + 1 * Z.of_nat (List.length v))%Z /\
  (severity r = "none" <-> drift_score r = 0%Z) /\
  (severity r = "low" <-> (1 <= drift_score r <= 3)%Z) /\
  (severity r = "medium" <-> (4 <= drift_score r <= 10)%Z) /\
  (severity r = "high" <-> (10 < drift_score r)%Z) /\
  drift_score (calculate_drift_score (drift_report n (d ++ [x]) s c v)) =
    (drift_score r + 3)%Z /\
  (forall inventory code_methods,
     detect_drift inventory code_methods =
     drift_report (new_methods_of inventory code_methods)
       (deleted_methods_of inventory code_methods)
       (changed_signatures_of inventory code_methods)
       (changed_classification_of inventory code_methods)
       (version_changes_of inventory code_methods)).
Proof.
  intros r. subst r.
  pose proof (severity_of_score (drift_report n d s c v)) as (H0 & H1 & H2 & H3).
  pose proof (drift_score_nonnegative n d s c v) as Hpos.
  split; [apply drift_score_report|]. split; [exact H0|].
  split; [rewrite H1; lia|]. split; [rewrite H2; lia|]. split; [exact H3|].
  split; [|reflexivity].
  rewrite !drift_score_report, length_app.
  change (List.length [x]) with 1. lia.
Qed.

(** C8, as the code has it. [main] leaves with 0 or 1. With the
    application repository in place and the inventory loaded, it leaves
    with 0 when no change is found, with 1 when changes are found and
    [--ci-mode] is given, and with 0 whenever [--ci-mode] is not given.
    A missing inventory file, an unusable one, or a missing application
    repository leave with 1. *)
Theorem exit_code_contract (args : arguments) (env : environment) :
  (exit_code (main args env) = 0%Z \/ exit_code (main args env) = 1%Z) /\
  (forall inv,
     collider_exists env = true ->
     inventory_at env (inventory args) = Loaded inv ->
     let found := calculate_drift_score (detect_drift inv (get_code_methods env)) in
     (total_changes found = 0%Z -> exit_code (main args env) = 0%Z) /\
     ((0 < total_changes found)%Z -> ci_mode args = true ->
      exit_code (main args env) = 1%Z) /\
     (ci_mode args = false -> exit_code (main args env) = 0%Z)) /\
  (inventory_at env (inventory args) = Missing -> exit_code (main args env) = 1%Z) /\
  (forall message, inventory_at env (inventory args) = Unusable message ->
     exit_code (main args env) = 1%Z) /\
  (collider_exists env = false -> exit_code (main args env) = 1%Z).
Proof.
  unfold main, load_inventory.
  destruct (collider_exists env); cbn [negb].
  - destruct (inventory_at env (inventory args)) as [|message|content];
      cbn [exit_code].
    + repeat split; auto; try discriminate.
    + repeat split; auto; try discriminate.
    + split.
      { destruct (ci_mode args && _); cbn [exit_code]; auto. }
      split; [|repeat split; intros; discriminate].
      intros inv _ [= <-].
      unfold calculate_drift_score.
      cbn [requires_update total_changes].
      set (total := fold_left _ (detect_drift content (get_code_methods env)) 0%Z).
      destruct (Z.ltb_spec 0 total); destruct (ci_mode args); cbn [andb exit_code];
        repeat split; intros; try reflexivity; try discriminate; lia.
  - cbn [exit_code]. repeat split; auto; try discriminate.
Qed.

(** Changes are found, [--ci-mode] is not given, and [main] leaves with 0;
    with [--ci-mode] the same inventory leaves with 1. *)
Lemma drift_without_ci_mode_exits_zero :
  total_changes
    (calculate_drift_score
       (detect_drift Samples.stale_inventory (get_code_methods Samples.stale_environment)))
    = 1%Z /\
  exit_code (main Samples.plain_run Samples.stale_environment) = 0%Z /\
  exit_code (main Samples.ci_run Samples.stale_environment) = 1%Z.
Proof. repeat split. Qed.

(** A missing inventory file is reported and leaves with 1. *)
Example missing_inventory_exits_one :
  main Samples.plain_run Samples.empty_environment =
  {| exit_code := 1;
     stderr := ["Error: Inventory not found: methods_inventory_v1.yaml"] |}.
Proof. reflexivity. Qed.

End Drift.

(** ** Files that do not parse *)

Section ParseFailures.
Import Ast.

(** A loop whose turns read the state only through [core] does so as a
    whole. *)
Lemma fold_left_reads_only {S B} (core : S -> S) (g : S -> B -> S) (l : list B) :
  (forall s, core (core s) = core s) ->
  (forall s x, core (g s x) = core (g (core s) x)) ->
  forall s, core (fold_left g l s) = core (fold_left g l (core s)).
Proof.
  intros Hidem Hg. induction l as [|x l IH]; simpl; intros s.
  - now rewrite Hidem.
  - rewrite IH, Hg, <- IH. reflexivity.
Qed.

Lemma reads_only_congruence {S} (core : S -> S) (g : S -> S) (s1 s2 : S) :
  (forall s, core (g s) = core (g (core s))) ->
  core s1 = core s2 -> core (g s1) = core (g s2).
Proof. intros Hg E. now rewrite Hg, E, <- Hg. Qed.

(** A loop that skips the elements a test rejects, when the rejected
    elements leave the core of the state alone. *)
Lemma fold_left_skips {S B} (core : S -> S) (g : S -> B -> S) (keep : B -> bool)
    (l : list B) :
  (forall s, core (core s) = core s) ->
  (forall s x, core (g s x) = core (g (core s) x)) ->
  (forall s x, keep x = false -> core (g s x) = core s) ->
  forall s, core (fold_left g l s) = core (fold_left g (filter keep l) s).
Proof.
  intros Hidem Hg Hskip. induction l as [|x l IH]; simpl; intros s; [reflexivity|].
  destruct (keep x) eqn:E; simpl.
  - apply IH.
  - rewrite IH.
    rewrite (fold_left_reads_only core g _ Hidem Hg (g s x)).
    rewrite (fold_left_reads_only core g _ Hidem Hg s).
    now rewrite (Hskip s x E).
Qed.

Lemma filter_filter_comm {A} (p q : A -> bool) (l : list A) :
  filter p (filter q l) = filter q (filter p l).
Proof.
  induction l as [|x l IH]; simpl; [reflexivity|].
  destruct (p x) eqn:Hp, (q x) eqn:Hq; simpl; rewrite ?Hp, ?Hq, IH; reflexivity.
Qed.

(** *** The version tracker *)

Lemma tracker_link_reads_only (model : option string) (label : string)
    (t : VersionTracker.tracker) :
  VersionTracker.extracted (VersionTracker.link_model t model label) =
  VersionTracker.extracted
    (VersionTracker.link_model (VersionTracker.extracted t) model label).
Proof.
  unfold VersionTracker.link_model. destruct model as [name|]; [|reflexivity].
  destruct (String.eqb name ""); [reflexivity|].
  cbn [VersionTracker.models VersionTracker.extracted].
  destruct (Py.dict_get (VersionTracker.models t) name); reflexivity.
Qed.

Lemma extract_models_reads_only (walk : list node) (file : source_file)
    (t : VersionTracker.tracker) :
  VersionTracker.extracted (VersionTracker._extract_models t walk file) =
  VersionTracker.extracted
    (VersionTracker._extract_models (VersionTracker.extracted t) walk file).
Proof.
  unfold VersionTracker._extract_models.
  apply (fold_left_reads_only VersionTracker.extracted); [reflexivity|].
  intros s [c| |]; try reflexivity.
  change (VersionTracker._parse_model (VersionTracker.extracted s) c file)
    with (VersionTracker._parse_model s c file).
  destruct (VersionTracker._parse_model s c file); reflexivity.
Qed.

Lemma extract_endpoints_reads_only (walk : list node) (file : source_file)
    (t : VersionTracker.tracker) :
  VersionTracker.extracted (VersionTracker._extract_endpoints t walk file) =
  VersionTracker.extracted
    (VersionTracker._extract_endpoints (VersionTracker.extracted t) walk file).
Proof.
  unfold VersionTracker._extract_endpoints.
  apply (fold_left_reads_only VersionTracker.extracted); [reflexivity|].
  intros s [|f|]; try reflexivity.
  change (VersionTracker._parse_endpoint (VersionTracker.extracted s) f file)
    with (VersionTracker._parse_endpoint s f file).
  destruct (VersionTracker._parse_endpoint s f file) as [e|]; [|reflexivity].
  cbv zeta.
  apply (reads_only_congruence VersionTracker.extracted
           (fun t => VersionTracker.link_model t _ _));
    [intros; apply tracker_link_reads_only|].
  apply (reads_only_congruence VersionTracker.extracted
           (fun t => VersionTracker.link_model t _ _));
    [intros; apply tracker_link_reads_only|].
  reflexivity.
Qed.

Lemma tracker_file_reads_only (t : VersionTracker.tracker) (file : source_file) :
  VersionTracker.extracted (VersionTracker._analyze_file t file) =
  VersionTracker.extracted
    (VersionTracker._analyze_file (VersionTracker.extracted t) file).
Proof.
  unfold VersionTracker._analyze_file, VersionTracker._analyze_file_try.
  destruct (sf_parse file) as [message|walk]; [reflexivity|].
  rewrite extract_endpoints_reads_only, extract_models_reads_only,
    <- extract_endpoints_reads_only.
  reflexivity.
Qed.

Lemma tracker_skips_failures (t : VersionTracker.tracker) (files : list source_file)
    (exclude_patterns : option (list string)) :
  VersionTracker.extracted (VersionTracker.analyze_directory t files exclude_patterns) =
  VersionTracker.extracted
    (VersionTracker.analyze_directory t (filter parses files) exclude_patterns).
Proof.
  unfold VersionTracker.analyze_directory, VersionTracker.python_files.
  rewrite filter_filter_comm.
  apply (fold_left_skips VersionTracker.extracted).
  - reflexivity.
  - intros s f.
    change (VersionTracker.extracted (VersionTracker._analyze_file s f) =
            VersionTracker.extracted
              (VersionTracker._analyze_file (VersionTracker.extracted s) f)).
    apply tracker_file_reads_only.
  - intros s f Hf. unfold VersionTracker._analyze_file, VersionTracker._analyze_file_try.
    unfold parses in Hf. destruct (sf_parse f); [reflexivity|discriminate].
Qed.

Lemma fold_left_preserves {S B C} (proj : S -> C) (g : S -> B -> S) (l : list B) :
  (forall s x, proj (g s x) = proj s) ->
  forall s, proj (fold_left g l s) = proj s.
Proof.
  intros Hg. induction l as [|x l IH]; simpl; intros s; [reflexivity|].
  now rewrite IH, Hg.
Qed.

Lemma tracker_link_printed (model : option string) (label : string)
    (t : VersionTracker.tracker) :
  VersionTracker.printed (VersionTracker.link_model t model label) =
  VersionTracker.printed t.
Proof.
  unfold VersionTracker.link_model. destruct model as [name|]; [|reflexivity].
  destruct (String.eqb name ""); [reflexivity|].
  destruct (Py.dict_get (VersionTracker.models t) name); reflexivity.
Qed.

Lemma tracker_file_printed (t : VersionTracker.tracker) (file : source_file) :
  VersionTracker.printed (VersionTracker._analyze_file t file) =
  (VersionTracker.printed t ++ VersionTracker.diagnostics_of [file])%list.
Proof.
  unfold VersionTracker._analyze_file, VersionTracker._analyze_file_try,
    VersionTracker.diagnostics_of.
  cbn [flat_map]. destruct (sf_parse file) as [message|walk]; [reflexivity|].
  rewrite !app_nil_r.
  unfold VersionTracker._extract_endpoints, VersionTracker._extract_models.
  rewrite fold_left_preserves.
  - apply fold_left_preserves. intros s [c| |]; try reflexivity.
    destruct (VersionTracker._parse_model s c file); reflexivity.
  - intros s [|f|]; try reflexivity.
    destruct (VersionTracker._parse_endpoint s f file); [|reflexivity].
    cbv zeta. now rewrite !tracker_link_printed.
Qed.

Lemma tracker_printed (t : VersionTracker.tracker) (l : list source_file) :
  VersionTracker.printed
    (fold_left
       (fun t f => VersionTracker.add_file (VersionTracker._analyze_file t f)
                     (sf_relative f)) l t) =
  (VersionTracker.printed t ++ VersionTracker.diagnostics_of l)%list.
Proof.
  revert t. induction l as [|f l IH]; intros t; simpl.
  - now rewrite app_nil_r.
  - rewrite IH. cbn [VersionTracker.printed VersionTracker.add_file].
    rewrite tracker_file_printed. unfold VersionTracker.diagnostics_of.
    cbn [flat_map]. rewrite app_nil_r, <- app_assoc. reflexivity.
Qed.

(** *** The code analyzer *)

Lemma analyzer_file_reads_only (a : CodeAnalyzer.analyzer) (file : source_file) :
  CodeAnalyzer.extracted (CodeAnalyzer.analyze_file a file) =
  CodeAnalyzer.extracted (CodeAnalyzer.analyze_file (CodeAnalyzer.extracted a) file).
Proof.
  unfold CodeAnalyzer.analyze_file, CodeAnalyzer.analyze_file_try.
  destruct (sf_parse file) as [message|walk]; [reflexivity|].
  unfold CodeAnalyzer._extract_from_ast.
  rewrite fold_left_reads_only; [|reflexivity|].
  - symmetry. rewrite fold_left_reads_only; [reflexivity|reflexivity|].
    intros s [c|f|]; try reflexivity.
    unfold CodeAnalyzer._extract_function, CodeAnalyzer._detect_req_resp_mapping.
    cbv zeta. destruct (fold_left _ _ _) as [http_method endpoint].
    destruct (_ || _); reflexivity.
  - intros s [c|f|]; try reflexivity.
    unfold CodeAnalyzer._extract_function, CodeAnalyzer._detect_req_resp_mapping.
    cbv zeta. destruct (fold_left _ _ _) as [http_method endpoint].
    destruct (_ || _); reflexivity.
Qed.

Lemma analyzer_skips_failures (a : CodeAnalyzer.analyzer) (files : list source_file)
    (exclude_patterns : option (list string)) :
  CodeAnalyzer.extracted (CodeAnalyzer.analyze_directory a files exclude_patterns) =
  CodeAnalyzer.extracted
    (CodeAnalyzer.analyze_directory a (filter parses files) exclude_patterns).
Proof.
  unfold CodeAnalyzer.analyze_directory, CodeAnalyzer.python_files.
  rewrite filter_filter_comm.
  apply (fold_left_skips CodeAnalyzer.extracted).
  - reflexivity.
  - apply analyzer_file_reads_only.
  - intros s f Hf. unfold CodeAnalyzer.analyze_file, CodeAnalyzer.analyze_file_try.
    unfold parses in Hf. destruct (sf_parse f); [reflexivity|discriminate].
Qed.

Lemma analyzer_file_printed (a : CodeAnalyzer.analyzer) (file : source_file) :
  CodeAnalyzer.printed (CodeAnalyzer.analyze_file a file) =
  (CodeAnalyzer.printed a ++ VersionTracker.diagnostics_of [file])%list.
Proof.
  unfold CodeAnalyzer.analyze_file, CodeAnalyzer.analyze_file_try,
    VersionTracker.diagnostics_of.
  cbn [flat_map]. destruct (sf_parse file) as [message|walk]; [reflexivity|].
  rewrite !app_nil_r. unfold CodeAnalyzer._extract_from_ast.
  apply fold_left_preserves. intros s [c|f|]; try reflexivity.
  unfold CodeAnalyzer._extract_function, CodeAnalyzer._detect_req_resp_mapping.
  cbv zeta. destruct (fold_left _ _ _) as [http_method endpoint].
  destruct (_ || _); reflexivity.
Qed.

Lemma analyzer_printed (a : CodeAnalyzer.analyzer) (l : list source_file) :
  CodeAnalyzer.printed (fold_left CodeAnalyzer.analyze_file l a) =
  (CodeAnalyzer.printed a ++ VersionTracker.diagnostics_of l)%list.
Proof.
  revert a. induction l as [|f l IH]; intros a; simpl.
  - now rewrite app_nil_r.
  - rewrite IH, analyzer_file_printed. unfold VersionTracker.diagnostics_of.
    cbn [flat_map]. rewrite app_nil_r, <- app_assoc. reflexivity.
Qed.

(** C9. Whatever files fail to parse, the models and endpoints of the
    version tracker and the models, functions and mappings of the code
    analyzer are those of the files that parse; every file that fails and
    is not excluded adds one diagnostic line and nothing else; and the
    handler of a failing file returns the state it was given, with that
    line. *)
Theorem parse_failures_skipped
    (t : VersionTracker.tracker) (a : CodeAnalyzer.analyzer)
    (files : list source_file) (exclude_patterns : option (list string)) :
  let parsed := filter parses files in
  let t_all := VersionTracker.analyze_directory t files exclude_patterns in
  let t_parsed := VersionTracker.analyze_directory t parsed exclude_patterns in
  let a_all := CodeAnalyzer.analyze_directory a files exclude_patterns in
  let a_parsed := CodeAnalyzer.analyze_directory a parsed exclude_patterns in
  VersionTracker.models t_all = VersionTracker.models t_parsed /\
  VersionTracker.endpoints t_all = VersionTracker.endpoints t_parsed /\
  CodeAnalyzer.models a_all = CodeAnalyzer.models a_parsed /\
  CodeAnalyzer.functions a_all = CodeAnalyzer.functions a_parsed /\
  CodeAnalyzer.mappings a_all = CodeAnalyzer.mappings a_parsed /\
  VersionTracker.printed t_all =
    (VersionTracker.printed t ++
     VersionTracker.diagnostics_of (VersionTracker.python_files files exclude_patterns))%list /\
  CodeAnalyzer.printed a_all =
    (CodeAnalyzer.printed a ++
     VersionTracker.diagnostics_of (CodeAnalyzer.python_files files exclude_patterns))%list /\
  (forall file message,
     sf_parse file = ParseError message ->
     VersionTracker._analyze_file_try t file = VersionTracker.Raised message /\
     VersionTracker._analyze_file t file =
       VersionTracker.print t (VersionTracker.diagnostic file message) /\
     CodeAnalyzer.analyze_file_try a file = CodeAnalyzer.Raised message /\
     CodeAnalyzer.extracted (CodeAnalyzer.analyze_file a file) = CodeAnalyzer.extracted a /\
     CodeAnalyzer.printed (CodeAnalyzer.analyze_file a file) =
       (CodeAnalyzer.printed a ++ [VersionTracker.diagnostic file message])%list).
Proof.
  intros parsed t_all t_parsed a_all a_parsed.
  pose proof (tracker_skips_failures t files exclude_patterns) as Ht.
  pose proof (analyzer_skips_failures a files exclude_patterns) as Ha.
  fold parsed t_all t_parsed in Ht. fold parsed a_all a_parsed in Ha.
  split; [exact (f_equal VersionTracker.models Ht)|].
  split; [exact (f_equal VersionTracker.endpoints Ht)|].
  split; [exact (f_equal CodeAnalyzer.models Ha)|].
  split; [exact (f_equal CodeAnalyzer.functions Ha)|].
  split; [exact (f_equal CodeAnalyzer.mappings Ha)|].
  split; [apply tracker_printed|].
  split; [apply analyzer_printed|].
  intros file message E.
  unfold VersionTracker._analyze_file, VersionTracker._analyze_file_try,
    CodeAnalyzer.analyze_file, CodeAnalyzer.analyze_file_try.
  rewrite E. repeat split.
Qed.

(** A broken file between two files that parse: the models and endpoints
    are those of the two, and one line is printed. *)
Example broken_file_skipped :
  let t := VersionTracker.analyze_directory (VersionTracker.new_tracker "1.0.0")
             [Samples.models_py; Samples.broken_py; Samples.orders_py] None in
  Py.dict_keys (VersionTracker.models t) = ["User"; "Item"] /\
  List.length (VersionTracker.endpoints t) = 1 /\
  VersionTracker.printed t =
    ["Error analyzing /repo/broken.py: invalid syntax (broken.py, line 1)"] /\
  VersionTracker.files_analyzed t = ["models.py"; "broken.py"; "orders.py"].
Proof. vm_compute. repeat split. Qed.

End ParseFailures.

(** ** The differ *)

Section Differ.
Import Ast VersionTracker.

(** A loop whose turns append to a list of the state appends the
    concatenation. *)
Lemma fold_left_appends {S B C} (proj : S -> list C) (g : S -> B -> S)
    (h : B -> list C) (l : list B) :
  (forall s x, proj (g s x) = (proj s ++ h x)%list) ->
  forall s, proj (fold_left g l s) = (proj s ++ flat_map h l)%list.
Proof.
  intros Hg. induction l as [|x l IH]; simpl; intros s.
  - now rewrite app_nil_r.
  - now rewrite IH, Hg, app_assoc.
Qed.

(** The loops over the fields touch the breaking changes and the three
    dictionaries of fields only. *)
Lemma compare_fields_models (c : changes) (name : string)
    (current_fields : Py.dict FieldInfo) (previous_fields : Py.dict json_field) :
  let c' := compare_fields c name current_fields previous_fields in
  models_added c' = models_added c /\
  models_removed c' = models_removed c /\
  models_modified c' = models_modified c.
Proof.
  unfold compare_fields. cbv zeta.
  repeat split.
  all: rewrite fold_left_preserves;
    [rewrite fold_left_preserves;
       [rewrite fold_left_preserves; [reflexivity|]|]|].
  all: intros s [field_name f]; simpl;
    repeat match goal with
           | |- context [if ?b then _ else _] => destruct b
           | |- context [match ?o with Some _ => _ | None => _ end] => destruct o
           end; reflexivity.
Qed.

Lemma compare_fields_breaking (c : changes) (name : string)
    (current_fields : Py.dict FieldInfo) (previous_fields : Py.dict json_field) :
  breaking_changes (compare_fields c name current_fields previous_fields) =
  (breaking_changes c ++ Diff.field_breaking name current_fields previous_fields)%list.
Proof.
  unfold compare_fields, Diff.field_breaking, Diff.required_added, Diff.removed_fields,
    Diff.retyped_fields.
  cbv zeta. rewrite !app_assoc.
  erewrite (fold_left_appends breaking_changes); [f_equal|].
  - erewrite (fold_left_appends breaking_changes); [f_equal|].
    + erewrite (fold_left_appends breaking_changes); [reflexivity|].
      intros s [field_name f]; simpl.
      destruct (negb _); simpl; [destruct (f_required f)|]; simpl;
        now rewrite ?app_nil_r.
    + intros s [field_name f]; simpl.
      destruct (negb _); simpl; now rewrite ?app_nil_r.
  - intros s [field_name f]; simpl.
    destruct (Py.dict_get previous_fields field_name); [destruct (negb _)|]; simpl;
      now rewrite ?app_nil_r.
Qed.

Lemma removed_breaking_map {V} (current : Py.dict V) (l : Py.dict json_model) :
  flat_map (fun x : string * json_model =>
              let '(name, _) := x in
              if negb (Py.dict_mem name current) then [model_removed name] else []) l =
  map model_removed
    (flat_map (fun x : string * json_model =>
                 let '(name, _) := x in
                 if negb (Py.dict_mem name current) then [name] else []) l).
Proof.
  induction l as [|[name p] l IH]; simpl; [reflexivity|].
  destruct (negb _); simpl; now rewrite IH.
Qed.

(** The loops of [compare_with_previous] collect the lists of [Diff]. *)
Lemma compare_models_lists (current : Py.dict ModelVersion) (previous_data : json_document) :
  let ch := compare_models current previous_data in
  let previous := previous_models_of previous_data in
  models_added ch = Diff.added_names current previous /\
  models_removed ch = Diff.removed_names current previous /\
  models_modified ch = Diff.modified_names current previous /\
  breaking_changes ch = Diff.breaking current previous.
Proof.
  unfold compare_models. cbv zeta.
  set (previous := previous_models_of previous_data).
  assert (H3 : forall (s : changes) (x : string * ModelVersion),
             let s' := (let '(name, cur) := x in
                        match Py.dict_get previous name with
                        | Some p =>
                            if hash_differs cur p
                            then compare_fields (add_model_modified s name) name
                                   (Py.dict_of_list f_name (m_fields cur))
                                   (Py.dict_of_list jf_name (fields_of_json p))
                            else s
                        | None => s
                        end) in
             models_added s' = models_added s /\
             models_removed s' = models_removed s /\
             models_modified s' =
               (models_modified s ++
                (let '(name, cur) := x in
                 match Py.dict_get previous name with
                 | Some p => if hash_differs cur p then [name] else []
                 | None => []
                 end))%list /\
             breaking_changes s' = (breaking_changes s ++ Diff.model_breaking previous x)%list).
  { intros s [name cur]. cbv zeta. unfold Diff.model_breaking.
    destruct (Py.dict_get previous name) as [p|]; [destruct (hash_differs cur p)|];
      rewrite ?app_nil_r; auto.
    destruct (compare_fields_models (add_model_modified s name) name
                (Py.dict_of_list f_name (m_fields cur))
                (Py.dict_of_list jf_name (fields_of_json p))) as (E1 & E2 & E3).
    cbv zeta in E1, E2, E3. rewrite E1, E2, E3, compare_fields_breaking. auto. }
  split; [|split; [|split]].
  - rewrite fold_left_preserves by (intros s x; apply (H3 s x)).
    rewrite fold_left_preserves
      by (intros s [name p]; destruct (negb _); reflexivity).
    erewrite (fold_left_appends models_added); [reflexivity|].
    intros s [name cur]; destruct (negb _); simpl; now rewrite ?app_nil_r.
  - rewrite fold_left_preserves by (intros s x; apply (H3 s x)).
    erewrite (fold_left_appends models_removed).
    + rewrite fold_left_preserves; [reflexivity|].
      intros s [name cur]; destruct (negb _); reflexivity.
    + intros s [name p]; destruct (negb _); simpl; now rewrite ?app_nil_r.
  - erewrite (fold_left_appends models_modified) by (intros s x; apply (H3 s x)).
    rewrite fold_left_preserves
      by (intros s [name p]; destruct (negb _); reflexivity).
    rewrite fold_left_preserves; [reflexivity|].
    intros s [name cur]; destruct (negb _); reflexivity.
  - erewrite (fold_left_appends breaking_changes) by (intros s x; apply (H3 s x)).
    unfold Diff.breaking. f_equal.
    erewrite (fold_left_appends breaking_changes).
    + rewrite fold_left_preserves.
      * simpl. apply removed_breaking_map.
      * intros s [name cur]; destruct (negb _); reflexivity.
    + intros s [name p]. simpl. destruct (negb _); simpl; now rewrite ?app_nil_r.
Qed.

(** *** What the analysis guarantees about the models *)

Lemma fold_left_invariant {S B} (P : S -> Prop) (g : S -> B -> S) (l : list B) :
  (forall s x, P s -> P (g s x)) -> forall s, P s -> P (fold_left g l s).
Proof.
  intros Hg. induction l as [|x l IH]; simpl; intros s Hs; [assumption|].
  apply IH. now apply Hg.
Qed.

Lemma dict_set_forall {V} (P : string * V -> Prop) (d : Py.dict V) (k : string) (v : V) :
  Forall P d -> P (k, v) -> (forall k', k = k' -> P (k, v) -> P (k', v)) ->
  Forall P (Py.dict_set d k v).
Proof.
  intros Hd Hv Hk. induction d as [|[k0 v0] d IH]; simpl.
  - now repeat constructor.
  - inversion Hd; subst. destruct (String.eqb_spec k k0) as [E|E].
    + constructor; [now apply Hk|assumption].
    + constructor; [assumption|now apply IH].
Qed.

Lemma body_fields_required (body : list stmt) :
  Forall (fun f => f_required f = true <-> f_default f = None) (body_fields body).
Proof.
  induction body as [|st body IH]; simpl; [constructor|].
  destruct st as [[] annotation value|]; try assumption.
  constructor; [|assumption]. simpl. destruct value; split; congruence.
Qed.

Lemma parse_model_well_formed t node file m :
  _parse_model t node file = Some m -> well_formed_model (m_name m, m).
Proof.
  unfold _parse_model. destruct (negb _); [discriminate|].
  destruct (sf_git file) as [[commit timestamp] author].
  intros [= <-]. simpl. repeat split; try apply body_fields_required;
    apply body_fields_required.
Qed.

Lemma set_model_well_formed (ms : Py.dict ModelVersion) (m : ModelVersion) :
  well_formed_models ms -> well_formed_model (m_name m, m) ->
  well_formed_models (Py.dict_set ms (m_name m) m).
Proof.
  intros [Hn Hf] Hm. split; [now apply dict_set_nodup|].
  apply dict_set_forall; try assumption. now intros k' <-.
Qed.

Lemma link_model_well_formed (t : tracker) (model : option string) (label : string) :
  well_formed_models (models t) ->
  well_formed_models (models (link_model t model label)).
Proof.
  intros H. unfold link_model. destruct model as [name|]; [|assumption].
  destruct (String.eqb name ""); [assumption|].
  destruct (Py.dict_get (models t) name) as [m|] eqn:E; [|assumption].
  cbn [models set_models]. destruct H as [Hn Hf].
  apply dict_get_in in E.
  assert (Hm : well_formed_model (name, m))
    by (rewrite Forall_forall in Hf; now apply Hf).
  split; [now apply dict_set_nodup|].
  apply dict_set_forall; try assumption; try exact Hm. now intros k' <-.
Qed.

Lemma analyze_file_well_formed (t : tracker) (file : source_file) :
  well_formed_models (models t) -> well_formed_models (models (_analyze_file t file)).
Proof.
  intros H. unfold _analyze_file, _analyze_file_try.
  destruct (sf_parse file) as [message|walk]; [exact H|].
  unfold _extract_endpoints, _extract_models.
  apply (fold_left_invariant (fun t => well_formed_models (models t))).
  - intros s [|f|] Hs; try assumption.
    destruct (_parse_endpoint s f file) as [e|]; [|assumption].
    cbv zeta. now repeat apply link_model_well_formed.
  - apply (fold_left_invariant (fun t => well_formed_models (models t))); [|exact H].
    intros s [c| |] Hs; try assumption.
    destruct (_parse_model s c file) as [m|] eqn:E; [|assumption].
    cbn [models set_models]. apply set_model_well_formed; [assumption|].
    now apply parse_model_well_formed in E.
Qed.

(** Every tracker of a run has well-formed models. *)
Lemma analysed_well_formed (t : tracker) :
  analysed t -> well_formed_models (models t).
Proof.
  induction 1 as [version|t files exclude_patterns Ht IH].
  - split; constructor.
  - unfold analyze_directory.
    apply (fold_left_invariant (fun t => well_formed_models (models t))); [|exact IH].
    intros s f Hs. cbn [models add_file]. now apply analyze_file_well_formed.
Qed.

(** *** Membership in the lists of [Diff] *)

Lemma in_added_names current previous name :
  In name (Diff.added_names current previous) <->
  In name (Py.dict_keys current) /\ Py.dict_mem name previous = false.
Proof.
  unfold Diff.added_names, Py.dict_keys. rewrite in_flat_map, in_map_iff. split.
  - intros ([k c] & Hin & H). destruct (Py.dict_mem k previous) eqn:E; simpl in H;
      [contradiction|]. destruct H as [<-|[]]. split; [|assumption].
    exists (k, c). auto.
  - intros (([k c] & Hk & Hin) & E). simpl in Hk. subst k.
    exists (name, c). split; [assumption|]. simpl. rewrite E. simpl. auto.
Qed.

Lemma in_removed_names current previous name :
  In name (Diff.removed_names current previous) <->
  In name (Py.dict_keys previous) /\ Py.dict_mem name current = false.
Proof.
  unfold Diff.removed_names, Py.dict_keys. rewrite in_flat_map, in_map_iff. split.
  - intros ([k p] & Hin & H). destruct (Py.dict_mem k current) eqn:E; simpl in H;
      [contradiction|]. destruct H as [<-|[]]. split; [|assumption].
    exists (k, p). auto.
  - intros (([k p] & Hk & Hin) & E). simpl in Hk. subst k.
    exists (name, p). split; [assumption|]. simpl. rewrite E. simpl. auto.
Qed.

Lemma in_modified_names current previous name :
  In name (Diff.modified_names current previous) <->
  exists c p, In (name, c) current /\ Py.dict_get previous name = Some p /\
              hash_differs c p = true.
Proof.
  unfold Diff.modified_names. rewrite in_flat_map. split.
  - intros ([k c] & Hin & H).
    destruct (Py.dict_get previous k) as [p|] eqn:E; [|contradiction].
    destruct (hash_differs c p) eqn:Hd; [|contradiction].
    destruct H as [<-|[]]. eauto.
  - intros (c & p & Hin & E & Hd). exists (name, c). split; [assumption|].
    rewrite E, Hd. simpl. auto.
Qed.

Lemma hash_differs_true (c : ModelVersion) (p : json_model) :
  hash_differs c p = true <-> Some (m_hash c) <> jm_hash p.
Proof.
  unfold hash_differs. destruct (jm_hash p) as [h|]; [|split; [discriminate|reflexivity]].
  destruct (String.eqb_spec (m_hash c) h) as [->|Hne]; simpl; split;
    congruence.
Qed.

(** *** A comparison that finds nothing *)

Lemma compare_models_nothing (current : Py.dict ModelVersion)
    (previous_data : json_document) :
  (forall name, In name (Py.dict_keys current) ->
     Py.dict_mem name (previous_models_of previous_data) = true) ->
  (forall name, In name (Py.dict_keys (previous_models_of previous_data)) ->
     Py.dict_mem name current = true) ->
  (forall name c p, In (name, c) current ->
     Py.dict_get (previous_models_of previous_data) name = Some p ->
     hash_differs c p = false) ->
  compare_models current previous_data = no_changes.
Proof.
  intros H1 H2 H3. unfold compare_models. cbv zeta.
  set (previous := previous_models_of previous_data) in *.
  rewrite (fold_left_unchanged _ current no_changes).
  - rewrite (fold_left_unchanged _ previous no_changes).
    + apply fold_left_unchanged. intros [name c] Hin.
      destruct (Py.dict_get previous name) as [p|] eqn:E; [|reflexivity].
      now rewrite (H3 name c p Hin E).
    + intros [name p] Hin. rewrite H2; [reflexivity|].
      unfold Py.dict_keys. change name with (fst (name, p)). now apply in_map.
  - intros [name c] Hin. rewrite H1; [reflexivity|].
    unfold Py.dict_keys. change name with (fst (name, c)). now apply in_map.
Qed.

(** The previous models read back from an export of well-formed models
    are these models, under the same names. *)
Lemma previous_models_of_export (t : tracker) :
  well_formed_models (models t) ->
  previous_models_of (export_to_json t) =
  map (fun entry => (fst entry, model_to_json (snd entry))) (models t).
Proof.
  intros [Hn Hf]. unfold previous_models_of, export_to_json. cbn [jd_models].
  assert (Hkeys : map jm_name (map model_to_json (Py.dict_values (models t))) =
                  Py.dict_keys (models t)).
  { unfold Py.dict_values, Py.dict_keys. rewrite !map_map.
    apply map_ext_in. intros [k m] Hin. rewrite Forall_forall in Hf.
    destruct (Hf _ Hin) as (E & _). simpl. now rewrite E. }
  rewrite dict_of_list_distinct by (now rewrite Hkeys).
  unfold Py.dict_values. rewrite !map_map.
  apply map_ext_in. intros [k m] Hin. rewrite Forall_forall in Hf.
  destruct (Hf _ Hin) as (E & _). simpl. now rewrite E.
Qed.

Lemma dict_get_map {V W} (g : V -> W) (d : Py.dict V) (k : string) :
  Py.dict_get (map (fun entry => (fst entry, g (snd entry))) d) k =
  option_map g (Py.dict_get d k).
Proof.
  induction d as [|[k0 v0] d IH]; simpl; [reflexivity|].
  destruct (String.eqb k k0); [reflexivity|exact IH].
Qed.

Lemma dict_keys_map {V W} (g : V -> W) (d : Py.dict V) :
  Py.dict_keys (map (fun entry => (fst entry, g (snd entry))) d) = Py.dict_keys d.
Proof. unfold Py.dict_keys. rewrite map_map. reflexivity. Qed.

Lemma dict_mem_map {V W} (g : V -> W) (d : Py.dict V) (k : string) :
  Py.dict_mem k (map (fun entry => (fst entry, g (snd entry))) d) = Py.dict_mem k d.
Proof.
  unfold Py.dict_mem. rewrite dict_get_map. destruct (Py.dict_get d k); reflexivity.
Qed.

(** A snapshot compared with its own export shows no change. *)
Lemma compare_with_own_export (t : tracker) :
  well_formed_models (models t) ->
  compare_models (models t) (export_to_json t) = no_changes.
Proof.
  intros Hwf. pose proof (previous_models_of_export t Hwf) as E.
  apply compare_models_nothing; rewrite E.
  - intros name Hin. rewrite dict_mem_map. now apply dict_mem_keys.
  - intros name. rewrite dict_keys_map. apply dict_mem_keys.
  - intros name c p Hin. rewrite dict_get_map.
    rewrite (dict_in_get _ _ _ (proj1 Hwf) Hin). intros [= <-].
    unfold hash_differs, model_to_json. cbn [jm_hash].
    now rewrite String.eqb_refl.
Qed.

(** C3. The differ goes by name. A name of the previous snapshot that the
    current one lacks is reported removed, with a breaking change
    [model_removed] of severity high. A name in both is reported
    modified exactly when the current hash differs from the previous
    one, and is never reported removed or added. A snapshot compared
    with its own export gives the empty set of changes. *)
Theorem differ_identifies_by_name (t : tracker) (previous_data : json_document) :
  analysed t ->
  let ch := compare_models (models t) previous_data in
  let previous := previous_models_of previous_data in
  (forall name,
     In name (Py.dict_keys previous) -> ~ In name (Py.dict_keys (models t)) ->
     In name (models_removed ch) /\
     In (model_removed name) (breaking_changes ch) /\
     bc_type (model_removed name) = "model_removed" /\
     bc_severity (model_removed name) = "high") /\
  (forall name c p,
     Py.dict_get (models t) name = Some c -> Py.dict_get previous name = Some p ->
     (In name (models_modified ch) <-> Some (m_hash c) <> jm_hash p) /\
     ~ In name (models_removed ch) /\
     ~ In name (models_added ch)) /\
  compare_with_previous t (Some previous_data) = Some ch /\
  compare_with_previous t (Some (export_to_json t)) = Some no_changes.
Proof.
  intros Ht ch previous.
  apply analysed_well_formed in Ht.
  destruct (compare_models_lists (models t) previous_data) as (Ea & Er & Em & Eb).
  cbv zeta in Ea, Er, Em, Eb. fold ch previous in Ea, Er, Em, Eb.
  split; [|split; [|split]].
  - intros name Hp Hc.
    assert (Hr : In name (Diff.removed_names (models t) previous))
      by (apply in_removed_names; split; [assumption|now apply dict_mem_false]).
    rewrite Er, Eb. split; [assumption|]. split; [|split; reflexivity].
    unfold Diff.breaking. apply in_or_app. left. now apply in_map.
  - intros name c p Hc Hp. rewrite Em, Er, Ea. split; [|split].
    + rewrite in_modified_names, <- hash_differs_true. split.
      * intros (c' & p' & Hin & Hp' & Hd).
        rewrite (dict_in_get _ _ _ (proj1 Ht) Hin) in Hc.
        congruence.
      * intros Hd. exists c, p. split; [now apply dict_get_in|auto].
    + rewrite in_removed_names. intros [_ E].
      unfold Py.dict_mem in E. now rewrite Hc in E.
    + rewrite in_added_names. intros [_ E].
      unfold Py.dict_mem in E. now rewrite Hp in E.
  - reflexivity.
  - unfold compare_with_previous. now rewrite compare_with_own_export.
Qed.

(** From [User{id,name,age}] and [Legacy] to [User{id,name,email,nick}]
    and [Item]: [Legacy] is removed, [User] is modified and neither
    removed nor added, and the new snapshot against its own export shows
    nothing. *)
Lemma differ_identifies_by_name_witness :
  let ch := compare_models (models Samples.tracker_v2) (export_to_json Samples.tracker_v1) in
  (In "Legacy" (models_removed ch) /\
   In (model_removed "Legacy") (breaking_changes ch)) /\
  (In "User" (models_modified ch) /\
   ~ In "User" (models_removed ch) /\
   ~ In "User" (models_added ch)) /\
  compare_with_previous Samples.tracker_v2 (Some (export_to_json Samples.tracker_v2))
    = Some no_changes.
Proof.
  cbv zeta.
  destruct (differ_identifies_by_name Samples.tracker_v2 (export_to_json Samples.tracker_v1)
              (analysed_directory _ [Samples.users_v2_py] None (analysed_new "1.1.0")))
    as (Hremoved & Hboth & _ & Hself).
  split; [|split].
  - destruct (Hremoved "Legacy") as (H1 & H2 & _).
    + vm_compute. auto.
    + vm_compute. intuition discriminate.
    + split; assumption.
  - edestruct (Hboth "User") as (Hm & Hr & Ha).
    + vm_compute. reflexivity.
    + vm_compute. reflexivity.
    + split; [|split; assumption]. apply (proj2 Hm). vm_compute. discriminate.
  - exact Hself.
Defined.

(** C10. When two snapshots hold the same names, and under every name two
    records with the same name, base names and (field name, type text)
    pairs, the comparison of the later one with the export of the
    earlier one is the empty set of changes, whatever the defaults, the
    required flags, the docstrings, the line numbers, the paths and the
    decorators are. *)
Theorem differ_blind_beyond_fingerprint (t_previous t_current : tracker) :
  analysed t_previous -> analysed t_current ->
  same_records (models t_previous) (models t_current) ->
  compare_with_previous t_current (Some (export_to_json t_previous)) = Some no_changes.
Proof.
  intros Hp Hc Hsame.
  apply analysed_well_formed in Hp, Hc.
  unfold compare_with_previous. f_equal.
  pose proof (previous_models_of_export t_previous Hp) as E.
  apply compare_models_nothing; rewrite E.
  - intros name Hin. rewrite dict_mem_map. unfold Py.dict_mem.
    specialize (Hsame name).
    destruct (Py.dict_get (models t_previous) name); [reflexivity|].
    destruct (Py.dict_get (models t_current) name) eqn:Ec; [contradiction|].
    apply dict_get_none in Ec. contradiction.
  - intros name. rewrite dict_keys_map. intros Hin. unfold Py.dict_mem.
    specialize (Hsame name).
    destruct (Py.dict_get (models t_current) name); [reflexivity|].
    destruct (Py.dict_get (models t_previous) name) eqn:Ep; [contradiction|].
    apply dict_get_none in Ep. contradiction.
  - intros name c pj Hin. rewrite dict_get_map.
    specialize (Hsame name).
    pose proof (dict_in_get _ _ _ (proj1 Hc) Hin) as Ec. rewrite Ec in Hsame.
    destruct (Py.dict_get (models t_previous) name) as [p|] eqn:Ep; [|discriminate].
    intros [= <-]. destruct Hsame as (Hname & Hbases & Hfields).
    destruct Hp as [_ Hp]. destruct Hc as [_ Hc].
    rewrite Forall_forall in Hp, Hc.
    destruct (Hp _ (dict_get_in _ _ _ Ep)) as (_ & Hhp & _).
    destruct (Hc _ Hin) as (_ & Hhc & _).
    unfold hash_differs, model_to_json. cbn [jm_hash].
    rewrite Hhp, Hhc, Hname.
    rewrite (model_hash_permutation _ _ _ _ _ Hbases Hfields).
    now rewrite String.eqb_refl.
Qed.

Lemma same_records_single (previous current : Py.dict ModelVersion)
    (name : string) (p c : ModelVersion) :
  previous = [(name, p)] -> current = [(name, c)] -> same_shape p c ->
  same_records previous current.
Proof.
  intros -> -> H n. simpl. destruct (String.eqb n name); [exact H|exact I].
Qed.

(** [Foo] rewritten with its fields in the other order, the default moved
    from [b] to [a], another file, line, docstring and decorator: the
    comparison shows nothing. *)
Lemma differ_blind_beyond_fingerprint_witness :
  let before := analyze_directory (new_tracker "1.0.0") [Samples.foo_before_py] None in
  let after := analyze_directory (new_tracker "2.0.0") [Samples.foo_after_py] None in
  map (fun f => (f_name f, f_default f, f_required f))
      (flat_map m_fields (Py.dict_values (models before)))
    = [("a", None, true); ("b", Some "0", false)] /\
  map (fun f => (f_name f, f_default f, f_required f))
      (flat_map m_fields (Py.dict_values (models after)))
    = [("b", None, true); ("a", Some "None", false)] /\
  compare_with_previous after (Some (export_to_json before)) = Some no_changes.
Proof.
  cbv zeta. split; [reflexivity|]. split; [reflexivity|].
  apply (differ_blind_beyond_fingerprint
           (analyze_directory (new_tracker "1.0.0") [Samples.foo_before_py] None)
           (analyze_directory (new_tracker "2.0.0") [Samples.foo_after_py] None)).
  - apply analysed_directory, analysed_new.
  - apply analysed_directory, analysed_new.
  - eapply same_records_single; [vm_compute; reflexivity|vm_compute; reflexivity|].
    split; [reflexivity|]. split; [apply Permutation_refl|apply perm_swap].
Defined.

(** *** The breaking changes of a modified record *)

Lemma in_field_breaking name current_fields previous_fields b :
  In b (Diff.field_breaking name current_fields previous_fields) <->
  (exists field_name f,
     b = required_field_added name field_name /\ In (field_name, f) current_fields /\
     Py.dict_mem field_name previous_fields = false /\ f_required f = true) \/
  (exists field_name,
     b = field_removed name field_name /\ In field_name (Py.dict_keys previous_fields) /\
     Py.dict_mem field_name current_fields = false) \/
  (exists field_name f pf,
     b = field_type_changed name field_name (jf_type pf) (f_type f) /\
     In (field_name, f) current_fields /\
     Py.dict_get previous_fields field_name = Some pf /\ f_type f <> jf_type pf).
Proof.
  unfold Diff.field_breaking, Diff.required_added, Diff.removed_fields,
    Diff.retyped_fields.
  rewrite !in_app_iff, !in_flat_map. split.
  - intros [([fn f] & Hin & H)|[([fn pf] & Hin & H)|([fn f] & Hin & H)]].
    + left. destruct (Py.dict_mem fn previous_fields) eqn:E; simpl in H; [contradiction|].
      destruct (f_required f) eqn:R; [|contradiction].
      destruct H as [<-|[]]. exists fn, f. auto.
    + right. left. destruct (Py.dict_mem fn current_fields) eqn:E; simpl in H;
        [contradiction|].
      destruct H as [<-|[]]. exists fn. split; [reflexivity|]. split; [|assumption].
      unfold Py.dict_keys. change fn with (fst (fn, pf)). now apply in_map.
    + right. right. destruct (Py.dict_get previous_fields fn) as [pf|] eqn:E;
        [|contradiction].
      destruct (String.eqb_spec (f_type f) (jf_type pf)) as [Heq|Hne]; simpl in H;
        [contradiction|].
      destruct H as [<-|[]]. exists fn, f, pf. auto.
  - intros [(fn & f & -> & Hin & E & R)|[(fn & -> & Hin & E)|(fn & f & pf & -> & Hin & E & Hne)]].
    + left. exists (fn, f). split; [assumption|]. rewrite E, R. simpl. auto.
    + right. left. unfold Py.dict_keys in Hin. apply in_map_iff in Hin.
      destruct Hin as ([k pf] & Hk & Hin). simpl in Hk. subst k.
      exists (fn, pf). split; [assumption|]. rewrite E. simpl. auto.
    + right. right. exists (fn, f). split; [assumption|]. rewrite E.
      destruct (String.eqb_spec (f_type f) (jf_type pf)); [contradiction|]. simpl. auto.
Qed.

Lemma in_breaking current previous b :
  In b (Diff.breaking current previous) <->
  (exists name, b = model_removed name /\ In name (Diff.removed_names current previous)) \/
  (exists name c p,
     In (name, c) current /\ Py.dict_get previous name = Some p /\
     hash_differs c p = true /\
     In b (Diff.field_breaking name (Py.dict_of_list f_name (m_fields c))
             (Py.dict_of_list jf_name (fields_of_json p)))).
Proof.
  unfold Diff.breaking. rewrite in_app_iff, in_map_iff, in_flat_map. split.
  - intros [(name & <- & Hin)|([name c] & Hin & H)].
    + left. eauto.
    + right. unfold Diff.model_breaking in H.
      destruct (Py.dict_get previous name) as [p|] eqn:E; [|contradiction].
      destruct (hash_differs c p) eqn:Hd; [|contradiction].
      exists name, c, p. auto.
  - intros [(name & -> & Hin)|(name & c & p & Hin & E & Hd & H)].
    + left. eauto.
    + right. exists (name, c). split; [assumption|].
      unfold Diff.model_breaking. now rewrite E, Hd.
Qed.

(** C2. For a record the differ reports modified: every field of the
    previous record that the current one lacks gives [field_removed];
    every field of both whose type text differs gives
    [field_type_changed] with the old and the new text; every field of
    the current record that the previous one lacks gives
    [required_field_added] when its required flag is set, and no breaking
    change at all when it is not; a field is required exactly when it has
    no default; and every breaking change has severity high. *)
Theorem breaking_changes_of_modified
    (t : tracker) (previous_data : json_document) (name : string)
    (c : ModelVersion) (p : json_model) :
  analysed t ->
  In name (models_modified (compare_models (models t) previous_data)) ->
  Py.dict_get (models t) name = Some c ->
  Py.dict_get (previous_models_of previous_data) name = Some p ->
  let ch := compare_models (models t) previous_data in
  let current_fields := Py.dict_of_list f_name (m_fields c) in
  let previous_fields := Py.dict_of_list jf_name (fields_of_json p) in
  (forall field_name,
     In field_name (Py.dict_keys previous_fields) ->
     ~ In field_name (Py.dict_keys current_fields) ->
     In (field_removed name field_name) (breaking_changes ch)) /\
  (forall field_name f pf,
     Py.dict_get current_fields field_name = Some f ->
     Py.dict_get previous_fields field_name = Some pf ->
     f_type f <> jf_type pf ->
     In (field_type_changed name field_name (jf_type pf) (f_type f))
        (breaking_changes ch)) /\
  (forall field_name f,
     Py.dict_get current_fields field_name = Some f ->
     ~ In field_name (Py.dict_keys previous_fields) ->
     (f_required f = true ->
      In (required_field_added name field_name) (breaking_changes ch)) /\
     (f_required f = false ->
      forall b, In b (breaking_changes ch) ->
                bc_model b = name -> bc_field b <> Some field_name)) /\
  (forall f, In f (m_fields c) -> (f_required f = true <-> f_default f = None)) /\
  (forall b, In b (breaking_changes ch) -> bc_severity b = "high").
Proof.
  intros Ht Hmod Hc Hp ch current_fields previous_fields.
  subst current_fields previous_fields.
  apply analysed_well_formed in Ht. destruct Ht as [Hnodup Hwf].
  destruct (compare_models_lists (models t) previous_data) as (_ & _ & Em & Eb).
  cbv zeta in Em, Eb. fold ch in Eb.
  set (previous := previous_models_of previous_data) in *.
  assert (Hd : hash_differs c p = true).
  { rewrite Em in Hmod. apply in_modified_names in Hmod.
    destruct Hmod as (c' & p' & Hin & Hp' & Hd).
    rewrite (dict_in_get _ _ _ Hnodup Hin) in Hc. congruence. }
  assert (Hfb : forall b, In b (Diff.field_breaking name
                               (Py.dict_of_list f_name (m_fields c))
                               (Py.dict_of_list jf_name (fields_of_json p))) ->
                          In b (breaking_changes ch)).
  { intros b Hb. rewrite Eb. apply in_breaking. right.
    exists name, c, p. split; [now apply dict_get_in|auto]. }
  split; [|split; [|split; [|split]]].
  - intros fn Hprev Hcur. apply Hfb. apply in_field_breaking. right. left.
    exists fn. split; [reflexivity|]. split; [assumption|now apply dict_mem_false].
  - intros fn f pf Hf Hpf Hne. apply Hfb. apply in_field_breaking. right. right.
    exists fn, f, pf. split; [reflexivity|]. split; [now apply dict_get_in|auto].
  - intros fn f Hf Hprev. split.
    + intros Hreq. apply Hfb. apply in_field_breaking. left.
      exists fn, f. split; [reflexivity|]. split; [now apply dict_get_in|].
      split; [now apply dict_mem_false|assumption].
    + intros Hopt b Hb Hmodel Hfield. rewrite Eb in Hb. apply in_breaking in Hb.
      destruct Hb as [(n & -> & _)|(n & c' & p' & Hin & Hp' & _ & Hb)];
        [discriminate|].
      apply in_field_breaking in Hb.
      assert (n = name).
      { destruct Hb as [(fn' & f' & -> & _)|[(fn' & -> & _)|(fn' & f' & pf' & -> & _)]];
          exact Hmodel. }
      subst n.
      rewrite (dict_in_get _ _ _ Hnodup Hin) in Hc. injection Hc as ->.
      rewrite Hp in Hp'. injection Hp' as <-.
      destruct Hb as [(fn' & f' & -> & Hin' & _ & Hreq)
                     |[(fn' & -> & _ & Hmem)|(fn' & f' & pf' & -> & _ & Hget & _)]];
        injection Hfield as ->.
      * rewrite (dict_in_get _ _ _ (dict_of_list_nodup f_name _) Hin') in Hf.
        congruence.
      * unfold Py.dict_mem in Hmem.
        now rewrite Hf in Hmem.
      * apply Hprev. apply dict_mem_keys. unfold Py.dict_mem. now rewrite Hget.
  - rewrite Forall_forall in Hwf.
    destruct (Hwf _ (dict_get_in _ _ _ Hc)) as (_ & _ & Hreq).
    rewrite Forall_forall in Hreq. exact Hreq.
  - intros b Hb. rewrite Eb in Hb. apply in_breaking in Hb.
    destruct Hb as [(n & -> & _)|(n & c' & p' & _ & _ & _ & Hb)]; [reflexivity|].
    apply in_field_breaking in Hb.
    destruct Hb as [(fn' & f' & -> & _)|[(fn' & -> & _)|(fn' & f' & pf' & -> & _)]];
      reflexivity.
Qed.

(** From [User{id: int, name, age}] to [User{id: str, name, email, nick =
    None}]: [age] is removed, [id] changes its type, [email] is a
    required addition, and nothing is said about [nick]. *)
Lemma breaking_changes_of_modified_witness :
  let ch := compare_models (models Samples.tracker_v2) (export_to_json Samples.tracker_v1) in
  In (field_removed "User" "age") (breaking_changes ch) /\
  In (field_type_changed "User" "id" "int" "str") (breaking_changes ch) /\
  In (required_field_added "User" "email") (breaking_changes ch) /\
  (forall b, In b (breaking_changes ch) -> bc_model b = "User" ->
             bc_field b <> Some "nick").
Proof.
  cbv zeta.
  edestruct (breaking_changes_of_modified Samples.tracker_v2
               (export_to_json Samples.tracker_v1) "User")
    as (Hremoved & Hretyped & Hadded & _ & _).
  - apply analysed_directory, analysed_new.
  - vm_compute. auto.
  - vm_compute. reflexivity.
  - vm_compute. reflexivity.
  - split; [|split; [|split]].
    + apply (Hremoved "age").
      * vm_compute. auto.
      * vm_compute. intuition discriminate.
    + exact (Hretyped "id"
               {| f_name := "id"; f_type := "str"; f_default := None;
                  f_required := true; f_description := None |}
               {| jf_name := "id"; jf_type := "int"; jf_default := None;
                  jf_required := true |}
               eq_refl eq_refl ltac:(discriminate)).
    + destruct (Hadded "email"
                  {| f_name := "email"; f_type := "str"; f_default := None;
                     f_required := true; f_description := None |}) as [Hrequired _].
      * vm_compute. reflexivity.
      * vm_compute. intuition discriminate.
      * exact (Hrequired eq_refl).
    + destruct (Hadded "nick"
                  {| f_name := "nick"; f_type := "str"; f_default := Some "None";
                     f_required := false; f_description := None |}) as [_ Hoptional].
      * vm_compute. reflexivity.
      * vm_compute. intuition discriminate.
      * exact (Hoptional eq_refl).
Defined.

(** The scenario of the specification: [User{id, name}] gains a required
    [email]. *)
Example user_gains_required_email :
  compare_with_previous
    (analyze_directory (new_tracker "1.0.0") [Samples.user_email_py] None)
    (Some (export_to_json
             (analyze_directory (new_tracker "1.0.0") [Samples.user_plain_py] None)))
  = Some {| models_added := []; models_removed := []; models_modified := ["User"];
            fields_added := [("User", ["email"])]; fields_removed := [];
            fields_modified := [];
            breaking_changes := [required_field_added "User" "email"] |}.
Proof. vm_compute. reflexivity. Qed.

End Differ.

(** ** Decorators written with a dotted name *)

Section QualifiedDecorators.
Import Ast VersionTracker.

Lemma dotted_parts (e : expr) :
  Route.dotted e = true -> exists a b rest, rev (attr_parts e) = a :: b :: rest.
Proof.
  induction e as [id|value IH attr|func IH args keywords|value|elts|];
    intros H; simpl in H; try discriminate.
  cbn [attr_parts rev].
  destruct value as [id|value' attr'|func args keywords|value'|elts|];
    try discriminate.
  - simpl. eauto.
  - destruct (IH H) as (a & b & rest & E). rewrite E. simpl. eauto.
Qed.

Lemma join_of_two (a b : string) (rest : list string) :
  Py.str_in "." (Py.join "." (a :: b :: rest)) = true.
Proof. apply str_in_substring. exists a, (Py.join "." (b :: rest)). reflexivity. Qed.

(** Both tools give a dotted decorator its dotted name. *)
Lemma qualified_name (d : expr) :
  Route.qualified d = true ->
  Py.str_in "." (_get_decorator_name d) = true /\
  CodeAnalyzer._get_decorator_name d = _get_decorator_name d.
Proof.
  assert (Hattr : forall e, Route.dotted e = true ->
                    Py.str_in "." (_get_attr_name e) = true).
  { intros e H. unfold _get_attr_name.
    destruct (dotted_parts e H) as (a & b & rest & ->). apply join_of_two. }
  destruct d as [id|value attr|func args keywords|value|elts|]; simpl;
    try discriminate.
  - intros H. split; [|reflexivity]. now apply (Hattr (Attribute value attr)).
  - destruct func as [id|value attr|func args' keywords'|value|elts|]; simpl;
      try discriminate.
    intros H. split; [|reflexivity]. now apply (Hattr (Attribute value attr)).
Qed.

Lemma verbs_have_no_dot (name : string) :
  In name http_verbs -> Py.str_in "." name = false.
Proof.
  intros H. simpl in H.
  repeat (destruct H as [<-|H]; [reflexivity|]). destruct H.
Qed.

Lemma mapping_verbs_are_verbs (name : string) :
  In name CodeAnalyzer.mapping_verbs -> In name http_verbs.
Proof. simpl. intuition. Qed.

(** X1. A function whose decorators are all written with a dotted name
    ([@app.get("/items")], [@router.post(...)]) is no endpoint for the
    version tracker: the name of such a decorator is the whole dotted text,
    which is none of the verbs, so [_parse_endpoint] returns [None] and
    the extraction leaves the tracker as it was. The mapping detector of
    the code analyzer finds no HTTP method for it either. *)
Theorem qualified_decorators_are_no_endpoints
    (t : tracker) (node : FunctionDef) (file : source_file) :
  forallb Route.qualified (fd_decorator_list node) = true ->
  (forall d, In d (fd_decorator_list node) ->
     Py.str_in "." (_get_decorator_name d) = true) /\
  _parse_endpoint t node file = None /\
  _extract_endpoints t [NFunctionDef node] file = t /\
  fst (fold_left CodeAnalyzer.read_decorator (fd_decorator_list node) (None, None)) = None.
Proof.
  intros Hq. rewrite forallb_forall in Hq.
  assert (Hnone : forall d, In d (fd_decorator_list node) ->
                    ~ In (_get_decorator_name d) http_verbs).
  { intros d Hin Hv. apply verbs_have_no_dot in Hv.
    destruct (qualified_name d (Hq d Hin)) as [Hdot _]. congruence. }
  assert (Hparse : _parse_endpoint t node file = None).
  { unfold _parse_endpoint.
    destruct (read_decorators (fd_decorator_list node)) as (Hm & _).
    cbv zeta in Hm. rewrite Hm.
    pose proof (method_of_matches (fd_decorator_list node)) as Hmatch.
    destruct (Route.method_of (fd_decorator_list node)) as [method|]; [|reflexivity].
    destruct Hmatch as (_ & d & Hin & Hv & _). exfalso. exact (Hnone d Hin Hv). }
  split; [|split; [|split]].
  - intros d Hin. now apply qualified_name, Hq.
  - exact Hparse.
  - simpl. now rewrite Hparse.
  - rewrite mapping_method. cbn [fst].
    match goal with |- context [Route.last_some ?f ?l] =>
      pose proof (last_some_exists f l) as Hex; destruct (Route.last_some f l) end;
      [|reflexivity].
    destruct Hex as [Hex _]. destruct Hex as (d & Hin & Hf); [congruence|].
    exfalso. apply (Hnone d Hin).
    destruct (qualified_name d (Hq d Hin)) as [_ <-].
    apply mapping_verbs_are_verbs, list_in_In.
    destruct (Py.list_in _ _); [reflexivity|congruence].
Qed.

Lemma qualified_decorators_are_no_endpoints_witness :
  forallb Route.qualified (fd_decorator_list Samples.list_items) = true /\
  map _get_decorator_name (fd_decorator_list Samples.list_items) = ["app.get"] /\
  _parse_endpoint (new_tracker "1.0.0") Samples.list_items Samples.models_py = None.
Proof.
  split; [reflexivity|]. split; [reflexivity|].
  exact (proj1 (proj2 (qualified_decorators_are_no_endpoints
                         (new_tracker "1.0.0") Samples.list_items Samples.models_py
                         eq_refl))).
Defined.

(** X2. A class whose decorators are all written with a dotted name
    ([@dataclasses.dataclass], [@dataclasses.dataclass(frozen=True)]) is
    not seen as a dataclass: if the version tracker records it at all, it
    is for a [BaseModel] base, with the dataclass flag off, and without
    such a base it is not recorded; the code analyzer records it with the
    dataclass flag off. *)
Theorem qualified_dataclass_is_missed
    (t : tracker) (a : CodeAnalyzer.analyzer) (node : ClassDef) (file : source_file) :
  forallb Route.qualified (cd_decorator_list node) = true ->
  (forall m, _parse_model t node file = Some m ->
     m_is_dataclass m = false /\ m_is_pydantic m = true) /\
  (existsb (Py.str_in "BaseModel") (base_class_names (cd_bases node)) = false ->
   _parse_model t node file = None) /\
  (exists mi,
     CodeAnalyzer.models (CodeAnalyzer._extract_model a node file) =
       (CodeAnalyzer.models a ++ [mi])%list /\
     CodeAnalyzer.mi_name mi = cd_name node /\
     CodeAnalyzer.mi_is_dataclass mi = false).
Proof.
  intros Hq. rewrite forallb_forall in Hq.
  assert (Hvt : Py.list_in "dataclass"
                  (map _get_decorator_name (cd_decorator_list node)) = false).
  { destruct (Py.list_in _ _) eqn:E; [|reflexivity].
    apply list_in_In, in_map_iff in E. destruct E as (d & E & Hin).
    destruct (qualified_name d (Hq d Hin)) as [Hdot _].
    rewrite E in Hdot. discriminate. }
  assert (Hca : Py.list_in "dataclass"
                  (map CodeAnalyzer._get_decorator_name (cd_decorator_list node)) = false).
  { replace (map CodeAnalyzer._get_decorator_name (cd_decorator_list node))
      with (map _get_decorator_name (cd_decorator_list node)); [exact Hvt|].
    apply map_ext_in. intros d Hin. symmetry. now apply qualified_name, Hq. }
  split; [|split].
  - intros m. unfold _parse_model. rewrite Hvt, orb_false_r.
    destruct (existsb _ _); [|discriminate]. simpl.
    destruct (sf_git file) as [[commit timestamp] author].
    intros [= <-]. split; reflexivity.
  - intros Hp. unfold _parse_model. rewrite Hvt, Hp. reflexivity.
  - eexists. split; [reflexivity|]. split; [reflexivity|].
    cbn [CodeAnalyzer.mi_is_dataclass]. exact Hca.
Qed.

Lemma qualified_dataclass_is_missed_witness :
  forallb Route.qualified (cd_decorator_list Samples.pixel) = true /\
  map _get_decorator_name (cd_decorator_list Samples.pixel) = ["dataclasses.dataclass"] /\
  _parse_model (new_tracker "1.0.0") Samples.pixel Samples.models_py = None /\
  option_map (fun m => (m_is_pydantic m, m_is_dataclass m))
    (_parse_model (new_tracker "1.0.0") Samples.voxel Samples.models_py)
  = Some (true, false).
Proof.
  split; [reflexivity|]. split; [reflexivity|]. split; [|reflexivity].
  exact (proj1 (proj2 (qualified_dataclass_is_missed
                         (new_tracker "1.0.0") CodeAnalyzer.new_analyzer
                         Samples.pixel Samples.models_py eq_refl))
           eq_refl).
Defined.

End QualifiedDecorators.

(** ** What a run of the version tracker records *)

Section TrackerRun.
Import Ast VersionTracker.

Lemma parse_model_reads_version (t t' : tracker) (node : ClassDef) (file : source_file) :
  project_version t = project_version t' ->
  _parse_model t node file = _parse_model t' node file.
Proof. intros E. unfold _parse_model. now rewrite E. Qed.

Lemma extract_models_version (t : tracker) (walk : list node) (file : source_file) :
  project_version (_extract_models t walk file) = project_version t.
Proof.
  unfold _extract_models. apply fold_left_preserves.
  intros s [c| |]; try reflexivity.
  destruct (_parse_model s c file); reflexivity.
Qed.

(** X3. When a walk holds several record classes of one name, the
    snapshot keeps the last of them: after [_extract_models], the entry
    under a name is the record of the last class of the walk that is
    recorded under that name, and the entry the tracker had before when
    there is none. *)
Theorem last_definition_of_a_name_wins
    (t : tracker) (walk : list node) (file : source_file) (name : string) :
  Py.dict_get (models (_extract_models t walk file)) name =
  match Route.last_some (Route.record_named t file name) walk with
  | Some m => Some m
  | None => Py.dict_get (models t) name
  end.
Proof.
  induction walk as [|n walk IH] using rev_ind; [reflexivity|].
  rewrite last_some_app. unfold _extract_models in *. rewrite fold_left_app.
  cbn [fold_left]. fold (_extract_models t walk file) in *.
  destruct n as [c| |]; cbn [Route.record_named]; try exact IH.
  rewrite (parse_model_reads_version _ t c file (extract_models_version t walk file)).
  destruct (_parse_model t c file) as [m|]; [|exact IH].
  cbn [models set_models]. rewrite dict_get_set.
  destruct (String.eqb name (m_name m)); [reflexivity|exact IH].
Qed.

Lemma link_model_files (t : tracker) (model : option string) (label : string) :
  files_analyzed (link_model t model label) = files_analyzed t.
Proof.
  unfold link_model. destruct model as [name|]; [|reflexivity].
  destruct (String.eqb name ""); [reflexivity|].
  destruct (Py.dict_get (models t) name); reflexivity.
Qed.

Lemma analyze_file_files (t : tracker) (file : source_file) :
  files_analyzed (_analyze_file t file) = files_analyzed t.
Proof.
  unfold _analyze_file, _analyze_file_try.
  destruct (sf_parse file) as [message|walk]; [reflexivity|].
  unfold _extract_endpoints, _extract_models.
  rewrite (fold_left_preserves files_analyzed).
  - apply fold_left_preserves. intros s [c| |]; try reflexivity.
    destruct (_parse_model s c file); reflexivity.
  - intros s [|f|]; try reflexivity.
    destruct (_parse_endpoint s f file); [|reflexivity].
    cbv zeta. now rewrite !link_model_files.
Qed.

(** X4. [files_analyzed] lists, in order, the relative path of every file
    that passes the exclusion, whether or not the file could be read and
    parsed: a file with a syntax error is still listed (and counted by
    the summary). *)
Theorem files_analyzed_lists_every_file
    (t : tracker) (files : list source_file) (exclude_patterns : option (list string)) :
  files_analyzed (analyze_directory t files exclude_patterns) =
  (files_analyzed t ++ map sf_relative (python_files files exclude_patterns))%list.
Proof.
  unfold analyze_directory.
  rewrite (fold_left_appends files_analyzed _ (fun f => [sf_relative f])).
  - reflexivity.
  - intros s f. cbn [files_analyzed add_file]. now rewrite analyze_file_files.
Qed.

End TrackerRun.

(** ** Which files a run reads *)

Section Exclusion.
Import Ast.

Lemma string_append_assoc (a b c : string) : (a ++ b) ++ c = a ++ (b ++ c).
Proof. induction a as [|x a IH]; simpl; [reflexivity|]. now rewrite IH. Qed.

(** A pattern that occurs in the root occurs in every path below it. *)
Lemma str_in_prefix (pattern root path : string) :
  Py.str_in pattern root = true -> String.prefix root path = true ->
  Py.str_in pattern path = true.
Proof.
  intros Hin Hpre. apply str_in_substring in Hin. destruct Hin as (before & rest & ->).
  apply prefix_append in Hpre. destruct Hpre as [tail ->].
  apply str_in_substring. exists before, (rest ++ tail).
  now rewrite !string_append_assoc.
Qed.

Lemma excluded_below_root (patterns : list string) (pattern root : string)
    (files : list source_file) :
  In pattern patterns -> Py.str_in pattern root = true ->
  (forall f, In f files -> String.prefix root (sf_path f) = true) ->
  filter (fun f => negb (VersionTracker.excluded patterns f)) files = [].
Proof.
  intros Hp Hroot Hfiles. induction files as [|f files IH]; [reflexivity|].
  simpl. assert (E : VersionTracker.excluded patterns f = true).
  { apply existsb_exists. exists pattern. split; [assumption|].
    apply (str_in_prefix pattern root); [assumption|]. apply Hfiles. now left. }
  rewrite E. simpl. apply IH. intros g Hg. apply Hfiles. now right.
Qed.

(** X5. The exclusion looks for the patterns in the whole path of a
    file, the root directory included: when the path of the root itself
    contains one of the patterns (a project checked out below a directory
    named [venvs], say), every file is skipped and [analyze_directory]
    leaves the version tracker, and the code analyzer, as they were. *)
Theorem excluded_root_analyses_nothing
    (t : VersionTracker.tracker) (a : CodeAnalyzer.analyzer)
    (files : list source_file) (patterns : list string) (pattern root : string) :
  In pattern patterns -> Py.str_in pattern root = true ->
  (forall f, In f files -> String.prefix root (sf_path f) = true) ->
  VersionTracker.python_files files (Some patterns) = [] /\
  VersionTracker.analyze_directory t files (Some patterns) = t /\
  CodeAnalyzer.analyze_directory a files (Some patterns) = a.
Proof.
  intros Hp Hroot Hfiles.
  pose proof (excluded_below_root patterns pattern root files Hp Hroot Hfiles) as E.
  unfold VersionTracker.analyze_directory, CodeAnalyzer.analyze_directory,
    VersionTracker.python_files, CodeAnalyzer.python_files.
  rewrite E. repeat split.
Qed.

Lemma excluded_root_analyses_nothing_witness :
  VersionTracker.analyze_directory (VersionTracker.new_tracker "1.0.0")
    [Samples.venvs_main_py] (Some VersionTracker.default_exclude_patterns)
  = VersionTracker.new_tracker "1.0.0" /\
  CodeAnalyzer.analyze_directory CodeAnalyzer.new_analyzer
    [Samples.venvs_main_py] (Some VersionTracker.default_exclude_patterns)
  = CodeAnalyzer.new_analyzer.
Proof.
  apply (excluded_root_analyses_nothing (VersionTracker.new_tracker "1.0.0")
           CodeAnalyzer.new_analyzer [Samples.venvs_main_py]
           VersionTracker.default_exclude_patterns "venv" "/home/dev/venvs/shop").
  - simpl. auto.
  - reflexivity.
  - intros f [<-|[]]. reflexivity.
Defined.

Lemma excluded_app (ps qs : list string) (f : source_file) :
  VersionTracker.excluded (ps ++ qs) f =
  VersionTracker.excluded ps f || VersionTracker.excluded qs f.
Proof. unfold VersionTracker.excluded. apply existsb_app. Qed.

(** X6. [main] always passes its own [--exclude] list, whose default is
    shorter than the default of [analyze_directory]: run from the command
    line without [--exclude], the tracker reads every file the library
    default reads, and the only other files it reads are those whose path
    contains [.git] or [analysis_output]. *)
Theorem command_line_excludes_less
    (files : list source_file) (previous : string -> option VersionTracker.json_document)
    (f : source_file) :
  let cli := VersionTracker.cli_exclude VersionTracker.default_arguments in
  VersionTracker.run_tracker
    (VersionTracker.main VersionTracker.default_arguments files previous) =
    VersionTracker.analyze_directory (VersionTracker.new_tracker "1.0.0") files
      (Some cli) /\
  (In f (VersionTracker.python_files files (Some cli)) <->
   In f (VersionTracker.python_files files None) \/
   (In f files /\ VersionTracker.excluded cli f = false /\
    (Py.str_in ".git" (sf_path f) = true \/
     Py.str_in "analysis_output" (sf_path f) = true))).
Proof.
  cbv zeta. split.
  - reflexivity.
  - unfold VersionTracker.python_files. rewrite !filter_In.
    change VersionTracker.default_exclude_patterns
      with (VersionTracker.cli_exclude VersionTracker.default_arguments
            ++ [".git"; "analysis_output"])%list.
    rewrite excluded_app.
    destruct (VersionTracker.excluded
                (VersionTracker.cli_exclude VersionTracker.default_arguments) f);
      simpl; [intuition discriminate|].
    unfold VersionTracker.excluded. simpl. rewrite orb_false_r.
    destruct (Py.str_in ".git" (sf_path f)), (Py.str_in "analysis_output" (sf_path f));
      simpl; intuition discriminate.
Qed.

End Exclusion.

(** ** Models and the endpoints that use them *)

Section Linking.
Import Ast VersionTracker.

Lemma dict_set_in {V} (d : Py.dict V) (k : string) (v : V) (x : string * V) :
  In x (Py.dict_set d k v) -> x = (k, v) \/ In x d.
Proof.
  induction d as [|[k' v'] d IH]; simpl.
  - intuition.
  - destruct (String.eqb_spec k k') as [->|Hne]; simpl; intuition.
Qed.

Lemma link_model_endpoints (t : tracker) (model : option string) (label : string) :
  endpoints (link_model t model label) = endpoints t.
Proof.
  unfold link_model. destruct model as [name|]; [|reflexivity].
  destruct (String.eqb name ""); [reflexivity|].
  destruct (Py.dict_get (models t) name); reflexivity.
Qed.

Lemma link_model_uses (t : tracker) (model : option string) (label : string) :
  uses_recorded t ->
  (forall name, model = Some name ->
     exists e, In e (endpoints t) /\
               label = e_method e ++ " " ++ str (e_path e) /\
               (e_request_model e = Some name \/ e_response_model e = Some name)) ->
  uses_recorded (link_model t model label).
Proof.
  intros Ht He. unfold link_model. destruct model as [name|]; [|exact Ht].
  destruct (String.eqb name ""); [exact Ht|].
  destruct (Py.dict_get (models t) name) as [m|] eqn:E; [|exact Ht].
  intros name' m' label' Hin Hl. cbn [models set_models endpoints] in *.
  apply dict_set_in in Hin. destruct Hin as [Heq|Hin].
  - injection Heq as -> ->. cbn [m_used_in_endpoints note_use] in Hl.
    apply in_app_iff in Hl. destruct Hl as [Hl|[<-|[]]].
    + apply (Ht name m label'); [now apply dict_get_in|exact Hl].
    + now apply He.
  - now apply (Ht name' m' label').
Qed.

Lemma parse_model_unused t node file m :
  _parse_model t node file = Some m -> m_used_in_endpoints m = [].
Proof.
  unfold _parse_model. destruct (negb _); [discriminate|].
  destruct (sf_git file) as [[commit timestamp] author]. now intros [= <-].
Qed.

Lemma analyze_file_uses (t : tracker) (file : source_file) :
  uses_recorded t -> uses_recorded (_analyze_file t file).
Proof.
  intros H. unfold _analyze_file, _analyze_file_try.
  destruct (sf_parse file) as [message|walk]; [exact H|].
  unfold _extract_endpoints, _extract_models.
  apply (fold_left_invariant uses_recorded).
  - intros s [|f|] Hs; try assumption.
    destruct (_parse_endpoint s f file) as [e|]; [|assumption].
    cbv zeta.
    assert (Hadd : uses_recorded (add_endpoint s e)).
    { intros name m label Hin Hl. destruct (Hs name m label Hin Hl) as (e0 & H0 & Hrest).
      exists e0. split; [|exact Hrest]. cbn [endpoints add_endpoint].
      apply in_app_iff. now left. }
    apply link_model_uses; [apply link_model_uses; [exact Hadd|]|].
    + intros name Hname. exists e. split; [|split; [reflexivity|now left]].
      cbn [endpoints add_endpoint]. apply in_app_iff. right. now left.
    + intros name Hname. exists e. split; [|split; [reflexivity|now right]].
      rewrite link_model_endpoints. cbn [endpoints add_endpoint].
      apply in_app_iff. right. now left.
  - apply (fold_left_invariant uses_recorded); [|exact H].
    intros s [c| |] Hs; try assumption.
    destruct (_parse_model s c file) as [m|] eqn:E; [|assumption].
    intros name m' label Hin Hl. cbn [models set_models endpoints] in *.
    apply dict_set_in in Hin. destruct Hin as [Heq|Hin].
    + injection Heq as -> ->. rewrite (parse_model_unused _ _ _ _ E) in Hl. destruct Hl.
    + now apply (Hs name m' label).
Qed.

Lemma analysed_uses (t : tracker) : analysed t -> uses_recorded t.
Proof.
  induction 1 as [version|t files exclude_patterns Ht IH].
  - intros name m label [].
  - unfold analyze_directory. apply (fold_left_invariant uses_recorded); [|exact IH].
    intros s f Hs. pose proof (analyze_file_uses s f Hs) as Hf.
    intros name m label Hin Hl. exact (Hf name m label Hin Hl).
Qed.

(** X7. In every snapshot a run produces, each label a model lists in
    [used_in_endpoints] is the [METHOD path] text of an endpoint the
    tracker has recorded, and that endpoint names the model as its
    request or its response model: the list never mentions an endpoint
    that is not in the snapshot. *)
Theorem used_in_endpoints_are_recorded
    (t : tracker) (name : string) (m : ModelVersion) (label : string) :
  analysed t ->
  Py.dict_get (models t) name = Some m ->
  In label (m_used_in_endpoints m) ->
  exists e, In e (endpoints t) /\
            label = e_method e ++ " " ++ str (e_path e) /\
            (e_request_model e = Some name \/ e_response_model e = Some name).
Proof.
  intros Ht Hm Hl. apply (analysed_uses t Ht name m label); [|exact Hl].
  now apply dict_get_in.
Qed.

Lemma used_in_endpoints_are_recorded_witness :
  let t := analyze_directory (new_tracker "1.0.0") [Samples.orders_py] None in
  option_map m_used_in_endpoints (Py.dict_get (models t) "Item")
    = Some ["POST /orders"; "POST /orders"] /\
  exists e, In e (endpoints t) /\
            "POST /orders" = e_method e ++ " " ++ str (e_path e) /\
            (e_request_model e = Some "Item" \/ e_response_model e = Some "Item").
Proof.
  cbv zeta. split; [vm_compute; reflexivity|].
  destruct (Py.dict_get
              (models (analyze_directory (new_tracker "1.0.0") [Samples.orders_py] None))
              "Item") as [m|] eqn:E; [|vm_compute in E; discriminate].
  apply (used_in_endpoints_are_recorded _ "Item" m "POST /orders").
  - apply analysed_directory, analysed_new.
  - exact E.
  - vm_compute in E. injection E as <-. simpl. auto.
Defined.

End Linking.

(** ** The exports of the version tracker *)

Section Exports.
Import Ast VersionTracker.

Lemma count_if_from {A} (p : A -> bool) (xs : list A) (n : Z) :
  fold_left (fun n x => if p x then (n + 1)%Z else n) xs n = (n + Py.count_if p xs)%Z.
Proof.
  unfold Py.count_if. revert n. induction xs as [|x xs IH]; intros n; simpl; [lia|].
  rewrite (IH (if p x then (n + 1)%Z else n)), (IH (if p x then 1%Z else 0%Z)).
  destruct (p x); lia.
Qed.

Lemma count_if_cons {A} (p : A -> bool) (x : A) (xs : list A) :
  Py.count_if p (x :: xs) = ((if p x then 1 else 0) + Py.count_if p xs)%Z.
Proof.
  unfold Py.count_if at 1. simpl. rewrite count_if_from. destruct (p x); lia.
Qed.

Lemma len_cons {A} (x : A) (xs : list A) : Py.len (x :: xs) = (1 + Py.len xs)%Z.
Proof. unfold Py.len. change (List.length (x :: xs)) with (S (List.length xs)). lia. Qed.

(** *** Every recorded model has one of the two flags *)

Lemma parse_model_flagged t node file m :
  _parse_model t node file = Some m -> m_is_pydantic m || m_is_dataclass m = true.
Proof.
  unfold _parse_model. destruct (negb (_ || _)) eqn:E; [discriminate|].
  destruct (sf_git file) as [[commit timestamp] author]. intros [= <-].
  cbn [m_is_pydantic m_is_dataclass]. now apply negb_false_iff in E.
Qed.

Lemma link_model_flagged (t : tracker) (model : option string) (label : string) :
  flagged (models t) -> flagged (models (link_model t model label)).
Proof.
  intros H. unfold link_model. destruct model as [name|]; [|assumption].
  destruct (String.eqb name ""); [assumption|].
  destruct (Py.dict_get (models t) name) as [m|] eqn:E; [|assumption].
  cbn [models set_models]. apply dict_get_in in E.
  apply dict_set_forall; [exact H| |intros k' _ Hk; exact Hk].
  unfold flagged in H. rewrite Forall_forall in H. exact (H _ E).
Qed.

Lemma analyze_file_flagged (t : tracker) (file : source_file) :
  flagged (models t) -> flagged (models (_analyze_file t file)).
Proof.
  intros H. unfold _analyze_file, _analyze_file_try.
  destruct (sf_parse file) as [message|walk]; [exact H|].
  unfold _extract_endpoints, _extract_models.
  apply (fold_left_invariant (fun t => flagged (models t))).
  - intros s [|f|] Hs; try assumption.
    destruct (_parse_endpoint s f file) as [e|]; [|assumption].
    cbv zeta. now repeat apply link_model_flagged.
  - apply (fold_left_invariant (fun t => flagged (models t))); [|exact H].
    intros s [c| |] Hs; try assumption.
    destruct (_parse_model s c file) as [m|] eqn:E; [|assumption].
    cbn [models set_models].
    apply dict_set_forall; [exact Hs| |intros k' _ Hk; exact Hk].
    exact (parse_model_flagged _ _ _ _ E).
Qed.

Lemma analysed_flagged (t : tracker) : analysed t -> flagged (models t).
Proof.
  induction 1 as [version|t files exclude_patterns Ht IH].
  - constructor.
  - unfold analyze_directory.
    apply (fold_left_invariant (fun t => flagged (models t))); [|exact IH].
    intros s f Hs. cbn [models add_file]. now apply analyze_file_flagged.
Qed.

Lemma flagged_counts (ms : Py.dict ModelVersion) :
  flagged ms ->
  (Py.count_if m_is_pydantic (Py.dict_values ms)
   + Py.count_if m_is_dataclass (Py.dict_values ms))%Z =
  (Py.len ms
   + Py.count_if (fun m => m_is_pydantic m && m_is_dataclass m) (Py.dict_values ms))%Z.
Proof.
  unfold Py.dict_values. induction 1 as [|[k m] ms Hm Hms IH]; [reflexivity|].
  cbn [map snd] in *. rewrite !count_if_cons, len_cons.
  cbn [snd] in Hm.
  destruct (m_is_pydantic m), (m_is_dataclass m); cbn [orb andb] in *;
    try discriminate; lia.
Qed.

(** *** The models of the YAML document *)

Lemma grouped_set {V} (d : Py.dict (list V)) (k : string) (l : list V) (x : V) :
  Py.dict_get d k = Some l ->
  Permutation (flat_map snd (Py.dict_set d k (l ++ [x])%list)) (flat_map snd d ++ [x])%list.
Proof.
  induction d as [|[k' v'] d IH]; simpl; [discriminate|].
  destruct (String.eqb k k').
  - intros [= ->]. simpl. rewrite <- !app_assoc. apply Permutation_app_head.
    apply Permutation_app_comm.
  - intros E. simpl. rewrite <- app_assoc. apply Permutation_app_head. now apply IH.
Qed.

Lemma grouped_append {V} (d : Py.dict (list V)) (k : string) (x : V) :
  Permutation (flat_map snd (Py.dict_append d k x)) (flat_map snd d ++ [x])%list.
Proof.
  unfold Py.dict_append. destruct (Py.dict_get d k) as [l|] eqn:E.
  - now apply grouped_set.
  - rewrite dict_set_fresh by now apply dict_get_none.
    rewrite flat_map_app. simpl. reflexivity.
Qed.

Lemma grouped_fold {V} (key : V -> string) (xs : list V) (d : Py.dict (list V)) :
  Permutation
    (flat_map snd (fold_left (fun d x => Py.dict_append d (key x) x) xs d))
    (flat_map snd d ++ xs)%list.
Proof.
  revert d. induction xs as [|x xs IH]; intros d; simpl.
  - now rewrite app_nil_r.
  - etransitivity; [apply IH|].
    etransitivity; [apply Permutation_app_tail, grouped_append|].
    now rewrite <- app_assoc.
Qed.

Lemma insert_item_permutation {V} (x : string * V) (l : list (string * V)) :
  Permutation (Py.insert_item x l) (x :: l).
Proof.
  induction l as [|y l IH]; simpl; [reflexivity|].
  destruct (String.leb (fst x) (fst y)); [reflexivity|].
  rewrite IH. apply perm_swap.
Qed.

Lemma sorted_items_permutation {V} (d : Py.dict V) : Permutation (Py.sorted_items d) d.
Proof.
  induction d as [|x d IH]; simpl; [reflexivity|].
  rewrite insert_item_permutation. now constructor.
Qed.

Lemma insert_item_ordered {V} (x : string * V) (l : list (string * V)) :
  Sorted (fun a b => String.leb (fst a) (fst b) = true) l ->
  Sorted (fun a b => String.leb (fst a) (fst b) = true) (Py.insert_item x l).
Proof.
  induction 1 as [|y l Hs IH Hd]; simpl.
  - repeat constructor.
  - destruct (String.leb (fst x) (fst y)) eqn:Hxy.
    + repeat constructor; assumption.
    + constructor; [assumption|].
      apply string_leb_false in Hxy.
      destruct l as [|z l]; simpl.
      * now constructor.
      * destruct (String.leb (fst x) (fst z)); constructor; [assumption|].
        now inversion Hd.
Qed.

Lemma sorted_items_ordered {V} (d : Py.dict V) :
  StronglySorted (fun a b => String.leb (fst a) (fst b) = true) (Py.sorted_items d).
Proof.
  apply Sorted_StronglySorted.
  - intros a b c. apply string_leb_trans.
  - induction d as [|x d IH]; simpl; [constructor|]. now apply insert_item_ordered.
Qed.

(** The groups of [models_by_file] hold models of the file they are filed
    under. *)
Lemma models_by_file_groups (t : tracker) :
  Forall (fun entry => Forall (fun m => m_file_path m = fst entry) (snd entry))
    (models_by_file t).
Proof.
  unfold models_by_file.
  apply (fold_left_invariant
           (Forall (fun entry : string * list ModelVersion =>
                      Forall (fun m => m_file_path m = fst entry) (snd entry))));
    [|constructor].
  intros d m Hd. unfold Py.dict_append.
  destruct (Py.dict_get d (m_file_path m)) as [l|] eqn:E.
  - apply dict_set_forall; [exact Hd| |intros k' <- Hk; exact Hk].
    cbn [fst snd]. apply Forall_app. split; [|now repeat constructor].
    apply dict_get_in in E. rewrite Forall_forall in Hd. exact (Hd _ E).
  - apply dict_set_forall; [exact Hd| |intros k' <- Hk; exact Hk].
    now repeat constructor.
Qed.

Lemma yaml_models_of_groups (groups : list (string * list ModelVersion)) :
  flat_map (fun '(_, models) => map model_to_yaml models) groups =
  map model_to_yaml (flat_map snd groups).
Proof.
  induction groups as [|[k ms] groups IH]; simpl; [reflexivity|].
  now rewrite map_app, IH.
Qed.

Lemma yaml_models_permutation (t : tracker) :
  Permutation (yd_models (export_to_yaml t))
    (map model_to_yaml (Py.dict_values (models t))).
Proof.
  cbn [yd_models export_to_yaml]. rewrite yaml_models_of_groups.
  apply Permutation_map.
  etransitivity; [apply Permutation_flat_map, sorted_items_permutation|].
  unfold models_by_file.
  etransitivity; [apply grouped_fold|]. reflexivity.
Qed.

Lemma blocks_ordered (groups : list (string * list ModelVersion)) :
  StronglySorted (fun a b => String.leb (fst a) (fst b) = true) groups ->
  Forall (fun entry => Forall (fun m => m_file_path m = fst entry) (snd entry)) groups ->
  StronglySorted (fun a b => String.leb a b = true)
    (map m_file_path (flat_map snd groups)).
Proof.
  induction 1 as [|[k ms] groups Hs IH Hk]; intros Hg; simpl; [constructor|].
  inversion Hg as [|? ? Hms Hrest]; subst. cbn [fst snd] in *.
  specialize (IH Hrest). rewrite map_app.
  assert (Hlater : Forall (fun y => String.leb k y = true)
                     (map m_file_path (flat_map snd groups))).
  { rewrite Forall_forall. intros y Hy. apply in_map_iff in Hy.
    destruct Hy as (m & <- & Hm). apply in_flat_map in Hm.
    destruct Hm as ([k' ms'] & Hin & Hm). cbn [snd] in Hm.
    rewrite Forall_forall in Hk, Hrest.
    pose proof (Hk _ Hin) as Hle. pose proof (Hrest _ Hin) as Hfile.
    cbn [fst snd] in Hle, Hfile. rewrite Forall_forall in Hfile.
    now rewrite (Hfile m Hm). }
  clear Hg Hk Hrest Hs. induction Hms as [|m ms Hm Hms IHms]; simpl; [exact IH|].
  constructor; [exact IHms|]. apply Forall_app. split; [|now rewrite Hm].
  rewrite Forall_forall. intros y Hy. apply in_map_iff in Hy.
  destruct Hy as (m' & <- & Hm'). rewrite Forall_forall in Hms.
  rewrite Hm, (Hms m' Hm'). apply string_leb_refl.
Qed.

(** X8. [export_to_yaml] lists every model of the snapshot exactly once,
    grouped by file: the exported models are a rearrangement of the
    tracker's models, and their [file] entries are in ascending order (by
    code point). The endpoints are exported one for one, in the order
    they were found. *)
Theorem yaml_lists_every_model_by_file (t : tracker) :
  Permutation (yd_models (export_to_yaml t))
    (map model_to_yaml (Py.dict_values (models t))) /\
  Sorted (fun a b => String.leb a b = true)
    (map ym_file (yd_models (export_to_yaml t))) /\
  map ye_function (yd_endpoints (export_to_yaml t)) = map e_function_name (endpoints t).
Proof.
  split; [apply yaml_models_permutation|]. split.
  - cbn [yd_models export_to_yaml]. rewrite yaml_models_of_groups, map_map.
    apply StronglySorted_Sorted.
    apply (blocks_ordered (Py.sorted_items (models_by_file t))).
    + apply sorted_items_ordered.
    + eapply Permutation_Forall; [|apply models_by_file_groups].
      symmetry. apply sorted_items_permutation.
  - cbn [yd_endpoints export_to_yaml]. now rewrite map_map.
Qed.

(** X9. Every model a run records is a Pydantic model or a dataclass (or
    both). So in the summary of [export_to_json] the counts
    [pydantic_models] and [dataclasses] add up to [total_models] plus the
    number of models that are both, and the [type] that [export_to_yaml]
    writes is [dataclass] only for a model that is a dataclass and not a
    Pydantic model. *)
Theorem recorded_models_are_flagged (t : tracker) :
  analysed t ->
  (forall name m, Py.dict_get (models t) name = Some m ->
     m_is_pydantic m = true \/ m_is_dataclass m = true) /\
  (pydantic_models (export_summary t) + dataclasses (export_summary t))%Z =
    (total_models (export_summary t)
     + Py.count_if (fun m => m_is_pydantic m && m_is_dataclass m)
         (Py.dict_values (models t)))%Z /\
  (forall y, In y (yd_models (export_to_yaml t)) ->
     exists m, In m (Py.dict_values (models t)) /\ y = model_to_yaml m /\
       (ym_type y = "pydantic" <-> m_is_pydantic m = true) /\
       (ym_type y = "dataclass" <->
        m_is_pydantic m = false /\ m_is_dataclass m = true)).
Proof.
  intros Ht. pose proof (analysed_flagged t Ht) as Hf.
  assert (Hflag : forall m, In m (Py.dict_values (models t)) ->
                    m_is_pydantic m || m_is_dataclass m = true).
  { intros m Hm. apply in_map_iff in Hm. destruct Hm as ([k m'] & <- & Hin).
    unfold flagged in Hf. rewrite Forall_forall in Hf. exact (Hf _ Hin). }
  split; [|split].
  - intros name m Hm. apply orb_true_iff, Hflag.
    apply dict_get_in in Hm. apply in_map_iff. now exists (name, m).
  - cbn [pydantic_models dataclasses total_models export_summary].
    now apply flagged_counts.
  - intros y Hy.
    apply (Permutation_in _ (yaml_models_permutation t)) in Hy.
    apply in_map_iff in Hy. destruct Hy as (m & <- & Hm).
    exists m. split; [exact Hm|]. split; [reflexivity|].
    specialize (Hflag m Hm). cbn [ym_type model_to_yaml].
    destruct (m_is_pydantic m), (m_is_dataclass m); simpl in Hflag;
      try discriminate; intuition discriminate.
Qed.

Lemma recorded_models_are_flagged_witness :
  let t := analyze_directory (new_tracker "1.0.0")
             [Samples.file_of "shapes.py" [NClassDef Samples.point; NClassDef Samples.user;
                                            NClassDef Samples.helper]] None in
  Py.dict_keys (models t) = ["Point"; "User"] /\
  (pydantic_models (export_summary t), dataclasses (export_summary t),
   total_models (export_summary t)) = (2, 1, 2)%Z /\
  (pydantic_models (export_summary t) + dataclasses (export_summary t))%Z =
    (total_models (export_summary t)
     + Py.count_if (fun m => m_is_pydantic m && m_is_dataclass m)
         (Py.dict_values (models t)))%Z.
Proof.
  cbv zeta. split; [vm_compute; reflexivity|]. split; [vm_compute; reflexivity|].
  exact (proj1 (proj2 (recorded_models_are_flagged _
                         (analysed_directory _ _ None (analysed_new "1.0.0"))))).
Defined.

End Exports.

(** ** Text handling of the exports *)

Section ExportNames.
Import Ast VersionTracker.

(** [c in s] for one character. *)
Lemma str_in_char (c a : ascii) (s : string) :
  Py.str_in (String c "") (String a s) =
  Ascii.eqb c a || Py.str_in (String c "") s.
Proof.
  cbn [Py.str_in String.prefix]. f_equal.
  destruct (ascii_dec c a) as [->|Hne].
  - rewrite Ascii.eqb_refl. now destruct s.
  - symmetry. now apply Ascii.eqb_neq.
Qed.

Lemma str_in_char_append (c : ascii) (a b : string) :
  Py.str_in (String c "") (a ++ b) =
  Py.str_in (String c "") a || Py.str_in (String c "") b.
Proof.
  induction a as [|x a IH].
  - simpl. now destruct b.
  - change (String x a ++ b) with (String x (a ++ b)).
    now rewrite !str_in_char, IH, orb_assoc.
Qed.

Lemma prefix_char (c a : ascii) (s : string) :
  String.prefix (String c "") (String a s) = Ascii.eqb c a.
Proof.
  cbn [String.prefix]. destruct (ascii_dec c a) as [->|Hne].
  - rewrite Ascii.eqb_refl. now destruct s.
  - symmetry. now apply Ascii.eqb_neq.
Qed.

(** Replacing a character removes it, when the replacement is free of
    it. *)
Lemma replace_char_removes (c : ascii) (new s : string) :
  Py.str_in (String c "") new = false ->
  Py.str_in (String c "") (Py.replace (String c "") new s) = false.
Proof.
  intros Hnew. unfold Py.replace. induction s as [|a s IH]; [reflexivity|].
  cbn [Py.replace_from]. rewrite prefix_char. cbn [String.length Nat.sub].
  destruct (Ascii.eqb c a) eqn:E.
  - now rewrite str_in_char_append, Hnew, IH.
  - now rewrite str_in_char, E, IH.
Qed.

(** Replacing leaves a text alone that is free of the character. *)
Lemma replace_char_absent (c : ascii) (new s : string) :
  Py.str_in (String c "") s = false -> Py.replace (String c "") new s = s.
Proof.
  unfold Py.replace. induction s as [|a s IH]; [reflexivity|].
  rewrite str_in_char. intros H. apply orb_false_iff in H. destruct H as [E H].
  cbn [Py.replace_from]. rewrite prefix_char, E. now rewrite IH.
Qed.

(** A replacement brings in no character that is in neither the text nor
    the new text. *)
Lemma replace_from_brings_nothing (c : ascii) (old new s : string) (skip : nat) :
  Py.str_in (String c "") new = false ->
  Py.str_in (String c "") s = false ->
  Py.str_in (String c "") (Py.replace_from old new skip s) = false.
Proof.
  intros Hnew. revert skip. induction s as [|a s IH]; intros skip; [reflexivity|].
  rewrite str_in_char. intros H. apply orb_false_iff in H. destruct H as [E H].
  cbn [Py.replace_from]. destruct skip as [|k]; [|now apply IH].
  destruct (String.prefix old (String a s)).
  - rewrite str_in_char_append, Hnew. now apply IH.
  - rewrite str_in_char, E. now apply IH.
Qed.

Lemma replace_brings_nothing (c : ascii) (old new s : string) :
  Py.str_in (String c "") new = false ->
  Py.str_in (String c "") s = false ->
  Py.str_in (String c "") (Py.replace old new s) = false.
Proof. apply replace_from_brings_nothing. Qed.

(** X10. The file name [export_per_file_manifest] gives the manifest of a
    source file contains no path separator, neither [/] nor a backslash.
    It does not tell a separator from an underscore: a path and the path
    with its slashes replaced by underscores get the same manifest name,
    so every path with a slash shares its manifest name with another
    path. *)
Theorem safe_filename_has_no_separator (file_path : string) :
  Py.str_in "/" (safe_filename file_path) = false /\
  Py.str_in "\" (safe_filename file_path) = false /\
  safe_filename (Py.replace "/" "_" file_path) = safe_filename file_path /\
  (Py.str_in "/" file_path = true -> Py.replace "/" "_" file_path <> file_path).
Proof.
  unfold safe_filename. split; [|split; [|split]].
  - apply replace_brings_nothing; [reflexivity|].
    apply replace_brings_nothing; [reflexivity|].
    now apply replace_char_removes.
  - apply replace_brings_nothing; [reflexivity|].
    now apply replace_char_removes.
  - f_equal. f_equal. apply replace_char_absent. now apply replace_char_removes.
  - intros Hin E.
    pose proof (replace_char_removes "/" "_" file_path eq_refl) as H.
    rewrite E in H. congruence.
Qed.

Example manifest_names_collide :
  safe_filename "pkg/models.py" = "pkg_models.yaml" /\
  safe_filename "pkg_models.py" = "pkg_models.yaml" /\
  safe_filename "app.pyx/a.py" = "app.yamlx_a.yaml".
Proof. repeat split. Qed.

(** *** The output of [git log] *)

Lemma split_on_free (sep : ascii) (s : string) :
  Py.str_in (String sep "") s = false -> Py.split_on sep s = [s].
Proof.
  induction s as [|a s IH]; [reflexivity|].
  rewrite str_in_char. intros H. apply orb_false_iff in H. destruct H as [E H].
  cbn [Py.split_on]. rewrite Ascii.eqb_sym, E. now rewrite IH.
Qed.

Lemma split_on_append (sep : ascii) (a rest : string) :
  Py.str_in (String sep "") a = false ->
  Py.split_on sep (a ++ String sep rest) = a :: Py.split_on sep rest.
Proof.
  induction a as [|x a IH].
  - intros _. cbn [String.append Py.split_on]. now rewrite Ascii.eqb_refl.
  - rewrite str_in_char. intros H. apply orb_false_iff in H. destruct H as [E H].
    change (String x a ++ String sep rest) with (String x (a ++ String sep rest)).
    cbn [Py.split_on]. rewrite Ascii.eqb_sym, E. now rewrite IH.
Qed.

(** Splitting gives parts that are free of the separator and that join
    back to the text. *)
Lemma split_on_parts (sep : ascii) (s : string) :
  Forall (fun part => Py.str_in (String sep "") part = false) (Py.split_on sep s) /\
  Py.join (String sep "") (Py.split_on sep s) = s /\
  Py.split_on sep s <> [].
Proof.
  induction s as [|a s (Hfree & Hjoin & Hne)].
  - repeat split; [repeat constructor|discriminate].
  - cbn [Py.split_on]. destruct (Ascii.eqb_spec a sep) as [->|Hneq].
    + split; [|split; [|discriminate]].
      * constructor; [reflexivity|exact Hfree].
      * destruct (Py.split_on sep s) as [|p ps]; [contradiction|].
        change (Py.join (String sep "") ("" :: p :: ps))
          with (String sep (Py.join (String sep "") (p :: ps))).
        now rewrite Hjoin.
    + destruct (Py.split_on sep s) as [|p ps]; [contradiction|].
      split; [|split; [|discriminate]].
      * inversion Hfree as [|? ? Hp Hps]; subst. constructor; [|exact Hps].
        rewrite str_in_char, Hp, orb_false_r. apply Ascii.eqb_neq. congruence.
      * rewrite <- Hjoin. destruct ps; reflexivity.
Qed.

(** X11. [_get_file_git_info] returns a commit, a time stamp and an
    author exactly when the stripped output of [git log] is three texts
    free of [|], joined by [|]; in every other case (no output, an
    exception, an author name that contains [|]) it returns three
    [None]. *)
Theorem file_git_info_needs_three_parts
    (out commit timestamp author : string) :
  (_get_file_git_info (Some out) = (Some commit, Some timestamp, Some author) <->
   Py.strip out = commit ++ "|" ++ timestamp ++ "|" ++ author /\
   Py.str_in "|" commit = false /\ Py.str_in "|" timestamp = false /\
   Py.str_in "|" author = false) /\
  ((exists c t a, _get_file_git_info (Some out) = (Some c, Some t, Some a)) \/
   _get_file_git_info (Some out) = (None, None, None)) /\
  _get_file_git_info None = (None, None, None).
Proof.
  split; [|split; [|reflexivity]].
  - unfold _get_file_git_info. split.
    + destruct (negb _); [|discriminate].
      destruct (split_on_parts "|" (Py.strip out)) as (Hfree & Hjoin & _).
      destruct (Py.split_on "|" (Py.strip out)) as [|c [|t [|a [|? ?]]]];
        try discriminate.
      intros [= -> -> ->]. split; [now rewrite <- Hjoin|].
      inversion Hfree as [|? ? Hc Hrest]; subst.
      inversion Hrest as [|? ? Ht Hrest']; subst.
      inversion Hrest' as [|? ? Ha _]; subst. auto.
    + intros (E & Hc & Ht & Ha). rewrite E.
      change (commit ++ "|" ++ timestamp ++ "|" ++ author)
        with (commit ++ String "|" (timestamp ++ String "|" author)).
      rewrite (split_on_append "|" commit _ Hc), (split_on_append "|" timestamp _ Ht),
        (split_on_free "|" author Ha).
      destruct commit; reflexivity.
  - unfold _get_file_git_info. destruct (negb _); [|now right].
    destruct (Py.split_on "|" (Py.strip out)) as [|c [|t [|a [|? ?]]]]; eauto.
Qed.

Example author_with_a_bar_loses_git_info :
  _get_file_git_info (Some "3f2a|2024-05-01T10:00:00+02:00|Ann Lee") =
    (Some "3f2a", Some "2024-05-01T10:00:00+02:00", Some "Ann Lee") /\
  _get_file_git_info (Some "3f2a|2024-05-01T10:00:00+02:00|Ann | Lee") =
    (None, None, None) /\
  _get_file_git_info (Some "") = (None, None, None).
Proof. repeat split. Qed.

End ExportNames.

(** ** More on the differ *)

Section FieldLists.
Import Ast VersionTracker.

Lemma dict_append_get {V} (d : Py.dict (list V)) (k : string) (x : V) (k' : string) :
  Py.dict_get (Py.dict_append d k x) k' =
  if String.eqb k' k
  then Some ((match Py.dict_get d k with Some l => l | None => [] end) ++ [x])%list
  else Py.dict_get d k'.
Proof.
  unfold Py.dict_append. destruct (Py.dict_get d k) as [l|] eqn:E;
    rewrite dict_get_set; destruct (String.eqb k' k); reflexivity.
Qed.

Lemma extended_app (entry : option (list string)) (a b : list string) :
  Diff.extended (Diff.extended entry a) b = Diff.extended entry (a ++ b).
Proof.
  destruct a as [|x a]; [reflexivity|]. destruct b as [|y b].
  - rewrite app_nil_r. reflexivity.
  - cbn [Diff.extended app]. now rewrite <- app_assoc.
Qed.

Lemma extended_nothing (names : list string) :
  Diff.extended None names = Diff.listed names.
Proof. destruct names; reflexivity. Qed.

(** A loop whose turns append names under one key of a dictionary of the
    state. *)
Lemma fold_left_extends {S B} (proj : S -> Py.dict (list string)) (g : S -> B -> S)
    (h : B -> list string) (name : string) (l : list B) :
  (forall s x k,
     Py.dict_get (proj (g s x)) k =
     if String.eqb k name then Diff.extended (Py.dict_get (proj s) name) (h x)
     else Py.dict_get (proj s) k) ->
  forall s k,
    Py.dict_get (proj (fold_left g l s)) k =
    if String.eqb k name then Diff.extended (Py.dict_get (proj s) name) (flat_map h l)
    else Py.dict_get (proj s) k.
Proof.
  intros Hg. induction l as [|x l IH]; intros s k; simpl.
  - destruct (String.eqb_spec k name) as [->|]; reflexivity.
  - rewrite IH. destruct (String.eqb k name) eqn:E; rewrite Hg.
    + now rewrite String.eqb_refl, extended_app.
    + now rewrite E.
Qed.

Lemma extended_one (entry : option (list string)) (k name : string) (d : Py.dict (list string)) :
  Py.dict_get d k =
  if String.eqb k name then Diff.extended (Py.dict_get d name) [] else Py.dict_get d k.
Proof. destruct (String.eqb_spec k name) as [->|]; reflexivity. Qed.

Lemma compare_fields_added (c : changes) (name : string)
    (current_fields : Py.dict FieldInfo) (previous_fields : Py.dict json_field)
    (k : string) :
  Py.dict_get (fields_added (compare_fields c name current_fields previous_fields)) k =
  if String.eqb k name
  then Diff.extended (Py.dict_get (fields_added c) name)
         (Diff.added_field_names current_fields previous_fields)
  else Py.dict_get (fields_added c) k.
Proof.
  unfold compare_fields, Diff.added_field_names. cbv zeta.
  rewrite (fold_left_preserves fields_added).
  2:{ intros s [field_name f]. destruct (Py.dict_get previous_fields field_name);
        [destruct (negb _)|]; reflexivity. }
  rewrite (fold_left_preserves fields_added).
  2:{ intros s [field_name f]. destruct (negb _); reflexivity. }
  apply (fold_left_extends fields_added).
  intros s [field_name f] k'. destruct (negb _).
  - destruct (f_required f); cbn [fields_added add_breaking add_field_added];
      now rewrite dict_append_get.
  - apply (extended_one None).
Qed.

Lemma compare_fields_removed (c : changes) (name : string)
    (current_fields : Py.dict FieldInfo) (previous_fields : Py.dict json_field)
    (k : string) :
  Py.dict_get (fields_removed (compare_fields c name current_fields previous_fields)) k =
  if String.eqb k name
  then Diff.extended (Py.dict_get (fields_removed c) name)
         (Diff.removed_field_names current_fields previous_fields)
  else Py.dict_get (fields_removed c) k.
Proof.
  unfold compare_fields, Diff.removed_field_names. cbv zeta.
  rewrite (fold_left_preserves fields_removed).
  2:{ intros s [field_name f]. destruct (Py.dict_get previous_fields field_name);
        [destruct (negb _)|]; reflexivity. }
  rewrite (fold_left_extends fields_removed _
             (fun '(field_name, _) =>
                if negb (Py.dict_mem field_name current_fields) then [field_name] else [])
             name).
  2:{ intros s [field_name f] k'. destruct (negb _).
      - cbn [fields_removed add_breaking add_field_removed]. now rewrite dict_append_get.
      - apply (extended_one None). }
  rewrite (fold_left_preserves fields_removed); [reflexivity|].
  intros s [field_name f]. destruct (negb _); [destruct (f_required f)|]; reflexivity.
Qed.

Lemma compare_fields_modified (c : changes) (name : string)
    (current_fields : Py.dict FieldInfo) (previous_fields : Py.dict json_field)
    (k : string) :
  Py.dict_get (fields_modified (compare_fields c name current_fields previous_fields)) k =
  if String.eqb k name
  then Diff.extended (Py.dict_get (fields_modified c) name)
         (Diff.retyped_field_names current_fields previous_fields)
  else Py.dict_get (fields_modified c) k.
Proof.
  unfold compare_fields, Diff.retyped_field_names. cbv zeta.
  rewrite (fold_left_extends fields_modified _
             (fun '(field_name, f) =>
                match Py.dict_get previous_fields field_name with
                | Some pf =>
                    if negb (String.eqb (f_type f) (jf_type pf)) then [field_name] else []
                | None => []
                end)
             name).
  2:{ intros s [field_name f] k'.
      destruct (Py.dict_get previous_fields field_name) as [pf|];
        [destruct (negb _)|].
      - cbn [fields_modified add_breaking add_field_modified].
        now rewrite dict_append_get.
      - apply (extended_one None).
      - apply (extended_one None). }
  rewrite !(fold_left_preserves fields_modified); [reflexivity| |].
  - intros s [field_name f]. destruct (negb _); [destruct (f_required f)|]; reflexivity.
  - intros s [field_name f]. destruct (negb _); reflexivity.
Qed.

(** *** The loop over the modified models, for one of the three
    dictionaries *)

Section OneDictionary.
Variable F : changes -> Py.dict (list string).
Variable N : Py.dict FieldInfo -> Py.dict json_field -> list string.
Hypothesis F_empty : F no_changes = [].
Hypothesis F_added : forall c n, F (add_model_added c n) = F c.
Hypothesis F_removed : forall c n b, F (add_breaking (add_model_removed c n) b) = F c.
Hypothesis F_modified : forall c n, F (add_model_modified c n) = F c.
Hypothesis F_fields : forall c n current_fields previous_fields k,
  Py.dict_get (F (compare_fields c n current_fields previous_fields)) k =
  if String.eqb k n
  then Diff.extended (Py.dict_get (F c) n) (N current_fields previous_fields)
  else Py.dict_get (F c) k.

Lemma modified_loop_get (previous : Py.dict json_model) (l : Py.dict ModelVersion)
    (name : string) :
  NoDup (Py.dict_keys l) ->
  forall s,
    Py.dict_get
      (F (fold_left
            (fun c '(n, current) =>
               match Py.dict_get previous n with
               | Some p =>
                   if hash_differs current p then
                     compare_fields (add_model_modified c n) n
                       (Py.dict_of_list f_name (m_fields current))
                       (Py.dict_of_list jf_name (fields_of_json p))
                   else c
               | None => c
               end)
            l s)) name =
    match Py.dict_get l name, Py.dict_get previous name with
    | Some current, Some p =>
        if hash_differs current p
        then Diff.extended (Py.dict_get (F s) name)
               (N (Py.dict_of_list f_name (m_fields current))
                  (Py.dict_of_list jf_name (fields_of_json p)))
        else Py.dict_get (F s) name
    | _, _ => Py.dict_get (F s) name
    end.
Proof.
  unfold Py.dict_keys. induction l as [|[n current] l IH]; intros Hnd s.
  - reflexivity.
  - inversion Hnd as [|? ? Hn Hd]; subst. cbn [fold_left Py.dict_get].
    rewrite (IH Hd). destruct (String.eqb_spec name n) as [->|Hne].
    + rewrite (proj2 (dict_get_none l n) Hn).
      destruct (Py.dict_get previous n) as [p|]; [|reflexivity].
      destruct (hash_differs current p); [|reflexivity].
      now rewrite F_fields, String.eqb_refl, F_modified.
    + assert (E : forall p, Py.dict_get
                   (F (compare_fields (add_model_modified s n) n
                         (Py.dict_of_list f_name (m_fields current))
                         (Py.dict_of_list jf_name (fields_of_json p)))) name =
                 Py.dict_get (F s) name).
      { intros p. rewrite F_fields.
        destruct (String.eqb_spec name n); [contradiction|]. now rewrite F_modified. }
      destruct (Py.dict_get previous n) as [p|]; [|reflexivity].
      destruct (hash_differs current p); [|reflexivity].
      now rewrite E.
Qed.

Lemma compare_models_get (current : Py.dict ModelVersion) (previous_data : json_document)
    (name : string) :
  NoDup (Py.dict_keys current) ->
  Py.dict_get (F (compare_models current previous_data)) name =
  match Py.dict_get current name,
        Py.dict_get (previous_models_of previous_data) name with
  | Some c, Some p =>
      if hash_differs c p
      then Diff.listed (N (Py.dict_of_list f_name (m_fields c))
                          (Py.dict_of_list jf_name (fields_of_json p)))
      else None
  | _, _ => None
  end.
Proof.
  intros Hnd. unfold compare_models. cbv zeta.
  rewrite (modified_loop_get _ _ _ Hnd).
  rewrite (fold_left_preserves F).
  2:{ intros s [n p]. destruct (negb _); [apply F_removed|reflexivity]. }
  rewrite (fold_left_preserves F).
  2:{ intros s [n c]. destruct (negb _); [apply F_added|reflexivity]. }
  rewrite F_empty. cbn [Py.dict_get].
  destruct (Py.dict_get current name) as [c|]; [|reflexivity].
  destruct (Py.dict_get (previous_models_of previous_data) name) as [p|]; [|reflexivity].
  now rewrite extended_nothing.
Qed.

End OneDictionary.

Lemma fields_added_get (current : Py.dict ModelVersion) (previous_data : json_document)
    (name : string) :
  NoDup (Py.dict_keys current) ->
  Py.dict_get (fields_added (compare_models current previous_data)) name =
  match Py.dict_get current name,
        Py.dict_get (previous_models_of previous_data) name with
  | Some c, Some p =>
      if hash_differs c p
      then Diff.listed (Diff.added_field_names (Py.dict_of_list f_name (m_fields c))
                          (Py.dict_of_list jf_name (fields_of_json p)))
      else None
  | _, _ => None
  end.
Proof.
  apply (compare_models_get fields_added Diff.added_field_names); try reflexivity.
  apply compare_fields_added.
Qed.

Lemma fields_removed_get (current : Py.dict ModelVersion) (previous_data : json_document)
    (name : string) :
  NoDup (Py.dict_keys current) ->
  Py.dict_get (fields_removed (compare_models current previous_data)) name =
  match Py.dict_get current name,
        Py.dict_get (previous_models_of previous_data) name with
  | Some c, Some p =>
      if hash_differs c p
      then Diff.listed (Diff.removed_field_names (Py.dict_of_list f_name (m_fields c))
                          (Py.dict_of_list jf_name (fields_of_json p)))
      else None
  | _, _ => None
  end.
Proof.
  apply (compare_models_get fields_removed Diff.removed_field_names); try reflexivity.
  apply compare_fields_removed.
Qed.

Lemma fields_modified_get (current : Py.dict ModelVersion) (previous_data : json_document)
    (name : string) :
  NoDup (Py.dict_keys current) ->
  Py.dict_get (fields_modified (compare_models current previous_data)) name =
  match Py.dict_get current name,
        Py.dict_get (previous_models_of previous_data) name with
  | Some c, Some p =>
      if hash_differs c p
      then Diff.listed (Diff.retyped_field_names (Py.dict_of_list f_name (m_fields c))
                          (Py.dict_of_list jf_name (fields_of_json p)))
      else None
  | _, _ => None
  end.
Proof.
  apply (compare_models_get fields_modified Diff.retyped_field_names); try reflexivity.
  apply compare_fields_modified.
Qed.

Lemma not_modified (current : Py.dict ModelVersion) (previous : Py.dict json_model)
    (name : string) :
  ~ In name (Diff.modified_names current previous) ->
  match Py.dict_get current name, Py.dict_get previous name with
  | Some c, Some p => hash_differs c p = false
  | _, _ => True
  end.
Proof.
  intros Hno. destruct (Py.dict_get current name) as [c|] eqn:Ec; [|exact I].
  destruct (Py.dict_get previous name) as [p|] eqn:Ep; [|exact I].
  destruct (hash_differs c p) eqn:Eh; [|reflexivity].
  exfalso. apply Hno, in_modified_names. exists c, p.
  split; [now apply dict_get_in|]. auto.
Qed.

(** X12. The three dictionaries of field names. For a model that is in
    both snapshots with different hashes, [fields_added] holds under its
    name the fields of the current record whose names the previous
    record does not have, [fields_removed] the fields of the previous
    record whose names the current record does not have, and
    [fields_modified] the fields in both whose type text differs, each in
    declaration order; a dictionary has no entry for the name when its
    list would be empty, and none for a model that is not reported as
    modified. *)
Theorem field_changes_of_modified
    (t : tracker) (previous_data : json_document) (name : string) :
  analysed t ->
  let ch := compare_models (models t) previous_data in
  (forall c p,
     Py.dict_get (models t) name = Some c ->
     Py.dict_get (previous_models_of previous_data) name = Some p ->
     Some (m_hash c) <> jm_hash p ->
     let current_fields := Py.dict_of_list f_name (m_fields c) in
     let previous_fields := Py.dict_of_list jf_name (fields_of_json p) in
     Py.dict_get (fields_added ch) name =
       Diff.listed (Diff.added_field_names current_fields previous_fields) /\
     Py.dict_get (fields_removed ch) name =
       Diff.listed (Diff.removed_field_names current_fields previous_fields) /\
     Py.dict_get (fields_modified ch) name =
       Diff.listed (Diff.retyped_field_names current_fields previous_fields)) /\
  (~ In name (models_modified ch) ->
   Py.dict_get (fields_added ch) name = None /\
   Py.dict_get (fields_removed ch) name = None /\
   Py.dict_get (fields_modified ch) name = None).
Proof.
  intros Ht. cbv zeta.
  destruct (analysed_well_formed t Ht) as [Hnd _].
  rewrite (fields_added_get _ previous_data name Hnd),
    (fields_removed_get _ previous_data name Hnd),
    (fields_modified_get _ previous_data name Hnd).
  split.
  - intros c p -> -> Hh. apply hash_differs_true in Hh. rewrite Hh. auto.
  - destruct (compare_models_lists (models t) previous_data) as (_ & _ & -> & _).
    intros Hno. apply not_modified in Hno.
    destruct (Py.dict_get (models t) name) as [c|]; [|auto].
    destruct (Py.dict_get (previous_models_of previous_data) name) as [p|]; [|auto].
    rewrite Hno. auto.
Qed.

Lemma field_changes_of_modified_witness :
  let ch := compare_models (models Samples.tracker_v2) (export_to_json Samples.tracker_v1) in
  Py.dict_get (fields_added ch) "User" = Some ["email"; "nick"] /\
  Py.dict_get (fields_removed ch) "User" = Some ["age"] /\
  Py.dict_get (fields_modified ch) "User" = Some ["id"] /\
  Py.dict_get (fields_added ch) "Item" = None.
Proof.
  cbv zeta.
  destruct (field_changes_of_modified Samples.tracker_v2 (export_to_json Samples.tracker_v1)
              "User" (analysed_directory _ [Samples.users_v2_py] None (analysed_new "1.1.0")))
    as [Hmodified _].
  destruct (field_changes_of_modified Samples.tracker_v2 (export_to_json Samples.tracker_v1)
              "Item" (analysed_directory _ [Samples.users_v2_py] None (analysed_new "1.1.0")))
    as [_ Hother].
  edestruct Hmodified as (Ha & Hr & Hm).
  - vm_compute. reflexivity.
  - vm_compute. reflexivity.
  - vm_compute. discriminate.
  - split; [|split; [|split]].
    + etransitivity; [exact Ha|]. vm_compute. reflexivity.
    + etransitivity; [exact Hr|]. vm_compute. reflexivity.
    + etransitivity; [exact Hm|]. vm_compute. reflexivity.
    + destruct Hother as (Hnone & _); [|exact Hnone].
      vm_compute. intuition discriminate.
Defined.

End FieldLists.

(** ** Two snapshots, compared both ways *)

Section SnapshotPairs.
Import Ast VersionTracker.

Lemma dict_set_map {V W} (g : V -> W) (d : Py.dict V) (k : string) (v : V) :
  Py.dict_set (map (fun e => (fst e, g (snd e))) d) k (g v) =
  map (fun e => (fst e, g (snd e))) (Py.dict_set d k v).
Proof.
  induction d as [|[k' v'] d IH]; simpl; [reflexivity|].
  destruct (String.eqb k k'); simpl; [reflexivity|now rewrite IH].
Qed.

Lemma dict_of_list_map {V W} (key : V -> string) (key' : W -> string) (g : V -> W)
    (xs : list V) :
  (forall x, key' (g x) = key x) ->
  Py.dict_of_list key' (map g xs) =
  map (fun e => (fst e, g (snd e))) (Py.dict_of_list key xs).
Proof.
  intros Hk. unfold Py.dict_of_list.
  change (@nil (string * W)) with (map (fun e : string * V => (fst e, g (snd e))) []).
  generalize (@nil (string * V)) as d.
  induction xs as [|x xs IH]; intros d; simpl; [reflexivity|].
  rewrite Hk, dict_set_map. apply IH.
Qed.

(** The fields of an exported model, as a dictionary. *)
Lemma fields_of_export (c : ModelVersion) :
  Py.dict_of_list jf_name (fields_of_json (model_to_json c)) =
  map (fun e => (fst e, field_to_json (snd e))) (Py.dict_of_list f_name (m_fields c)).
Proof. apply dict_of_list_map. reflexivity. Qed.

Lemma added_removed_swap (a l : Py.dict ModelVersion) :
  Diff.added_names l (map (fun e => (fst e, model_to_json (snd e))) a) =
  Diff.removed_names a (map (fun e => (fst e, model_to_json (snd e))) l).
Proof.
  unfold Diff.added_names, Diff.removed_names.
  induction l as [|[n c] l IH]; simpl; [reflexivity|].
  now rewrite dict_mem_map, IH.
Qed.

Lemma added_removed_fields_swap (a l : Py.dict FieldInfo) :
  Diff.added_field_names l (map (fun e => (fst e, field_to_json (snd e))) a) =
  Diff.removed_field_names a (map (fun e => (fst e, field_to_json (snd e))) l).
Proof.
  unfold Diff.added_field_names, Diff.removed_field_names.
  induction l as [|[n f] l IH]; simpl; [reflexivity|].
  now rewrite dict_mem_map, IH.
Qed.

Lemma hash_differs_export (c1 c2 : ModelVersion) :
  hash_differs c2 (model_to_json c1) = hash_differs c1 (model_to_json c2).
Proof.
  unfold hash_differs. cbn [jm_hash model_to_json]. now rewrite String.eqb_sym.
Qed.

Lemma modified_swap (a b : Py.dict ModelVersion) (name : string) :
  NoDup (Py.dict_keys a) -> NoDup (Py.dict_keys b) ->
  In name (Diff.modified_names b (map (fun e => (fst e, model_to_json (snd e))) a)) ->
  In name (Diff.modified_names a (map (fun e => (fst e, model_to_json (snd e))) b)).
Proof.
  intros Ha Hb H. apply in_modified_names in H. destruct H as (c & p & Hin & Hp & Hh).
  rewrite dict_get_map in Hp.
  destruct (Py.dict_get a name) as [c1|] eqn:E1; [|discriminate].
  injection Hp as <-. apply in_modified_names.
  exists c1, (model_to_json c). split; [now apply dict_get_in|]. split.
  - rewrite dict_get_map, (dict_in_get _ _ _ Hb Hin). reflexivity.
  - now rewrite hash_differs_export.
Qed.

(** X13. Comparing two snapshots of runs in both directions gives mirror
    images: the models added one way are the models removed the other
    way, in the same order; the same models are reported as modified; and
    under every name, the fields added one way are the fields removed
    the other way. *)
Theorem swapped_comparison_mirrors (t1 t2 : tracker) :
  analysed t1 -> analysed t2 ->
  let forward := compare_models (models t2) (export_to_json t1) in
  let backward := compare_models (models t1) (export_to_json t2) in
  models_added forward = models_removed backward /\
  models_removed forward = models_added backward /\
  (forall name, In name (models_modified forward) <-> In name (models_modified backward)) /\
  (forall name,
     Py.dict_get (fields_added forward) name = Py.dict_get (fields_removed backward) name /\
     Py.dict_get (fields_removed forward) name = Py.dict_get (fields_added backward) name).
Proof.
  intros H1 H2. cbv zeta.
  pose proof (analysed_well_formed t1 H1) as W1.
  pose proof (analysed_well_formed t2 H2) as W2.
  destruct (compare_models_lists (models t2) (export_to_json t1)) as (Ea & Er & Em & _).
  destruct (compare_models_lists (models t1) (export_to_json t2)) as (Ea' & Er' & Em' & _).
  cbv zeta in Ea, Er, Em, Ea', Er', Em'.
  rewrite Ea, Er, Em, Ea', Er', Em'.
  destruct W1 as [N1 F1], W2 as [N2 F2].
  split; [|split; [|split]].
  - rewrite !previous_models_of_export by (split; assumption). apply added_removed_swap.
  - rewrite !previous_models_of_export by (split; assumption).
    symmetry. apply added_removed_swap.
  - intros name. rewrite !previous_models_of_export by (split; assumption).
    split; now apply modified_swap.
  - intros name.
    rewrite (fields_added_get _ _ name N2), (fields_removed_get _ _ name N1),
      (fields_removed_get _ _ name N2), (fields_added_get _ _ name N1).
    rewrite !previous_models_of_export by (split; assumption).
    rewrite !dict_get_map.
    destruct (Py.dict_get (models t2) name) as [c2|],
             (Py.dict_get (models t1) name) as [c1|]; cbn [option_map]; auto.
    rewrite (hash_differs_export c1 c2), !fields_of_export.
    destruct (hash_differs c1 (model_to_json c2)); [|auto].
    now rewrite !added_removed_fields_swap.
Qed.

Lemma swapped_comparison_mirrors_witness :
  let forward :=
    compare_models (models Samples.tracker_v2) (export_to_json Samples.tracker_v1) in
  let backward :=
    compare_models (models Samples.tracker_v1) (export_to_json Samples.tracker_v2) in
  models_added forward = ["Item"] /\
  models_removed forward = ["Legacy"] /\
  models_added forward = models_removed backward /\
  models_removed forward = models_added backward /\
  Py.dict_get (fields_added forward) "User" = Py.dict_get (fields_removed backward) "User".
Proof.
  cbv zeta.
  destruct (swapped_comparison_mirrors Samples.tracker_v1 Samples.tracker_v2
              (analysed_directory _ [Samples.users_v1_py] None (analysed_new "1.0.0"))
              (analysed_directory _ [Samples.users_v2_py] None (analysed_new "1.1.0")))
    as (Ha & Hr & _ & Hf).
  split; [vm_compute; reflexivity|]. split; [vm_compute; reflexivity|].
  split; [exact Ha|]. split; [exact Hr|].
  destruct (Hf "User") as [Hu _]. exact Hu.
Defined.

Lemma field_breaking_model name current_fields previous_fields b :
  In b (Diff.field_breaking name current_fields previous_fields) -> bc_model b = name.
Proof.
  intros H. apply in_field_breaking in H.
  destruct H as [(fn & f & -> & _)|[(fn & -> & _)|(fn & f & pf & -> & _)]]; reflexivity.
Qed.

(** X14. A model that is new in the current snapshot is never the model
    of a breaking change: no entry of [breaking_changes] names a model
    of [models_added]. *)
Theorem added_model_is_never_breaking
    (current : Py.dict ModelVersion) (previous_data : json_document)
    (name : string) (b : breaking_change) :
  In name (models_added (compare_models current previous_data)) ->
  In b (breaking_changes (compare_models current previous_data)) ->
  bc_model b <> name.
Proof.
  destruct (compare_models_lists current previous_data) as (-> & _ & _ & ->).
  intros Ha Hb. apply in_added_names in Ha. destruct Ha as [Hcur Hprev].
  apply in_breaking in Hb.
  destruct Hb as [(n & -> & Hn)|(n & c & p & Hin & Hp & _ & Hb)].
  - apply in_removed_names in Hn. destruct Hn as [_ Hn].
    apply dict_mem_false in Hn. cbn [bc_model model_removed]. congruence.
  - rewrite (field_breaking_model _ _ _ _ Hb). intros ->.
    unfold Py.dict_mem in Hprev. now rewrite Hp in Hprev.
Qed.

Lemma added_model_is_never_breaking_witness :
  let ch := compare_models (models Samples.tracker_v2) (export_to_json Samples.tracker_v1) in
  In "Item" (models_added ch) /\
  List.length (breaking_changes ch) = 4 /\
  forall b, In b (breaking_changes ch) -> bc_model b <> "Item".
Proof.
  cbv zeta. split; [vm_compute; auto|]. split; [vm_compute; reflexivity|].
  intros b Hb.
  apply (added_model_is_never_breaking (models Samples.tracker_v2)
           (export_to_json Samples.tracker_v1) "Item" b); [|exact Hb].
  vm_compute. left. reflexivity.
Defined.






End SnapshotPairs.

(** ** What a drift report can hold *)

Section DriftReports.
Import DriftDetector.

Lemma weight_bounds (category : string) : (1 <= weight category <= 3)%Z.
Proof.
  unfold weight, weights. cbn [Py.dict_get].
  repeat match goal with
         | |- context [if ?b then _ else _] => destruct b
         end; cbv iota; lia.
Qed.

Lemma score_and_total_from {A} (drift : Py.dict (list A)) (s n : Z) :
  let s' := fold_left
              (fun score '(category, items) =>
                 (score + Z.of_nat (List.length items) * weight category)%Z) drift s in
  let n' := fold_left
              (fun n '(_, items) => (n + Z.of_nat (List.length items))%Z) drift n in
  (0 <= n' - n <= s' - s)%Z /\ (s' - s <= 3 * (n' - n))%Z.
Proof.
  revert s n. induction drift as [|[category items] drift IH]; intros s n;
    cbv zeta; cbn [fold_left].
  - lia.
  - specialize (IH (s + Z.of_nat (List.length items) * weight category)%Z
                   (n + Z.of_nat (List.length items))%Z).
    cbv zeta in IH. pose proof (weight_bounds category).
    pose proof (Nat2Z.is_nonneg (List.length items)). nia.
Qed.

(** X16. For every dictionary of lists (whatever its keys), the score of
    [calculate_drift_score] lies between the number of changes and three
    times that number, and [requires_update] agrees with the severity:
    an update is required exactly when the severity is not [none], that
    is, when the score is not 0. *)
Theorem drift_score_bounds {A} (drift : Py.dict (list A)) :
  let r := calculate_drift_score drift in
  (0 <= total_changes r <= drift_score r)%Z /\
  (drift_score r <= 3 * total_changes r)%Z /\
  (requires_update r = true <-> severity r <> "none") /\
  (requires_update r = false <-> drift_score r = 0%Z).
Proof.
  cbv zeta. destruct (severity_of_score drift) as (Hnone & _). cbv zeta in Hnone.
  pose proof (score_and_total_from drift 0 0) as H. cbv zeta in H.
  unfold calculate_drift_score in *.
  cbn [total_changes drift_score severity requires_update] in *.
  set (s := fold_left _ drift 0%Z) in *. set (n := fold_left _ drift 0%Z) in *.
  split; [lia|]. split; [lia|]. split.
  - rewrite Hnone, Z.ltb_lt. lia.
  - destruct (Z.ltb_spec 0 n); split; intros; try discriminate; try reflexivity; lia.
Qed.

Lemma flat_map_nothing {A B} (f : A -> list B) (l : list A) :
  (forall x, f x = []) -> flat_map f l = [].
Proof. intros H. induction l as [|x l IH]; simpl; [reflexivity|]. now rewrite H, IH. Qed.

Lemma nothing_in_code (inv : Py.dict inventory_method) :
  new_methods_of inv [] = [] /\
  deleted_methods_of inv [] =
    map (fun name => DeletedMethod name true) (internal_methods inv) /\
  changed_signatures_of inv [] = [] /\
  changed_classification_of inv [] = [] /\
  version_changes_of inv [] = [].
Proof.
  split; [reflexivity|]. split; [|repeat split].
  - unfold deleted_methods_of, internal_methods, is_internal.
    induction inv as [|[name im] inv IH]; [reflexivity|].
    cbn [flat_map]. cbv zeta. rewrite map_app, <- IH. f_equal.
    change (Py.dict_mem name []) with false. cbn [negb]. rewrite andb_true_r.
    destruct (option_eqb _ _); reflexivity.
  - apply flat_map_nothing. now intros [name im].
  - apply flat_map_nothing. now intros [name im].
  - apply flat_map_nothing. now intros [name im].
Qed.

(** X17. When the method registry cannot be imported, [get_code_methods]
    returns the empty dictionary and the check goes on: every internal
    method of the inventory is reported as deleted and nothing else is
    reported, the score is three times the number of internal methods,
    and with [--ci-mode] the process exits with 1 exactly when the
    inventory has an internal method. *)
Theorem failed_import_reports_deletions
    (args : arguments) (env : environment) (inv : Py.dict inventory_method) :
  collider_exists env = true ->
  inventory_at env (inventory args) = Loaded inv ->
  managed_methods env = None ->
  let drift := detect_drift inv (get_code_methods env) in
  drift = drift_report [] (map (fun name => DeletedMethod name true) (internal_methods inv))
            [] [] [] /\
  drift_score (calculate_drift_score drift) =
    (3 * Z.of_nat (List.length (internal_methods inv)))%Z /\
  (ci_mode args = true ->
   exit_code (main args env) = match internal_methods inv with [] => 0 | _ => 1 end%Z).
Proof.
  intros Hc Hi Hm. cbv zeta.
  assert (E : detect_drift inv (get_code_methods env) =
              drift_report []
                (map (fun name => DeletedMethod name true) (internal_methods inv))
                [] [] []).
  { unfold get_code_methods. rewrite Hm. unfold detect_drift.
    destruct (nothing_in_code inv) as (-> & -> & -> & -> & ->). reflexivity. }
  split; [exact E|]. split.
  - rewrite E, drift_score_report, length_map. simpl. lia.
  - intros Hci. unfold main, load_inventory. rewrite Hc, Hi, Hci, E. cbn [negb andb].
    unfold calculate_drift_score. cbn [requires_update].
    destruct (internal_methods inv); reflexivity.
Qed.

Lemma failed_import_reports_deletions_witness :
  detect_drift Samples.stale_inventory (get_code_methods Samples.broken_import_environment)
    = drift_report [] [DeletedMethod "archive_case" true] [] [] [] /\
  exit_code (main Samples.ci_run Samples.broken_import_environment) = 1%Z.
Proof.
  destruct (failed_import_reports_deletions Samples.ci_run Samples.broken_import_environment
              Samples.stale_inventory eq_refl eq_refl eq_refl) as (Hd & _ & Hx).
  split; [exact Hd|exact (Hx eq_refl)].
Defined.

Lemma reported_methods (inv : Py.dict inventory_method) (code : Py.dict code_method)
    (category : string) (items : list drift_item) (item : drift_item) :
  In (category, items) (detect_drift inv code) -> In item items ->
  (Py.dict_mem (method_of_item item) code = true) \/
  (exists im, In (method_of_item item, im) inv /\ is_internal im = true).
Proof.
  unfold detect_drift, drift_report. intros Hc Hi.
  repeat (destruct Hc as [Hc|Hc]; [injection Hc as <- <-|]); [| | | | |destruct Hc].
  - left. apply in_flat_map in Hi. destruct Hi as ([name cm] & Hin & Hi).
    destruct (negb _); [|destruct Hi]. destruct Hi as [<-|[]]. cbn [method_of_item].
    apply dict_mem_keys. unfold Py.dict_keys. change name with (fst (name, cm)).
    now apply in_map.
  - right. apply in_flat_map in Hi. destruct Hi as ([name im] & Hin & Hi).
    cbv zeta in Hi. fold (is_internal im) in Hi.
    destruct (is_internal im) eqn:E; [|destruct Hi].
    destruct (negb _); [|destruct Hi]. destruct Hi as [<-|[]]. cbn [method_of_item].
    eauto.
  - left. apply in_flat_map in Hi. destruct Hi as ([name im] & Hin & Hi).
    unfold Py.dict_mem. destruct (Py.dict_get code name) as [cm|] eqn:E; [|destruct Hi].
    cbv zeta in Hi. destruct (_ || _); [|destruct Hi]. destruct Hi as [<-|[]].
    cbn [method_of_item]. now rewrite E.
  - left. apply in_flat_map in Hi. destruct Hi as ([name im] & Hin & Hi).
    unfold Py.dict_mem. destruct (Py.dict_get code name) as [cm|] eqn:E; [|destruct Hi].
    destruct (classification_changes _ _); [destruct Hi|]. destruct Hi as [<-|[]].
    cbn [method_of_item]. now rewrite E.
  - left. apply in_flat_map in Hi. destruct Hi as ([name im] & Hin & Hi).
    unfold Py.dict_mem. destruct (Py.dict_get code name) as [cm|] eqn:E; [|destruct Hi].
    destruct (inv_version im), (version cm); try destruct Hi.
    destruct (_ && _); [|destruct Hi]. destruct Hi as [<-|[]].
    cbn [method_of_item]. now rewrite E.
Qed.

(** X18. Only internal methods can be reported as deleted: when the code
    no longer has a method whose inventory entry is not of the internal
    tier, no entry of any of the five lists is about that method, so its
    removal is no drift. *)
Theorem removal_of_external_method_is_no_drift
    (inv : Py.dict inventory_method) (code : Py.dict code_method) (name : string) :
  (forall im, In (name, im) inv -> is_internal im = false) ->
  Py.dict_mem name code = false ->
  forall category items item,
    In (category, items) (detect_drift inv code) -> In item items ->
    method_of_item item <> name.
Proof.
  intros Hext Hcode category items item Hc Hi E.
  destruct (reported_methods inv code category items item Hc Hi) as [H|(im & Hin & H)].
  - rewrite E in H. congruence.
  - rewrite E in Hin. rewrite (Hext im Hin) in H. discriminate.
Qed.

Lemma removal_of_external_method_is_no_drift_witness :
  Py.dict_mem "send_mail" Samples.external_inventory = true /\
  (forall category items item,
     In (category, items) (detect_drift Samples.external_inventory []) -> In item items ->
     method_of_item item <> "send_mail") /\
  requires_update (calculate_drift_score (detect_drift Samples.external_inventory []))
    = false.
Proof.
  split; [reflexivity|]. split; [|reflexivity].
  apply (removal_of_external_method_is_no_drift Samples.external_inventory [] "send_mail").
  - intros im [E|[]]. injection E as <-. reflexivity.
  - reflexivity.
Defined.

End DriftReports.

(** ** What a run of the code analyzer records *)

Section AnalyzerRun.
Import Ast CodeAnalyzer.

Lemma detect_mapping_keeps (a : analyzer) (node : FunctionDef) (function : FunctionInfo) :
  models (_detect_req_resp_mapping a node function) = models a /\
  functions (_detect_req_resp_mapping a node function) = functions a /\
  printed (_detect_req_resp_mapping a node function) = printed a.
Proof.
  unfold _detect_req_resp_mapping.
  destruct (fold_left read_decorator (fd_decorator_list node) (None, None)) as [method endpoint].
  destruct (_ || _); auto.
Qed.

(** The mappings [_detect_req_resp_mapping] leaves: the old ones, and at
    most one new one, made from the function. *)
Lemma detect_mapping_adds (a : analyzer) (node : FunctionDef) (function : FunctionInfo) :
  mappings (_detect_req_resp_mapping a node function) = mappings a \/
  exists m,
    mappings (_detect_req_resp_mapping a node function) = (mappings a ++ [m])%list /\
    rm_function_name m = fi_name function /\
    rm_file_path m = fi_file_path function /\
    rm_request_models m = request_types (fi_parameters function) /\
    rm_response_models m = response_types (fi_return_type function) /\
    interesting m.
Proof.
  unfold _detect_req_resp_mapping.
  destruct (fold_left read_decorator (fd_decorator_list node) (None, None)) as [method endpoint].
  destruct (_ || _) eqn:E; [|now left].
  right. eexists. split; [reflexivity|]. repeat split. unfold interesting.
  cbn [rm_request_models rm_response_models rm_http_method].
  apply orb_true_iff in E. destruct E as [E|E]; [apply orb_true_iff in E; destruct E as [E|E]|].
  - left. now destruct (request_types _).
  - right. left. now destruct (response_types _).
  - right. right. now destruct method.
Qed.

(** X19. The code analyzer never fills in [class_name]: every function it
    records in a run, a method of a class included, has [class_name]
    [None] (so the class column of its exports is always empty). *)
Theorem functions_are_recorded_without_class
    (a : analyzer) (files : list source_file) (exclude_patterns : option (list string)) :
  Forall (fun f => fi_class_name f = None) (functions a) ->
  Forall (fun f => fi_class_name f = None)
    (functions (analyze_directory a files exclude_patterns)).
Proof.
  unfold analyze_directory.
  apply (fold_left_invariant
           (fun a => Forall (fun f => fi_class_name f = None) (functions a))).
  intros s file Hs. unfold analyze_file, analyze_file_try.
  destruct (sf_parse file) as [message|walk]; [exact Hs|].
  unfold _extract_from_ast.
  apply (fold_left_invariant
           (fun a => Forall (fun f => fi_class_name f = None) (functions a)));
    [|exact Hs].
  intros s' [c|f|] Hs'; [exact Hs'| |exact Hs'].
  unfold _extract_function.
  match goal with |- context [_detect_req_resp_mapping ?a1 ?n ?fn] =>
    destruct (detect_mapping_keeps a1 n fn) as (_ & -> & _) end.
  cbn [functions]. apply Forall_app. split; [exact Hs'|]. now repeat constructor.
Qed.

Lemma functions_are_recorded_without_class_witness :
  map (fun f => (fi_name f, fi_class_name f))
    (functions (analyze_directory new_analyzer [Samples.service_py] None))
  = [("create", None); ("_log", None)] /\
  Forall (fun f => fi_class_name f = None)
    (functions (analyze_directory new_analyzer [Samples.service_py] None)).
Proof.
  split; [reflexivity|].
  apply (functions_are_recorded_without_class new_analyzer [Samples.service_py] None).
  constructor.
Defined.

Lemma analyze_file_names (a : analyzer) (file : source_file) :
  map mi_name (models (analyze_file a file)) =
    (map mi_name (models a) ++ class_names (walk_of file))%list /\
  map fi_name (functions (analyze_file a file)) =
    (map fi_name (functions a) ++ function_names (walk_of file))%list.
Proof.
  unfold analyze_file, analyze_file_try, walk_of, class_names, function_names.
  destruct (sf_parse file) as [message|walk].
  - cbn [models functions flat_map]. now rewrite !app_nil_r.
  - unfold _extract_from_ast. split.
    + apply (fold_left_appends (fun a => map mi_name (models a))).
      intros s [c|f|].
      * cbn [models _extract_model]. now rewrite map_app.
      * unfold _extract_function.
        match goal with |- context [_detect_req_resp_mapping ?a1 ?n ?fn] =>
          destruct (detect_mapping_keeps a1 n fn) as (-> & _ & _) end.
        cbn [models]. now rewrite app_nil_r.
      * now rewrite app_nil_r.
    + apply (fold_left_appends (fun a => map fi_name (functions a))).
      intros s [c|f|].
      * cbn [functions _extract_model]. now rewrite app_nil_r.
      * unfold _extract_function.
        match goal with |- context [_detect_req_resp_mapping ?a1 ?n ?fn] =>
          destruct (detect_mapping_keeps a1 n fn) as (_ & -> & _) end.
        cbn [functions]. now rewrite map_app.
      * now rewrite app_nil_r.
Qed.

Lemma flat_map_twice {A B C} (g : B -> list C) (h : A -> list B) (l : list A) :
  flat_map g (flat_map h l) = flat_map (fun x => flat_map g (h x)) l.
Proof.
  induction l as [|x l IH]; simpl; [reflexivity|]. now rewrite flat_map_app, IH.
Qed.

Lemma names_count (walk : list node) :
  List.length (class_names walk) = List.length (filter is_class walk) /\
  List.length (function_names walk) = List.length (filter is_function walk).
Proof.
  unfold class_names, function_names.
  induction walk as [|[c|f|] walk [IHc IHf]]; simpl; split; congruence.
Qed.

(** X20. The code analyzer records one model for every class definition
    and one function for every function definition of the files it
    reads, in the order of the files and of their walks, merging
    nothing: a class defined twice is recorded twice, a method is
    recorded as a function. *)
Theorem analyzer_records_every_definition
    (a : analyzer) (files : list source_file) (exclude_patterns : option (list string)) :
  let a' := analyze_directory a files exclude_patterns in
  let walks := flat_map walk_of (python_files files exclude_patterns) in
  map mi_name (models a') = (map mi_name (models a) ++ class_names walks)%list /\
  map fi_name (functions a') = (map fi_name (functions a) ++ function_names walks)%list /\
  List.length (models a') =
    List.length (models a) + List.length (filter is_class walks) /\
  List.length (functions a') =
    List.length (functions a) + List.length (filter is_function walks).
Proof.
  cbv zeta. unfold analyze_directory.
  assert (Hm : map mi_name
                 (models (fold_left analyze_file (python_files files exclude_patterns) a)) =
               (map mi_name (models a) ++
                class_names (flat_map walk_of (python_files files exclude_patterns)))%list).
  { rewrite (fold_left_appends (fun a => map mi_name (models a)) _
               (fun f => class_names (walk_of f)))
      by (intros s f; apply analyze_file_names).
    f_equal. symmetry. apply flat_map_twice. }
  assert (Hf : map fi_name
                 (functions (fold_left analyze_file (python_files files exclude_patterns) a)) =
               (map fi_name (functions a) ++
                function_names (flat_map walk_of (python_files files exclude_patterns)))%list).
  { rewrite (fold_left_appends (fun a => map fi_name (functions a)) _
               (fun f => function_names (walk_of f)))
      by (intros s f; apply analyze_file_names).
    f_equal. symmetry. apply flat_map_twice. }
  split; [exact Hm|]. split; [exact Hf|]. split.
  - apply (f_equal (@List.length string)) in Hm.
    rewrite length_app, !length_map in Hm. rewrite Hm. f_equal. apply names_count.
  - apply (f_equal (@List.length string)) in Hf.
    rewrite length_app, !length_map in Hf. rewrite Hf. f_equal. apply names_count.
Qed.

Example class_defined_twice_is_recorded_twice :
  map mi_name (models (analyze_directory new_analyzer [Samples.service_py] None))
    = ["OrderService"; "OrderService"] /\
  map rm_function_name (mappings (analyze_directory new_analyzer [Samples.service_py] None))
    = ["create"].
Proof. repeat split. Qed.

Lemma backed_more (a a' : analyzer) (m : RequestResponseMapping) :
  (forall f, In f (functions a) -> In f (functions a')) -> backed a m -> backed a' m.
Proof. intros H (f & Hin & Hrest). exists f. split; [now apply H|exact Hrest]. Qed.

Lemma detect_mapping_invariant (a a1 : analyzer) (node : FunctionDef)
    (function : FunctionInfo) :
  functions a1 = (functions a ++ [function])%list ->
  mappings a1 = mappings a ->
  Forall (fun m => backed a m /\ interesting m) (mappings a) /\
  List.length (mappings a) <= List.length (functions a) ->
  Forall (fun m => backed (_detect_req_resp_mapping a1 node function) m /\ interesting m)
    (mappings (_detect_req_resp_mapping a1 node function)) /\
  List.length (mappings (_detect_req_resp_mapping a1 node function)) <=
  List.length (functions (_detect_req_resp_mapping a1 node function)).
Proof.
  intros Efun Emap [Ha La].
  destruct (detect_mapping_keeps a1 node function) as (_ & Ef & _).
  assert (Hfun : functions (_detect_req_resp_mapping a1 node function) =
                 (functions a ++ [function])%list) by (now rewrite Ef).
  assert (Hmore : forall m, backed a m ->
                    backed (_detect_req_resp_mapping a1 node function) m).
  { intros m. apply backed_more. intros g Hg. rewrite Hfun. apply in_app_iff. now left. }
  assert (Hold : Forall (fun m => backed (_detect_req_resp_mapping a1 node function) m /\
                                  interesting m) (mappings a)).
  { revert Ha. apply Forall_impl. intros m [Hb Hi]. split; [now apply Hmore|exact Hi]. }
  rewrite Hfun, length_app. cbn [List.length].
  destruct (detect_mapping_adds a1 node function)
    as [Em|(m & Em & Hn & Hp & Hq & Hr & Hi)]; rewrite Em, Emap.
  - split; [exact Hold|lia].
  - split; [|rewrite length_app; cbn [List.length]; lia].
    apply Forall_app. split; [exact Hold|]. constructor; [|constructor].
    split; [|exact Hi]. exists function.
    split; [rewrite Hfun; apply in_app_iff; right; now left|].
    repeat split; congruence.
Qed.

Lemma extract_function_mappings (a : analyzer) (node : FunctionDef) (file : source_file) :
  Forall (fun m => backed a m /\ interesting m) (mappings a) /\
  List.length (mappings a) <= List.length (functions a) ->
  Forall (fun m => backed (_extract_function a node file None) m /\ interesting m)
    (mappings (_extract_function a node file None)) /\
  List.length (mappings (_extract_function a node file None)) <=
  List.length (functions (_extract_function a node file None)).
Proof.
  intros H. unfold _extract_function. cbv zeta.
  apply (detect_mapping_invariant a); [reflexivity|reflexivity|exact H].
Qed.

(** X21. Every mapping the code analyzer records belongs to a function
    it has recorded, with the name and the file of that function and its
    request and response types, and holds something: a request type, a
    response type or an HTTP method. A function gives at most one
    mapping. *)
Theorem mappings_belong_to_functions
    (a : analyzer) (files : list source_file) (exclude_patterns : option (list string)) :
  Forall (fun m => backed a m /\ interesting m) (mappings a) ->
  List.length (mappings a) <= List.length (functions a) ->
  let a' := analyze_directory a files exclude_patterns in
  Forall (fun m => backed a' m /\ interesting m) (mappings a') /\
  List.length (mappings a') <= List.length (functions a').
Proof.
  intros H0 L0. cbv zeta. unfold analyze_directory.
  apply (fold_left_invariant
           (fun a => Forall (fun m => backed a m /\ interesting m) (mappings a) /\
                     List.length (mappings a) <= List.length (functions a)));
    [|now split].
  intros s file Hs. unfold analyze_file, analyze_file_try.
  destruct (sf_parse file) as [message|walk]; [exact Hs|].
  unfold _extract_from_ast.
  apply (fold_left_invariant
           (fun a => Forall (fun m => backed a m /\ interesting m) (mappings a) /\
                     List.length (mappings a) <= List.length (functions a)));
    [|exact Hs].
  intros s' [c|f|] Hs'; [exact Hs'| |exact Hs']. now apply extract_function_mappings.
Qed.

Lemma mappings_belong_to_functions_witness :
  let a := analyze_directory new_analyzer [Samples.service_py; Samples.orders_py] None in
  map (fun m => (rm_function_name m, rm_request_models m, rm_http_method m)) (mappings a)
    = [("create", ["OrderRequest"], None); ("create_order", [], Some "POST")] /\
  Forall (fun m => backed a m /\ interesting m) (mappings a) /\
  List.length (mappings a) <= List.length (functions a).
Proof.
  cbv zeta. split; [reflexivity|].
  apply (mappings_belong_to_functions new_analyzer
           [Samples.service_py; Samples.orders_py] None).
  - constructor.
  - simpl. lia.
Defined.

End AnalyzerRun.

(** ** The mapping analysis *)

Section Mapping.
Import Ast VersionTracker MappingAnalyzer.

Lemma fold_left_invariant_in {S B} (P : S -> Prop) (g : S -> B -> S) (l : list B) :
  (forall s x, In x l -> P s -> P (g s x)) -> forall s, P s -> P (fold_left g l s).
Proof.
  induction l as [|x l IH]; simpl; intros Hg s Hs; [exact Hs|].
  apply IH; [intros s' y Hy; apply Hg; now right|]. apply Hg; [now left|exact Hs].
Qed.

Lemma fold_left_same {S B} (f g : S -> B -> S) (l : list B) :
  (forall s x, In x l -> f s x = g s x) -> forall s, fold_left f l s = fold_left g l s.
Proof.
  induction l as [|x l IH]; simpl; intros H s; [reflexivity|].
  rewrite (H s x) by now left. apply IH. intros s' y Hy. apply H. now right.
Qed.

Lemma filter_length_le {A} (g h : A -> bool) (l : list A) :
  (forall x, g x = true -> h x = true) ->
  List.length (filter g l) <= List.length (filter h l).
Proof.
  intros H. induction l as [|y l IH]; simpl; [lia|].
  destruct (g y) eqn:Eg.
  - rewrite (H y Eg). simpl. lia.
  - destruct (h y); simpl; lia.
Qed.

Lemma filter_length_lt {A} (g h : A -> bool) (l : list A) (x : A) :
  (forall y, g y = true -> h y = true) ->
  In x l -> h x = true -> g x = false ->
  List.length (filter g l) < List.length (filter h l).
Proof.
  intros H. induction l as [|y l IH]; simpl; intros Hin Hh Hg; [destruct Hin|].
  destruct Hin as [->|Hin].
  - rewrite Hh, Hg. simpl. pose proof (filter_length_le g h l H). lia.
  - specialize (IH Hin Hh Hg). destruct (g y) eqn:Eg.
    + rewrite (H y Eg). simpl. lia.
    + destruct (h y); simpl; lia.
Qed.

(** *** The depth of a model *)

Lemma unvisited_shrinks (models : Py.dict ModelVersion) (name : string)
    (visited : list string) :
  In name (Py.dict_keys models) -> Py.list_in name visited = false ->
  List.length (unvisited models (name :: visited)) < List.length (unvisited models visited).
Proof.
  intros Hin Hv. unfold unvisited. apply (filter_length_lt _ _ _ name).
  - intros k. unfold Py.list_in. simpl. destruct (String.eqb k name); [discriminate|auto].
  - exact Hin.
  - now rewrite Hv.
  - unfold Py.list_in. simpl. now rewrite String.eqb_refl.
Qed.

Lemma unvisited_nothing (models : Py.dict ModelVersion) :
  List.length (unvisited models []) = List.length models.
Proof.
  unfold unvisited, Py.dict_keys. rewrite <- (length_map fst models).
  f_equal. induction (map fst models) as [|k l IH]; simpl in *; congruence.
Qed.

Lemma deepest_same (nested1 nested2 : string -> option Z) (names : list string)
    (fields : list FieldInfo) :
  (forall other, nested1 other = nested2 other) ->
  deepest nested1 names fields = deepest nested2 names fields.
Proof.
  intros H. unfold deepest. apply fold_left_same. intros acc field _.
  apply fold_left_same. intros acc' other _. now rewrite H.
Qed.

Lemma deepest_bounded (nested : string -> option Z) (names : list string)
    (fields : list FieldInfo) (bound : Z) :
  (0 <= bound)%Z ->
  (forall other, exists d, nested other = Some d /\ (0 <= d <= bound)%Z) ->
  exists d, deepest nested names fields = Some d /\ (0 <= d <= 1 + bound)%Z.
Proof.
  intros Hb Hn. unfold deepest.
  apply (fold_left_invariant
           (fun acc => exists d, acc = Some d /\ (0 <= d <= 1 + bound)%Z)).
  - intros acc field Hacc.
    apply (fold_left_invariant
             (fun acc => exists d, acc = Some d /\ (0 <= d <= 1 + bound)%Z));
      [|exact Hacc].
    intros acc' other (m & -> & Hm). destruct (Py.str_in other (f_type field)); [|eauto].
    destruct (Hn other) as (d & -> & Hd). exists (Z.max m (1 + d)).
    split; [reflexivity|lia].
  - exists 0%Z. split; [reflexivity|lia].
Qed.

(** With more fuel than there are unvisited models, [_calculate_depth]
    returns, the same depth whatever the fuel. *)
Lemma calculate_depth_enough (models : Py.dict ModelVersion) (fuel1 : nat) :
  forall (fuel2 : nat) (name : string) (visited : list string),
    List.length (unvisited models visited) < fuel1 ->
    List.length (unvisited models visited) < fuel2 ->
    _calculate_depth fuel1 models name visited = _calculate_depth fuel2 models name visited /\
    exists d, _calculate_depth fuel1 models name visited = Some d /\
              (0 <= d <= Z.of_nat (List.length (unvisited models visited)))%Z.
Proof.
  induction fuel1 as [|fuel1 IH]; intros fuel2 name visited H1 H2; [lia|].
  destruct fuel2 as [|fuel2]; [lia|]. cbn [_calculate_depth].
  destruct (Py.list_in name visited) eqn:Ev.
  { split; [reflexivity|]. exists 0%Z. split; [reflexivity|lia]. }
  destruct (Py.dict_get models name) as [model|] eqn:Em.
  2:{ split; [reflexivity|]. exists 0%Z. split; [reflexivity|lia]. }
  assert (Hin : In name (Py.dict_keys models)).
  { apply dict_get_in in Em. unfold Py.dict_keys. change name with (fst (name, model)).
    now apply in_map. }
  pose proof (unvisited_shrinks models name visited Hin Ev) as Hs.
  split.
  - apply deepest_same. intros other. apply IH; lia.
  - destruct (deepest_bounded
                (fun other => _calculate_depth fuel1 models other (name :: visited))
                (Py.dict_keys models) (m_fields model)
                (Z.of_nat (List.length (unvisited models (name :: visited)))))
      as (d & Ed & Hd); [lia| |].
    + intros other. apply (IH fuel1); lia.
    + exists d. split; [exact Ed|lia].
Qed.

(** *** The two dictionaries *)

Lemma dependencies_loop (fuel : nat) (t : tracker) (l : Py.dict ModelVersion)
    (deps : Py.dict DependencyInfo) :
  List.length (models t) < fuel ->
  exists deps',
    fold_left
      (fun dependencies '(model_name, model) =>
         match dependencies, _calculate_depth fuel (models t) model_name [] with
         | Some deps, Some d =>
             Some (Py.dict_set deps model_name
                     {| d_model_name := model_name;
                        depends_on :=
                          Py.list_of_set (dependencies_of (models t) model_name model);
                        used_by := Py.list_of_set (users_of (models t) model_name);
                        depth := d |})
         | _, _ => None
         end)
      l (Some deps) = Some deps' /\
    (forall name, In name (Py.dict_keys deps') <->
                  In name (Py.dict_keys deps) \/ In name (Py.dict_keys l)) /\
    (forall name dep, Py.dict_get deps' name = Some dep ->
       Py.dict_get deps name = Some dep \/
       exists model d,
         In (name, model) l /\
         _calculate_depth fuel (models t) name [] = Some d /\
         dep = {| d_model_name := name;
                  depends_on := Py.list_of_set (dependencies_of (models t) name model);
                  used_by := Py.list_of_set (users_of (models t) name);
                  depth := d |}).
Proof.
  intros Hfuel. revert deps. induction l as [|[name model] l IH]; intros deps.
  - exists deps. split; [reflexivity|]. split; [simpl; tauto|auto].
  - cbn [fold_left].
    destruct (calculate_depth_enough (models t) fuel fuel name [])
      as (_ & d & Ed & _); try (rewrite unvisited_nothing; lia).
    rewrite Ed.
    destruct (IH (Py.dict_set deps name
                    {| d_model_name := name;
                       depends_on :=
                         Py.list_of_set (dependencies_of (models t) name model);
                       used_by := Py.list_of_set (users_of (models t) name);
                       depth := d |})) as (deps' & E & Hkeys & Hget).
    exists deps'. split; [exact E|]. split.
    + intros k. rewrite Hkeys, dict_keys_set. simpl. intuition.
    + intros k dep Hk. destruct (Hget k dep Hk) as [H|(model' & d' & Hin & Hd & ->)].
      * rewrite dict_get_set in H. destruct (String.eqb_spec k name) as [->|Hne].
        -- injection H as <-. right. exists model, d. simpl. auto.
        -- now left.
      * right. exists model', d'. simpl. auto.
Qed.

Lemma impact_loop (t : tracker) (dependencies : Py.dict DependencyInfo)
    (l : Py.dict ModelVersion) (impact : Py.dict ImpactAnalysis) :
  (forall name, In name (Py.dict_keys l) -> In name (Py.dict_keys dependencies)) ->
  exists impact',
    fold_left
      (fun impact '(model_name, model) =>
         match impact, Py.dict_get dependencies model_name with
         | Some impact, Some dependency =>
             let affected_endpoints := m_used_in_endpoints model in
             let affected_models := used_by dependency in
             let usage_count :=
               (Py.len affected_endpoints + Py.len affected_models)%Z in
             Some (Py.dict_set impact model_name
                     {| i_model_name := model_name;
                        affected_endpoints := affected_endpoints;
                        affected_models := affected_models;
                        risk_level := risk_of usage_count;
                        usage_count := usage_count |})
         | _, _ => None
         end)
      l (Some impact) = Some impact' /\
    (NoDup (Py.dict_keys impact) -> NoDup (Py.dict_keys impact')) /\
    (forall name, In name (Py.dict_keys impact') <->
                  In name (Py.dict_keys impact) \/ In name (Py.dict_keys l)) /\
    (forall name i, Py.dict_get impact' name = Some i ->
       Py.dict_get impact name = Some i \/
       exists model dependency,
         In (name, model) l /\
         Py.dict_get dependencies name = Some dependency /\
         i = {| i_model_name := name;
                affected_endpoints := m_used_in_endpoints model;
                affected_models := used_by dependency;
                risk_level :=
                  risk_of (Py.len (m_used_in_endpoints model)
                           + Py.len (used_by dependency));
                usage_count :=
                  (Py.len (m_used_in_endpoints model) + Py.len (used_by dependency))%Z |}).
Proof.
  revert impact. induction l as [|[name model] l IH]; intros impact Hkeys.
  - exists impact. split; [reflexivity|]. split; [auto|]. split; [simpl; tauto|auto].
  - cbn [fold_left].
    destruct (Py.dict_get dependencies name) as [dependency|] eqn:Ed.
    2:{ exfalso. apply dict_get_none in Ed. apply Ed, Hkeys. now left. }
    cbv zeta.
    destruct (IH (Py.dict_set impact name
                    {| i_model_name := name;
                       affected_endpoints := m_used_in_endpoints model;
                       affected_models := used_by dependency;
                       risk_level :=
                         risk_of (Py.len (m_used_in_endpoints model)
                                  + Py.len (used_by dependency));
                       usage_count :=
                         (Py.len (m_used_in_endpoints model)
                          + Py.len (used_by dependency))%Z |}))
      as (impact' & E & Hnd & Hk & Hget).
    { intros k Hk. apply Hkeys. now right. }
    exists impact'. split; [exact E|]. split; [|split].
    + intros H. now apply Hnd, dict_set_nodup.
    + intros k. rewrite Hk, dict_keys_set. simpl. intuition.
    + intros k i Hi. destruct (Hget k i Hi) as [H|(model' & dep' & Hin & Hd & ->)].
      * rewrite dict_get_set in H. destruct (String.eqb_spec k name) as [->|Hne].
        -- injection H as <-. right. exists model, dependency. simpl. auto.
        -- now left.
      * right. exists model', dep'. simpl. auto.
Qed.


(** What [MappingAnalyzer(tracker)] holds for a model of the snapshot. *)
Lemma analysis_entries (fuel : nat) (t : tracker) :
  List.length (models t) < fuel ->
  exists a,
    new_analysis fuel t = Some a /\
    stats a = _calculate_stats t /\
    (forall name, In name (Py.dict_keys (model_dependencies a)) <->
                  In name (Py.dict_keys (models t))) /\
    (forall name, In name (Py.dict_keys (model_impact a)) <->
                  In name (Py.dict_keys (models t))) /\
    NoDup (Py.dict_keys (model_impact a)) /\
    (forall name dep, Py.dict_get (model_dependencies a) name = Some dep ->
       exists model,
         In (name, model) (models t) /\
         depends_on dep = Py.list_of_set (dependencies_of (models t) name model) /\
         used_by dep = Py.list_of_set (users_of (models t) name) /\
         _calculate_depth fuel (models t) name [] = Some (depth dep) /\
         (0 <= depth dep <= Py.len (models t))%Z) /\
    (forall name i, Py.dict_get (model_impact a) name = Some i ->
       exists model dep,
         In (name, model) (models t) /\
         Py.dict_get (model_dependencies a) name = Some dep /\
         affected_endpoints i = m_used_in_endpoints model /\
         affected_models i = used_by dep /\
         usage_count i = (Py.len (m_used_in_endpoints model) + Py.len (used_by dep))%Z /\
         risk_level i = risk_of (usage_count i)).
Proof.
  intros Hfuel.
  destruct (dependencies_loop fuel t (models t) [] Hfuel) as (deps & E1 & Hdk & Hdg).
  change (_analyze_dependencies fuel t = Some deps) in E1.
  destruct (impact_loop t deps (models t) []) as (impact & E2 & Hind & Hik & Hig).
  { intros name Hn. apply Hdk. now right. }
  change (_analyze_impact t deps = Some impact) in E2.
  unfold new_analysis. rewrite E1, E2.
  eexists. split; [reflexivity|]. cbn [stats model_dependencies model_impact].
  split; [reflexivity|]. split; [|split; [|split; [|split]]].
  - intros name. rewrite Hdk. simpl. tauto.
  - intros name. rewrite Hik. simpl. tauto.
  - apply Hind. constructor.
  - intros name dep Hd. destruct (Hdg name dep Hd) as [H|(model & d & Hin & Ed & ->)];
      [discriminate|].
    exists model. cbn [depends_on used_by depth]. repeat split; try assumption.
    + destruct (calculate_depth_enough (models t) fuel fuel name [])
        as (_ & d' & Ed' & Hd'); try (rewrite unvisited_nothing; lia).
      rewrite Ed in Ed'. injection Ed' as <-. lia.
    + destruct (calculate_depth_enough (models t) fuel fuel name [])
        as (_ & d' & Ed' & Hd'); try (rewrite unvisited_nothing; lia).
      rewrite Ed in Ed'. injection Ed' as <-. rewrite unvisited_nothing in Hd'.
      unfold Py.len. lia.
  - intros name i Hi. destruct (Hig name i Hi) as [H|(model & dep & Hin & Ed & ->)];
      [discriminate|].
    exists model, dep. cbn. repeat split; assumption.
Qed.



(** *** Who depends on whom *)

Lemma in_dependencies_of (models : Py.dict ModelVersion) (model_name : string)
    (model : ModelVersion) (other : string) :
  In other (dependencies_of models model_name model) <->
  In other (Py.dict_keys models) /\ other <> model_name /\
  exists field, In field (m_fields model) /\ Py.str_in other (f_type field) = true.
Proof.
  unfold dependencies_of. rewrite in_flat_map. split.
  - intros (field & Hf & Hin). apply in_flat_map in Hin.
    destruct Hin as (k & Hk & Hin).
    destruct (Py.str_in k (f_type field)) eqn:Es; [|destruct Hin].
    destruct (String.eqb_spec k model_name) as [->|Hne]; [destruct Hin|].
    destruct Hin as [<-|[]]. eauto.
  - intros (Hk & Hne & field & Hf & Hs). exists field. split; [exact Hf|].
    apply in_flat_map. exists other. split; [exact Hk|]. rewrite Hs.
    destruct (String.eqb_spec other model_name); [contradiction|]. now left.
Qed.

Lemma in_users_of (models : Py.dict ModelVersion) (model_name other : string) :
  In other (users_of models model_name) <->
  other <> model_name /\
  exists model field,
    In (other, model) models /\ In field (m_fields model) /\
    Py.str_in model_name (f_type field) = true.
Proof.
  unfold users_of. rewrite in_flat_map. split.
  - intros ([k model] & Hk & Hin).
    destruct (String.eqb_spec k model_name) as [->|Hne]; [destruct Hin|].
    apply in_flat_map in Hin. destruct Hin as (field & Hf & Hin).
    destruct (Py.str_in model_name (f_type field)) eqn:Es; [|destruct Hin].
    destruct Hin as [<-|[]]. split; [exact Hne|]. exists model, field. auto.
  - intros (Hne & model & field & Hm & Hf & Hs). exists (other, model).
    split; [exact Hm|]. destruct (String.eqb_spec other model_name); [contradiction|].
    apply in_flat_map. exists field. split; [exact Hf|]. rewrite Hs. now left.
Qed.

(** X23. The two lists of a dependency entry mirror each other: in the
    analysis of a snapshot of a run, a model [B] is in [depends_on] of a
    model [A] exactly when [A] is in [used_by] of [B]; no model is in its
    own lists, also when one of its fields has its own type; and the
    lists have no repeated name. *)
Theorem dependencies_mirror_users
    (t : tracker) (fuel : nat) (a : analysis) (A B : string) (dA dB : DependencyInfo) :
  analysed t ->
  List.length (models t) < fuel ->
  new_analysis fuel t = Some a ->
  Py.dict_get (model_dependencies a) A = Some dA ->
  Py.dict_get (model_dependencies a) B = Some dB ->
  (In B (depends_on dA) <-> In A (used_by dB)) /\
  ~ In A (depends_on dA) /\ ~ In A (used_by dA) /\
  NoDup (depends_on dA) /\ NoDup (used_by dA).
Proof.
  intros Ht Hfuel Ea HA HB.
  destruct (analysed_well_formed t Ht) as [Hnd _].
  destruct (analysis_entries fuel t Hfuel) as (a' & Ea' & _ & Hdk & _ & _ & Hd & _).
  rewrite Ea in Ea'. injection Ea' as <-.
  destruct (Hd A dA HA) as (mA & HmA & -> & -> & _).
  destruct (Hd B dB HB) as (mB & HmB & _ & -> & _).
  unfold Py.list_of_set. rewrite !nodup_In.
  split; [|split; [|split; [|split]]]; try apply NoDup_nodup.
  - rewrite in_dependencies_of, in_users_of. split.
    + intros (_ & Hne & field & Hf & Hs). split; [congruence|]. eauto.
    + intros (Hne & model & field & Hm & Hf & Hs).
      assert (model = mA).
      { apply (dict_in_get _ _ _ Hnd) in Hm. apply (dict_in_get _ _ _ Hnd) in HmA.
        congruence. }
      subst model. split; [|split; [congruence|eauto]].
      unfold Py.dict_keys. change B with (fst (B, mB)). now apply in_map.
  - rewrite in_dependencies_of. tauto.
  - rewrite in_users_of. tauto.
Qed.

Lemma dependencies_mirror_users_witness :
  option_map (fun a => map (fun entry => (fst entry, depends_on (snd entry),
                                          used_by (snd entry)))
                         (model_dependencies a))
    (new_analysis 5 Samples.shop)
  = Some [("Address", [], ["Customer"]); ("Customer", ["Address"], ["Order"]);
          ("Order", ["Customer"], []); ("Audit", [], [])] /\
  forall a dA dB,
    new_analysis 5 Samples.shop = Some a ->
    Py.dict_get (model_dependencies a) "Order" = Some dA ->
    Py.dict_get (model_dependencies a) "Customer" = Some dB ->
    (In "Customer" (depends_on dA) <-> In "Order" (used_by dB)) /\
    ~ In "Order" (depends_on dA).
Proof.
  split; [vm_compute; reflexivity|]. intros a dA dB Ea HA HB.
  destruct (dependencies_mirror_users Samples.shop 5 a "Order" "Customer" dA dB)
    as (H1 & H2 & _); try assumption.
  - apply analysed_directory, analysed_new.
  - vm_compute. lia.
  - split; assumption.
Defined.

(** *** Risk *)

Lemma len_nothing {A} (xs : list A) : Py.len xs = 0%Z <-> xs = [].
Proof.
  unfold Py.len. destruct xs; simpl; split; try reflexivity; try discriminate; lia.
Qed.

Lemma len_nonnegative {A} (xs : list A) : (0 <= Py.len xs)%Z.
Proof. unfold Py.len. lia. Qed.

Lemma risk_levels (n : Z) :
  (risk_of n = "none" <-> n = 0%Z) /\
  (risk_of n = "low" <-> n <> 0 /\ n <= 2)%Z /\
  (risk_of n = "medium" <-> 2 < n <= 5)%Z /\
  (risk_of n = "high" <-> n <> 0 /\ 5 < n)%Z.
Proof.
  unfold risk_of.
  destruct (Z.eqb_spec n 0); [|destruct (Z.leb_spec n 2); [|destruct (Z.leb_spec n 5)]];
    repeat split; intros; try discriminate; try lia; try reflexivity.
Qed.

(** X24. The impact of changing a model: its usage count is the number
    of labels in [used_in_endpoints] (an endpoint that takes and returns
    the model counts twice) plus the number of other models that use it;
    the risk is [none] exactly when nothing uses the model, [low] up to
    2 uses, [medium] up to 5 and [high] above. *)
Theorem impact_counts_uses
    (t : tracker) (fuel : nat) (a : analysis) (name : string) (i : ImpactAnalysis) :
  List.length (models t) < fuel ->
  new_analysis fuel t = Some a ->
  Py.dict_get (model_impact a) name = Some i ->
  exists model dep,
    In (name, model) (models t) /\
    Py.dict_get (model_dependencies a) name = Some dep /\
    usage_count i =
      (Py.len (m_used_in_endpoints model)
       + Py.len (Py.list_of_set (users_of (models t) name)))%Z /\
    (risk_level i = "none" <->
     m_used_in_endpoints model = [] /\ users_of (models t) name = []) /\
    (risk_level i = "low" <-> 1 <= usage_count i <= 2)%Z /\
    (risk_level i = "medium" <-> 3 <= usage_count i <= 5)%Z /\
    (risk_level i = "high" <-> 5 < usage_count i)%Z.
Proof.
  intros Hfuel Ea Hi.
  destruct (analysis_entries fuel t Hfuel) as (a' & Ea' & _ & _ & _ & _ & Hd & Himp).
  rewrite Ea in Ea'. injection Ea' as <-.
  destruct (Himp name i Hi) as (model & dep & Hm & Hdep & _ & _ & Hu & Hr).
  destruct (Hd name dep Hdep) as (_ & _ & _ & Hused & _).
  exists model, dep. split; [exact Hm|]. split; [exact Hdep|].
  rewrite Hused in Hu. split; [exact Hu|]. rewrite Hr.
  destruct (risk_levels (usage_count i)) as (Hnone & Hlow & Hmedium & Hhigh).
  pose proof (len_nonnegative (m_used_in_endpoints model)).
  pose proof (len_nonnegative (Py.list_of_set (users_of (models t) name))).
  split; [|split; [|split]].
  - rewrite Hnone, Hu. split.
    + intros H1.
      assert (E1 : Py.len (m_used_in_endpoints model) = 0%Z) by lia.
      assert (E2 : Py.len (Py.list_of_set (users_of (models t) name)) = 0%Z) by lia.
      apply len_nothing in E1, E2. split; [exact E1|].
      destruct (users_of (models t) name) as [|x l] eqn:E; [reflexivity|].
      exfalso. assert (Hx : In x (Py.list_of_set (x :: l)))
        by (unfold Py.list_of_set; apply nodup_In; now left).
      rewrite E2 in Hx. destruct Hx.
    + intros [-> ->]. reflexivity.
  - rewrite Hlow. lia.
  - rewrite Hmedium. lia.
  - rewrite Hhigh. lia.
Qed.

Lemma impact_counts_uses_witness :
  option_map (fun a => map (fun entry => (fst entry, usage_count (snd entry),
                                          risk_level (snd entry)))
                         (model_impact a))
    (new_analysis 5 Samples.shop)
  = Some [("Address", 1%Z, "low"); ("Customer", 2%Z, "low"); ("Order", 2%Z, "low");
          ("Audit", 0%Z, "none")] /\
  forall a i, new_analysis 5 Samples.shop = Some a ->
    Py.dict_get (model_impact a) "Audit" = Some i ->
    exists model dep,
      In ("Audit", model) (models Samples.shop) /\
      Py.dict_get (model_dependencies a) "Audit" = Some dep /\
      usage_count i =
        (Py.len (m_used_in_endpoints model)
         + Py.len (Py.list_of_set (users_of (models Samples.shop) "Audit")))%Z.
Proof.
  split; [vm_compute; reflexivity|]. intros a i Ea Hi.
  destruct (impact_counts_uses Samples.shop 5 a "Audit" i) as (model & dep & H1 & H2 & H3 & _);
    try assumption.
  - vm_compute. lia.
  - exists model, dep. split; [exact H1|]. split; [exact H2|exact H3].
Defined.

(** *** The statistics and the lists *)

Lemma insert_desc_permutation {A} (key : A -> Z) (x : A) (l : list A) :
  Permutation (Py.insert_desc key x l) (x :: l).
Proof.
  induction l as [|y l IH]; simpl; [reflexivity|].
  destruct (key x <? key y)%Z; [|reflexivity].
  rewrite IH. apply perm_swap.
Qed.

Lemma sort_desc_permutation {A} (key : A -> Z) (l : list A) :
  Permutation (Py.sort_desc key l) l.
Proof.
  induction l as [|x l IH]; simpl; [reflexivity|].
  rewrite insert_desc_permutation. now constructor.
Qed.

Lemma insert_desc_ordered {A} (key : A -> Z) (x : A) (l : list A) :
  Sorted (fun a b => (key b <= key a)%Z) l ->
  Sorted (fun a b => (key b <= key a)%Z) (Py.insert_desc key x l).
Proof.
  induction 1 as [|y l Hs IH Hd]; simpl.
  - repeat constructor.
  - destruct (Z.ltb_spec (key x) (key y)).
    + constructor; [assumption|].
      destruct l as [|z l]; simpl.
      * constructor. lia.
      * destruct (Z.ltb_spec (key x) (key z)); constructor; [|lia].
        now inversion Hd.
    + repeat constructor; [assumption|assumption|lia].
Qed.

Lemma sort_desc_ordered {A} (key : A -> Z) (l : list A) :
  StronglySorted (fun a b => (key b <= key a)%Z) (Py.sort_desc key l).
Proof.
  apply Sorted_StronglySorted.
  - intros x y z. lia.
  - induction l as [|x l IH]; simpl; [constructor|]. now apply insert_desc_ordered.
Qed.

Lemma count_if_filter {A} (p : A -> bool) (xs : list A) :
  Py.count_if p xs = Py.len (filter p xs).
Proof.
  induction xs as [|x xs IH]; [reflexivity|].
  rewrite count_if_cons, IH. simpl. destruct (p x); [now rewrite len_cons|lia].
Qed.

Lemma max_by_greatest {A} (key : A -> Z) (xs : list A) (best : A) :
  Py.max_by key xs = Some best ->
  In best xs /\ forall x, In x xs -> (key x <= key best)%Z.
Proof.
  destruct xs as [|x0 rest]; [discriminate|]. cbn [Py.max_by]. intros [= <-].
  revert x0. induction rest as [|y rest IH]; intros x0.
  - simpl. split; [now left|]. intros x [<-|[]]. lia.
  - cbn [fold_left].
    destruct (IH (if (key x0 <? key y)%Z then y else x0)) as [Hin Hmax].
    split.
    + destruct Hin as [H|H]; [|now right; right].
      rewrite <- H. destruct (key x0 <? key y)%Z; simpl; auto.
    + assert (H0 : (key (if (key x0 <? key y)%Z then y else x0)
                    <= key (fold_left (fun best y => if (key best <? key y)%Z
                                                     then y else best) rest
                              (if (key x0 <? key y)%Z then y else x0)))%Z)
        by (apply Hmax; now left).
      intros x [<-|[<-|Hx]].
      * destruct (Z.ltb_spec (key x0) (key y)); lia.
      * destruct (Z.ltb_spec (key x0) (key y)); lia.
      * apply Hmax. now right.
Qed.

Lemma rows_count (models : Py.dict ModelVersion) :
  List.length
    (flat_map
       (fun '(model_name, model) =>
          if CodeAnalyzer.nonempty_list (m_used_in_endpoints model)
          then [{| rr_model := model_name;
                   rr_endpoints := m_used_in_endpoints model;
                   rr_count := Py.len (m_used_in_endpoints model);
                   rr_file := m_file_path model |}]
          else [])
       models) =
  List.length (filter (fun m => CodeAnalyzer.nonempty_list (m_used_in_endpoints m))
                 (Py.dict_values models)) /\
  List.length models =
    List.length (filter (fun m => CodeAnalyzer.nonempty_list (m_used_in_endpoints m))
                   (Py.dict_values models))
    + List.length
        (flat_map
           (fun '(model_name, model) =>
              if negb (CodeAnalyzer.nonempty_list (m_used_in_endpoints model))
              then [{| or_name := model_name; or_file := m_file_path model;
                       or_fields := Py.len (m_fields model) |}]
              else [])
           models).
Proof.
  unfold Py.dict_values.
  induction models as [|[name m] models [IH1 IH2]]; [split; reflexivity|].
  cbn [flat_map map snd filter List.length].
  destruct (CodeAnalyzer.nonempty_list (m_used_in_endpoints m)); cbn [negb app List.length];
    split; lia.
Qed.

Lemma rows_and_orphans (models : Py.dict ModelVersion) :
  Permutation
    (map rr_model
       (flat_map
          (fun '(model_name, model) =>
             if CodeAnalyzer.nonempty_list (m_used_in_endpoints model)
             then [{| rr_model := model_name;
                      rr_endpoints := m_used_in_endpoints model;
                      rr_count := Py.len (m_used_in_endpoints model);
                      rr_file := m_file_path model |}]
             else [])
          models)
     ++ map or_name
          (flat_map
             (fun '(model_name, model) =>
                if negb (CodeAnalyzer.nonempty_list (m_used_in_endpoints model))
                then [{| or_name := model_name; or_file := m_file_path model;
                         or_fields := Py.len (m_fields model) |}]
                else [])
             models))
    (Py.dict_keys models).
Proof.
  unfold Py.dict_keys. induction models as [|[name m] models IH]; [reflexivity|].
  cbn [flat_map map fst].
  destruct (CodeAnalyzer.nonempty_list (m_used_in_endpoints m)); cbn [negb app map].
  - now constructor.
  - etransitivity; [symmetry; apply Permutation_middle|]. now constructor.
Qed.

(** X25. The statistics agree with the lists of the report: the reuse
    matrix has [models_with_endpoints] rows, the list of orphaned models
    has [orphaned_models] rows, the two counts add up to [total_models],
    and every model of the snapshot is in exactly one of the two
    lists. *)
Theorem statistics_agree_with_lists (t : tracker) :
  let s := _calculate_stats t in
  st_models_with_endpoints s = Py.len (_generate_reuse_matrix t) /\
  st_orphaned_models s = Py.len (_get_orphaned_models t) /\
  st_total_models s = (st_models_with_endpoints s + st_orphaned_models s)%Z /\
  Permutation
    (map rr_model (_generate_reuse_matrix t) ++ map or_name (_get_orphaned_models t))
    (Py.dict_keys (models t)).
Proof.
  cbv zeta. unfold _calculate_stats. cbv zeta.
  cbn [st_models_with_endpoints st_orphaned_models st_total_models].
  destruct (rows_count (models t)) as [Hrows Hsum].
  fold (_get_orphaned_models t) in Hsum.
  assert (Hmatrix : Py.len (_generate_reuse_matrix t) =
                    Py.count_if (fun m => CodeAnalyzer.nonempty_list (m_used_in_endpoints m))
                      (Py.dict_values (models t))).
  { rewrite count_if_filter. unfold Py.len, _generate_reuse_matrix. f_equal.
    rewrite (Permutation_length (sort_desc_permutation _ _)). exact Hrows. }
  split; [now rewrite Hmatrix|]. split; [|split].
  - rewrite count_if_filter. unfold Py.len. lia.
  - lia.
  - unfold _generate_reuse_matrix.
    etransitivity; [|apply rows_and_orphans].
    apply Permutation_app_tail, Permutation_map, sort_desc_permutation.
Qed.

Example shop_statistics :
  _calculate_stats Samples.shop =
    {| st_total_models := 4; st_total_endpoints := 2; st_models_with_endpoints := 2;
       st_orphaned_models := 2; most_reused_model := "Order"; most_reused_count := 2 |} /\
  map (fun row => (rr_model row, rr_count row)) (_generate_reuse_matrix Samples.shop)
    = [("Order", 2%Z); ("Customer", 1%Z)] /\
  map or_name (_get_orphaned_models Samples.shop) = ["Address"; "Audit"].
Proof. vm_compute. repeat split. Qed.

Lemma uses_positive (m : ModelVersion) :
  CodeAnalyzer.nonempty_list (m_used_in_endpoints m) = true <-> (1 <= uses m)%Z.
Proof.
  unfold uses, Py.len. destruct (m_used_in_endpoints m); simpl; split;
    try reflexivity; try discriminate; lia.
Qed.

Lemma in_rows (models : Py.dict ModelVersion) (row : reuse_row) :
  In row
    (flat_map
       (fun '(model_name, model) =>
          if CodeAnalyzer.nonempty_list (m_used_in_endpoints model)
          then [{| rr_model := model_name;
                   rr_endpoints := m_used_in_endpoints model;
                   rr_count := Py.len (m_used_in_endpoints model);
                   rr_file := m_file_path model |}]
          else [])
       models) <->
  exists name model,
    In (name, model) models /\ (1 <= uses model)%Z /\
    row = {| rr_model := name; rr_endpoints := m_used_in_endpoints model;
             rr_count := uses model; rr_file := m_file_path model |}.
Proof.
  rewrite in_flat_map. split.
  - intros ([name model] & Hin & Hrow).
    destruct (CodeAnalyzer.nonempty_list (m_used_in_endpoints model)) eqn:E;
      [|destruct Hrow].
    destruct Hrow as [<-|[]]. exists name, model. split; [exact Hin|].
    split; [now apply uses_positive|reflexivity].
  - intros (name & model & Hin & Hpos & ->). exists (name, model). split; [exact Hin|].
    rewrite (proj2 (uses_positive model) Hpos). now left.
Qed.

(** X26. The reuse matrix is in descending order of its counts, holds
    only models that some endpoint uses, each with the number of its
    labels as count, and its first row has the count the statistics
    report as [most_reused_count]. That count is the greatest number of
    uses of a model; the name next to it is [N/A] only for a snapshot
    without models, and is otherwise the name of a model with that
    count, also when the count is 0. *)
Theorem reuse_matrix_is_ordered (t : tracker) :
  let s := _calculate_stats t in
  let matrix := _generate_reuse_matrix t in
  Sorted (fun a b => (rr_count b <= rr_count a)%Z) matrix /\
  (forall row, In row matrix ->
     rr_count row = Py.len (rr_endpoints row) /\ (1 <= rr_count row)%Z /\
     exists model, In (rr_model row, model) (models t) /\
                   rr_endpoints row = m_used_in_endpoints model) /\
  (forall model, In model (Py.dict_values (models t)) -> (uses model <= most_reused_count s)%Z) /\
  (forall row rest, matrix = row :: rest -> rr_count row = most_reused_count s) /\
  (models t = [] -> most_reused_model s = "N/A" /\ most_reused_count s = 0%Z) /\
  (models t <> [] ->
   exists model, In model (Py.dict_values (models t)) /\
                 most_reused_model s = m_name model /\ most_reused_count s = uses model).
Proof.
  cbv zeta.
  pose proof (sort_desc_ordered rr_count
                (flat_map
                   (fun '(model_name, model) =>
                      if CodeAnalyzer.nonempty_list (m_used_in_endpoints model)
                      then [{| rr_model := model_name;
                               rr_endpoints := m_used_in_endpoints model;
                               rr_count := Py.len (m_used_in_endpoints model);
                               rr_file := m_file_path model |}]
                      else [])
                   (models t))) as Hsorted.
  fold (_generate_reuse_matrix t) in Hsorted.
  assert (Hrows : forall row, In row (_generate_reuse_matrix t) <->
            exists name model,
              In (name, model) (models t) /\ (1 <= uses model)%Z /\
              row = {| rr_model := name; rr_endpoints := m_used_in_endpoints model;
                       rr_count := uses model; rr_file := m_file_path model |}).
  { intros row. rewrite <- in_rows. unfold _generate_reuse_matrix. split.
    - apply Permutation_in, sort_desc_permutation.
    - apply Permutation_in. symmetry. apply sort_desc_permutation. }
  assert (Hbest : forall model, In model (Py.dict_values (models t)) ->
            exists best, Py.max_by uses (Py.dict_values (models t)) = Some best /\
                         In best (Py.dict_values (models t)) /\
                         forall x, In x (Py.dict_values (models t)) ->
                                   (uses x <= uses best)%Z).
  { intros model Hm.
    destruct (Py.max_by uses (Py.dict_values (models t))) as [best|] eqn:E.
    - exists best. split; [reflexivity|]. now apply max_by_greatest.
    - destruct (Py.dict_values (models t)); [destruct Hm|discriminate]. }
  unfold _calculate_stats. cbv zeta. cbn [most_reused_model most_reused_count].
  split; [now apply StronglySorted_Sorted|]. split; [|split; [|split; [|split]]].
  - intros row Hrow. apply Hrows in Hrow. destruct Hrow as (name & model & Hin & Hpos & ->).
    cbn [rr_count rr_endpoints rr_model]. split; [reflexivity|]. split; [exact Hpos|].
    exists model. split; [exact Hin|reflexivity].
  - intros model Hm. destruct (Hbest model Hm) as (best & -> & _ & Hmax). now apply Hmax.
  - intros row rest Ematrix.
    assert (Hrow : In row (_generate_reuse_matrix t)) by (rewrite Ematrix; now left).
    apply Hrows in Hrow. destruct Hrow as (name & model & Hin & Hpos & Erow).
    assert (Hm : In model (Py.dict_values (models t)))
      by (unfold Py.dict_values; change model with (snd (name, model)); now apply in_map).
    destruct (Hbest model Hm) as (best & -> & Hbin & Hmax).
    pose proof (Hmax model Hm) as Hle.
    apply in_map_iff in Hbin. destruct Hbin as ([bname best'] & Eb & Hbin).
    cbn [snd] in Eb. subst best'.
    assert (Hbrow : In {| rr_model := bname; rr_endpoints := m_used_in_endpoints best;
                          rr_count := uses best; rr_file := m_file_path best |}
                      (_generate_reuse_matrix t)).
    { apply Hrows. exists bname, best. split; [exact Hbin|]. split; [lia|reflexivity]. }
    rewrite Ematrix in Hbrow, Hsorted. inversion Hsorted as [|? ? _ Hall]; subst.
    cbn [rr_count] in *.
    destruct Hbrow as [Hb|Hb].
    + now injection Hb.
    + rewrite Forall_forall in Hall. specialize (Hall _ Hb). cbn [rr_count] in Hall. lia.
  - intros ->. split; reflexivity.
  - intros Hne. destruct (models t) as [|[name model] rest] eqn:E; [contradiction|].
    destruct (Hbest model) as (best & Ebest & Hbin & _); [now left|].
    rewrite Ebest. exists best. split; [exact Hbin|]. split; reflexivity.
Qed.

(** *** Depth 0 *)

Lemma deepest_names (nested : string -> option Z) (names : list string)
    (field : FieldInfo) (m : Z) :
  (forall other, exists d, nested other = Some d /\ (0 <= d)%Z) ->
  exists m',
    fold_left
      (fun max_depth other_model =>
         if Py.str_in other_model (f_type field) then
           match max_depth, nested other_model with
           | Some m, Some d => Some (Z.max m (1 + d))
           | _, _ => None
           end
         else max_depth)
      names (Some m) = Some m' /\
    (m <= m')%Z /\
    ((exists other, In other names /\ Py.str_in other (f_type field) = true) ->
     (1 <= m')%Z) /\
    ((forall other, In other names -> Py.str_in other (f_type field) = false) -> m' = m).
Proof.
  intros Hn. revert m. induction names as [|other names IH]; intros m.
  - exists m. split; [reflexivity|]. split; [lia|]. split; [intros (x & [] & _)|reflexivity].
  - cbn [fold_left]. destruct (Py.str_in other (f_type field)) eqn:E.
    + destruct (Hn other) as (d & -> & Hd).
      destruct (IH (Z.max m (1 + d))) as (m' & -> & Hle & _ & Hsame).
      exists m'. split; [reflexivity|]. split; [lia|]. split; [intros _; lia|].
      intros Hno. rewrite (Hno other) in E by now left. discriminate.
    + destruct (IH m) as (m' & -> & Hle & Hhit & Hsame).
      exists m'. split; [reflexivity|]. split; [exact Hle|]. split.
      * intros (x & [<-|Hx] & Hs); [congruence|]. apply Hhit. eauto.
      * intros Hno. apply Hsame. intros x Hx. apply Hno. now right.
Qed.

Lemma deepest_zero (nested : string -> option Z) (names : list string)
    (fields : list FieldInfo) :
  (forall other, exists d, nested other = Some d /\ (0 <= d)%Z) ->
  exists d,
    deepest nested names fields = Some d /\
    (d = 0%Z <->
     forall field other, In field fields -> In other names ->
                         Py.str_in other (f_type field) = false).
Proof.
  intros Hn. unfold deepest.
  assert (H : forall m, (0 <= m)%Z ->
            exists m',
              fold_left
                (fun max_depth field =>
                   fold_left
                     (fun max_depth other_model =>
                        if Py.str_in other_model (f_type field) then
                          match max_depth, nested other_model with
                          | Some m, Some d => Some (Z.max m (1 + d))
                          | _, _ => None
                          end
                        else max_depth)
                     names max_depth)
                fields (Some m) = Some m' /\
              (m <= m')%Z /\
              ((exists field other, In field fields /\ In other names /\
                                    Py.str_in other (f_type field) = true) ->
               (1 <= m')%Z) /\
              ((forall field other, In field fields -> In other names ->
                                    Py.str_in other (f_type field) = false) -> m' = m)).
  { induction fields as [|field fields IH]; intros m Hm.
    - exists m. split; [reflexivity|]. split; [lia|].
      split; [intros (f & o & [] & _)|reflexivity].
    - cbn [fold_left].
      destruct (deepest_names nested names field m Hn) as (m1 & -> & Hle1 & Hhit1 & Hsame1).
      destruct (IH m1) as (m' & -> & Hle & Hhit & Hsame); [lia|].
      exists m'. split; [reflexivity|]. split; [lia|]. split.
      + intros (f & o & [<-|Hf] & Ho & Hs).
        * assert (1 <= m1)%Z by (apply Hhit1; eauto). lia.
        * apply Hhit. eauto.
      + intros Hno. rewrite Hsame, Hsame1; [reflexivity| |].
        * intros o Ho. apply (Hno field o); [now left|exact Ho].
        * intros f o Hf Ho. apply (Hno f o); [now right|exact Ho]. }
  destruct (H 0%Z) as (d & -> & Hle & Hhit & Hsame); [lia|].
  exists d. split; [reflexivity|]. split.
  - intros -> field other Hf Ho.
    destruct (Py.str_in other (f_type field)) eqn:E; [|reflexivity].
    assert (1 <= 0)%Z by (apply Hhit; eauto). lia.
  - exact Hsame.
Qed.

(** X27. The depth of a model is 0 exactly when no type text of its
    fields contains the name of a model of the snapshot, its own name
    included: a model with a field of its own type ([next:
    Optional[Node]]) has depth at least 1, though it is not in its own
    [depends_on]. *)
Theorem depth_is_zero_without_model_fields
    (t : tracker) (fuel : nat) (a : analysis) (name : string)
    (dep : DependencyInfo) (model : ModelVersion) :
  List.length (models t) < fuel ->
  new_analysis fuel t = Some a ->
  Py.dict_get (model_dependencies a) name = Some dep ->
  Py.dict_get (models t) name = Some model ->
  (depth dep = 0%Z <->
   forall field other,
     In field (m_fields model) -> In other (Py.dict_keys (models t)) ->
     Py.str_in other (f_type field) = false) /\
  (forall field, In field (m_fields model) -> Py.str_in name (f_type field) = true ->
     (1 <= depth dep)%Z /\ ~ In name (depends_on dep)).
Proof.
  intros Hfuel Ea Hdep Hmodel.
  destruct (analysis_entries fuel t Hfuel) as (a' & Ea' & _ & _ & _ & _ & Hd & _).
  rewrite Ea in Ea'. injection Ea' as <-.
  destruct (Hd name dep Hdep) as (model' & _ & Edep & _ & Edepth & Hbound).
  destruct fuel as [|fuel']; [lia|]. cbn [_calculate_depth] in Edepth.
  change (Py.list_in name []) with false in Edepth. cbv iota in Edepth.
  rewrite Hmodel in Edepth.
  assert (Hin : In name (Py.dict_keys (models t))).
  { apply dict_get_in in Hmodel. unfold Py.dict_keys.
    change name with (fst (name, model)). now apply in_map. }
  destruct (deepest_zero
              (fun other => _calculate_depth fuel' (models t) other [name])
              (Py.dict_keys (models t)) (m_fields model)) as (d & Ed & Hzero).
  { intros other.
    destruct (calculate_depth_enough (models t) fuel' fuel' other [name])
      as (_ & d & Ed & Hd0).
    - pose proof (unvisited_shrinks (models t) name [] Hin eq_refl).
      rewrite unvisited_nothing in *. lia.
    - pose proof (unvisited_shrinks (models t) name [] Hin eq_refl).
      rewrite unvisited_nothing in *. lia.
    - exists d. split; [exact Ed|lia]. }
  rewrite Ed in Edepth. injection Edepth as Edd. subst d.
  split; [exact Hzero|].
  intros field Hf Hs. split.
  - destruct (Z.eq_dec (depth dep) 0) as [E|E]; [|lia].
    rewrite (proj1 Hzero E field name Hf Hin) in Hs. discriminate.
  - rewrite Edep. unfold Py.list_of_set. rewrite nodup_In, in_dependencies_of. tauto.
Qed.

Lemma depth_is_zero_without_model_fields_witness :
  option_map (fun a => map (fun entry => (fst entry, depth (snd entry),
                                          depends_on (snd entry)))
                         (model_dependencies a))
    (new_analysis 3 Samples.tree)
  = Some [("Node", 1%Z, []); ("Leaf", 0%Z, [])] /\
  forall a dep model,
    new_analysis 3 Samples.tree = Some a ->
    Py.dict_get (model_dependencies a) "Leaf" = Some dep ->
    Py.dict_get (models Samples.tree) "Leaf" = Some model ->
    depth dep = 0%Z <->
    forall field other,
      In field (m_fields model) -> In other (Py.dict_keys (models Samples.tree)) ->
      Py.str_in other (f_type field) = false.
Proof.
  split; [vm_compute; reflexivity|]. intros a dep model Ea Hdep Hmodel.
  destruct (depth_is_zero_without_model_fields Samples.tree 3 a "Leaf" dep model)
    as [Hzero _]; try assumption.
  vm_compute. lia.
Defined.

(** *** The models of high risk *)

Lemma in_risk_rows (impact : Py.dict ImpactAnalysis) (row : risk_row) :
  In row
    (flat_map
       (fun '(model_name, impact) =>
          if String.eqb (risk_level impact) "high"
          then [{| hr_name := model_name;
                   hr_affected_endpoints := affected_endpoints impact;
                   hr_affected_models := affected_models impact;
                   hr_usage_count := usage_count impact |}]
          else [])
       impact) <->
  exists name i,
    In (name, i) impact /\ risk_level i = "high" /\
    row = {| hr_name := name; hr_affected_endpoints := affected_endpoints i;
             hr_affected_models := affected_models i;
             hr_usage_count := usage_count i |}.
Proof.
  rewrite in_flat_map. split.
  - intros ([name i] & Hin & Hrow).
    destruct (String.eqb_spec (risk_level i) "high") as [E|E]; [|destruct Hrow].
    destruct Hrow as [<-|[]]. exists name, i. auto.
  - intros (name & i & Hin & E & ->). exists (name, i). split; [exact Hin|].
    rewrite E. now left.
Qed.

(** X28. The list of high-risk models holds exactly the models with more
    than five uses, each with the lists and the count of its impact
    entry, in descending order of the counts. *)
Theorem high_risk_models_have_many_uses (t : tracker) (fuel : nat) (a : analysis) :
  List.length (models t) < fuel ->
  new_analysis fuel t = Some a ->
  Sorted (fun r1 r2 => (hr_usage_count r2 <= hr_usage_count r1)%Z)
    (_get_high_risk_models a) /\
  (forall row, In row (_get_high_risk_models a) ->
     (5 < hr_usage_count row)%Z /\
     exists i, Py.dict_get (model_impact a) (hr_name row) = Some i /\
               hr_usage_count row = usage_count i /\
               hr_affected_endpoints row = affected_endpoints i /\
               hr_affected_models row = affected_models i) /\
  (forall name i,
     Py.dict_get (model_impact a) name = Some i -> (5 < usage_count i)%Z ->
     In {| hr_name := name; hr_affected_endpoints := affected_endpoints i;
           hr_affected_models := affected_models i; hr_usage_count := usage_count i |}
        (_get_high_risk_models a)).
Proof.
  intros Hfuel Ea.
  destruct (analysis_entries fuel t Hfuel) as (a' & Ea' & _ & _ & _ & Hnd & _ & Himp).
  rewrite Ea in Ea'. injection Ea' as <-.
  assert (Hrows : forall row, In row (_get_high_risk_models a) <->
            exists name i,
              In (name, i) (model_impact a) /\ risk_level i = "high" /\
              row = {| hr_name := name; hr_affected_endpoints := affected_endpoints i;
                       hr_affected_models := affected_models i;
                       hr_usage_count := usage_count i |}).
  { intros row. rewrite <- in_risk_rows. unfold _get_high_risk_models. split.
    - apply Permutation_in, sort_desc_permutation.
    - apply Permutation_in. symmetry. apply sort_desc_permutation. }
  assert (Hhigh : forall name i, Py.dict_get (model_impact a) name = Some i ->
            (risk_level i = "high" <-> (5 < usage_count i)%Z)).
  { intros name i Hi. destruct (Himp name i Hi) as (_ & _ & _ & _ & _ & _ & _ & ->).
    destruct (risk_levels (usage_count i)) as (_ & _ & _ & ->). lia. }
  split; [|split].
  - apply StronglySorted_Sorted. unfold _get_high_risk_models. apply sort_desc_ordered.
  - intros row Hrow. apply Hrows in Hrow. destruct Hrow as (name & i & Hin & Hr & ->).
    apply (dict_in_get _ _ _ Hnd) in Hin. cbn [hr_usage_count hr_name hr_affected_endpoints
                                               hr_affected_models].
    split; [now apply (Hhigh name i Hin)|]. exists i. auto.
  - intros name i Hi Hmany. apply Hrows. exists name, i.
    split; [now apply dict_get_in|]. split; [now apply (Hhigh name i Hi)|reflexivity].
Qed.

Lemma high_risk_models_have_many_uses_witness :
  option_map (fun a => map (fun row => (hr_name row, hr_usage_count row))
                         (_get_high_risk_models a))
    (new_analysis 2 Samples.desk)
  = Some [("Ticket", 6%Z)] /\
  forall a row, new_analysis 2 Samples.desk = Some a ->
    In row (_get_high_risk_models a) -> (5 < hr_usage_count row)%Z.
Proof.
  split; [vm_compute; reflexivity|]. intros a row Ea Hrow.
  destruct (high_risk_models_have_many_uses Samples.desk 2 a) as (_ & Hrows & _);
    [vm_compute; lia|exact Ea|].
  destruct (Hrows row Hrow) as [Hmany _]. exact Hmany.
Defined.

End Mapping.
